(** * snapem: pre-flight dependency vetting

    A shallow embedding of the Go sources of snapem

      - internal/manifest/parser.go      (package identity extraction)
      - internal/types                   (Finding, ScanResult, AggregatedResult)
      - internal/config/config.go        (policy queries)
      - internal/scanner/orchestrator.go (Scan, ScanWithProgress, aggregate)
      - internal/cli/scan.go, install.go (policy evaluation of a scan result)
      - internal/ui/prompt.go            (the two confirmation prompts)

    Go strings are byte strings and are modelled by [string]; Go's [int] is
    modelled by [Z] (every counter below is bounded by the length of a slice,
    so the 64-bit range is never left); a Go [map] that is only looked up is a
    [gmap]; a Go [map] that is ranged over is the list of its entries in the
    order the range statement visits them. *)

From Stdlib Require Import ZArith Lia Bool List Ascii String Permutation.
From Stdlib Require QArith.
From stdpp Require Import base gmap strings.
Import ListNotations.

Open Scope string_scope.
Open Scope list_scope.
Open Scope Z_scope.

(** ** Errors (internal/errors) *)

Module Errors.

Definition ExitSecurityBlock : Z := 2.
Definition ExitScannerError : Z := 6.
Definition ExitUserAbort : Z := 130.

(** A Go [error] value: a [*SnapemError] built by [New] (code, message), one
    built by [Wrap] around a cause, or an error that comes from outside the
    modelled code (transport, JSON, I/O). *)
Inductive error : Type :=
| Foreign (msg : string)
| Snapem (Code : Z) (Message : string)
| Wrapped (Code : Z) (Message : string) (Cause : error).

Definition New (code : Z) (message : string) : error := Snapem code message.

Definition Wrap (code : Z) (message : string) (cause : error) : error :=
  Wrapped code message cause.

Definition SecurityBlockError (message : string) : error :=
  New ExitSecurityBlock message.

Definition ScannerError (scanner : string) (cause : error) : error :=
  Wrap ExitScannerError (scanner +:+ " scanner failed") cause.

Definition UserAbortError : error := New ExitUserAbort "operation cancelled by user".

End Errors.

(** ** Byte-level helpers shared by the string routines *)

Module Bytes.

Fixpoint dropWhile {A : Type} (p : A -> bool) (l : list A) : list A :=
  match l with
  | [] => []
  | x :: l' => if p x then dropWhile p l' else l
  end.

Fixpoint takeWhile {A : Type} (p : A -> bool) (l : list A) : list A :=
  match l with
  | [] => []
  | x :: l' => if p x then x :: takeWhile p l' else []
  end.

Definition bytes (s : string) : list ascii := list_ascii_of_string s.
Definition str (l : list ascii) : string := string_of_list_ascii l.

(** [s[:n]] and [s[n:]] for [n <= len(s)]. *)
Definition prefix (n : nat) (s : string) : string := str (firstn n (bytes s)).
Definition suffix (n : nat) (s : string) : string := str (skipn n (bytes s)).

End Bytes.

(** ** internal/manifest/parser.go *)

Module Manifest.
Import Bytes.

Record Package : Type := mkPackage {
  Name : string;
  Version : string;
  Ecosystem : string
}.

Record ManifestFile : Type := mkManifest {
  mName : string;
  mVersion : string;
  Dependencies : list (string * string);
  DevDependencies : list (string * string)
}.

Record PackageLockPkg : Type := mkPackageLockPkg {
  lVersion : string;
  Resolved : string;
  Integrity : string;
  Dev : bool
}.

Record PackageLock : Type := mkPackageLock {
  plName : string;
  plVersion : string;
  LockfileVersion : Z;
  Packages : list (string * PackageLockPkg)
}.

Definition PURL (p : Package) : string :=
  "pkg:" +:+ Ecosystem p +:+ "/" +:+ Name p +:+ "@" +:+ Version p.

(** [os.IsPathSeparator] on the platforms snapem targets (macOS). *)
Definition IsPathSeparator (c : ascii) : bool := Ascii.eqb c "/"%char.

(** [path/filepath.Base]: the last element of the path, after trailing
    separators are stripped; ["."] for the empty path and ["/"] for a path
    of separators only.  There is no volume name on Unix. *)
Definition Base (path : string) : string :=
  if String.eqb path "" then "."
  else
    let stripped := dropWhile IsPathSeparator (rev (bytes path)) in
    let last := rev (takeWhile (fun c => negb (IsPathSeparator c)) stripped) in
    if String.eqb (str last) "" then "/" else str last.

(** [cleanVersion]: removes one leading range operator. *)
Fixpoint cleanVersion_loop (prefixes : list string) (version : string) : string :=
  match prefixes with
  | [] => version
  | p :: rest =>
      if (String.length p <? String.length version)%nat
         && String.eqb (prefix (String.length p) version) p
      then suffix (String.length p) version
      else cleanVersion_loop rest version
  end.

Definition cleanVersion (version : string) : string :=
  if (String.length version =? 0)%nat then version
  else cleanVersion_loop ["^"; "~"; ">="; "<="; ">"; "<"; "="] version.

(** The body of the loop over [lockfile.Packages]: one entry either appends
    a package or is skipped. *)
Definition lockEntry (includeDev : bool) (packages : list Package)
    (entry : string * PackageLockPkg) : list Package :=
  let '(pkgPath, pkgInfo) := entry in
  if String.eqb pkgPath "" then packages
  else if Dev pkgInfo && negb includeDev then packages
  else
    let name := Base pkgPath in
    if String.eqb name "" || String.eqb (lVersion pkgInfo) "" then packages
    else packages ++ [mkPackage name (lVersion pkgInfo) "npm"].

Definition manifestEntry (packages : list Package) (entry : string * string)
    : list Package :=
  let '(name, version) := entry in
  packages ++ [mkPackage name (cleanVersion version) "npm"].

(** [GetDependencies].  [manifest] is what [ParseManifest] returned and
    [lockfile] what [ParseLockfile] returned with its error dropped ([None]
    is the nil lockfile). *)
Definition GetDependencies (manifest : ManifestFile + Errors.error)
    (lockfile : option PackageLock) (includeDev : bool)
    : list Package + Errors.error :=
  match manifest with
  | inr err => inr err
  | inl manifest =>
      match lockfile with
      | Some lock =>
          if 2 <=? LockfileVersion lock
          then inl (fold_left (lockEntry includeDev) (Packages lock) [])
          else
            let packages := fold_left manifestEntry (Dependencies manifest) [] in
            inl (if includeDev
                 then fold_left manifestEntry (DevDependencies manifest) packages
                 else packages)
      | None =>
          let packages := fold_left manifestEntry (Dependencies manifest) [] in
          inl (if includeDev
               then fold_left manifestEntry (DevDependencies manifest) packages
               else packages)
      end
  end.

(** [GetDirectDependencies]: the entries of package.json only. *)
Definition GetDirectDependencies (manifest : ManifestFile + Errors.error)
    (includeDev : bool) : list Package + Errors.error :=
  match manifest with
  | inr err => inr err
  | inl manifest =>
      let packages := fold_left manifestEntry (Dependencies manifest) [] in
      inl (if includeDev
           then fold_left manifestEntry (DevDependencies manifest) packages
           else packages)
  end.

(** *** internal/manifest/ports.go *)

Definition FrameworkPort : gmap string Z :=
  list_to_map
    [("next", 3000); ("react-scripts", 3000); ("create-react-app", 3000);
     ("remix", 3000); ("gatsby", 8000);
     ("vite", 5173); ("@vitejs/plugin-vue", 5173); ("@vitejs/plugin-react", 5173);
     ("vue-cli-service", 8080); ("@vue/cli-service", 8080); ("nuxt", 3000);
     ("@angular/cli", 4200);
     ("@sveltejs/kit", 5173); ("svelte-kit", 5173);
     ("astro", 4321); ("express", 3000); ("fastify", 3000); ("koa", 3000);
     ("hono", 3000);
     ("webpack-dev-server", 8080); ("parcel", 1234)].

Definition priorityOrder : list string :=
  ["next"; "remix"; "gatsby"; "nuxt"; "@sveltejs/kit"; "astro";
   "@angular/cli"; "vite"; "@vitejs/plugin-vue"; "@vitejs/plugin-react";
   "react-scripts"; "@vue/cli-service"; "parcel"; "webpack-dev-server";
   "express"; "fastify"; "koa"; "hono"].

Definition devScripts : list string := ["dev"; "start"; "serve"; "develop"].

(** The sources of the four patterns compiled by [detectPortFromScripts]. *)
Definition patterns : list string :=
  ["--port[=\s]+(\d+)"; "-p[=\s]+(\d+)"; "PORT=(\d+)"; ":(\d{4,5})"].

Definition isDigit (c : ascii) : bool :=
  (48 <=? nat_of_ascii c)%nat && (nat_of_ascii c <=? 57)%nat.

Definition digitsValue (digits : list ascii) : Z :=
  fold_left (fun n ch => n * 10 + (Z.of_nat (nat_of_ascii ch) - 48)) digits 0.

(** [strconv.Atoi]: an optional sign and at least one decimal digit; a
    syntax error or a value outside the 64-bit [int] is [None]. *)
Definition Atoi (s : string) : option Z :=
  let '(negative, digits) :=
    match bytes s with
    | c :: rest =>
        if Ascii.eqb c "-"%char then (true, rest)
        else if Ascii.eqb c "+"%char then (false, rest)
        else (false, c :: rest)
    | [] => (false, [])
    end in
  match digits with
  | [] => None
  | _ =>
      if forallb isDigit digits
      then
        let n := if negative then - digitsValue digits else digitsValue digits in
        if (- 2 ^ 63 <=? n) && (n <=? 2 ^ 63 - 1) then Some n else None
      else None
  end.

Section Ports.

(** [regexp.FindStringSubmatch] of the pattern with the given source on a
    script: the match and its groups, or the empty slice.  The regular
    expression engine is not modelled. *)
Variable FindStringSubmatch : string -> string -> list string.

(** The loop over the patterns for one script; [Some port] is the [return]. *)
Fixpoint scriptPort (patterns : list string) (script : string) : option Z :=
  match patterns with
  | [] => None
  | pattern :: rest =>
      match FindStringSubmatch pattern script with
      | _ :: group :: _ =>
          match Atoi group with
          | Some port =>
              if (0 <? port) && (port <? 65536) then Some port
              else scriptPort rest script
          | None => scriptPort rest script
          end
      | _ => scriptPort rest script
      end
  end.

(** The loop over the script names. *)
Fixpoint scriptsPort (scripts : gmap string string) (names : list string) : option Z :=
  match names with
  | [] => None
  | scriptName :: rest =>
      match scripts !! scriptName with
      | Some script =>
          match scriptPort patterns script with
          | Some port => Some port
          | None => scriptsPort scripts rest
          end
      | None => scriptsPort scripts rest
      end
  end.

Definition detectPortFromScripts (scripts : gmap string string) : Z :=
  match scriptsPort scripts devScripts with
  | Some port => port
  | None => 0
  end.

(** The loop over [priorityOrder]. *)
Fixpoint frameworkPort (allDeps : gmap string string) (frameworks : list string)
    : option Z :=
  match frameworks with
  | [] => None
  | framework :: rest =>
      match allDeps !! framework with
      | Some _ =>
          match FrameworkPort !! framework with
          | Some port => Some port
          | None => frameworkPort allDeps rest
          end
      | None => frameworkPort allDeps rest
      end
  end.

Definition copyInto (allDeps : gmap string string) (entries : list (string * string))
    : gmap string string :=
  fold_left (fun m kv => <[fst kv := snd kv]> m) entries allDeps.

(** [DetectPort].  [scripts] is the [Scripts] field of the parsed manifest,
    which [ManifestFile] does not carry. *)
Definition DetectPort (manifest : ManifestFile + Errors.error)
    (scripts : gmap string string) : Z :=
  match manifest with
  | inr _ => 0
  | inl pkg =>
      let port := detectPortFromScripts scripts in
      if 0 <? port then port
      else
        let allDeps := copyInto (copyInto ∅ (Dependencies pkg)) (DevDependencies pkg) in
        match frameworkPort allDeps priorityOrder with
        | Some port => port
        | None => 0
        end
  end.

End Ports.

End Manifest.

(** ** internal/types *)

Module Types.

Definition FindingType : Type := string.
Definition Severity : Type := string.

Definition FindingTypeMalware : FindingType := "malware".
Definition FindingTypeCVE : FindingType := "cve".
Definition FindingTypeTyposquat : FindingType := "typosquat".
Definition FindingTypeLicense : FindingType := "license".
Definition FindingTypeMaintainer : FindingType := "maintainer".
Definition FindingTypeQuality : FindingType := "quality".

Definition SeverityCritical : Severity := "critical".
Definition SeverityHigh : Severity := "high".
Definition SeverityMedium : Severity := "medium".
Definition SeverityLow : Severity := "low".
Definition SeverityInfo : Severity := "info".

Record Finding : Type := mkFinding {
  Package : string;
  Version : string;
  Type_ : FindingType;
  Severity_ : Severity;
  Title : string;
  Description : string;
  ID : string;
  References : list string;
  Remediation : string
}.

Record ScanResult : Type := mkScanResult {
  Scanner : string;
  Packages : Z;
  Findings : list Finding;
  ScanDuration : Z;
  Cached : bool
}.

Record AggregatedResult : Type := mkAggregatedResult {
  Results : list ScanResult;
  TotalPackages : Z;
  TotalFindings : Z;
  HasMalware : bool;
  HasCritical : bool;
  HasHigh : bool;
  Duration : Z
}.

(** The zero value [AggregatedResult{}] with the given [Results]. *)
Definition zeroAggregated (results : list ScanResult) : AggregatedResult :=
  mkAggregatedResult results 0 0 false false false 0.

Definition isMalwareType (f : Finding) : bool :=
  String.eqb (Type_ f) FindingTypeMalware || String.eqb (Type_ f) FindingTypeTyposquat.


Definition hasSeverity (sev : Severity) (f : Finding) : bool :=
  String.eqb (Severity_ f) sev.

(** The findings of a list of scanner results, result after result. *)
Definition findingsOf (results : list ScanResult) : list Finding :=
  flat_map Findings results.

Definition CountBySeverity (ar : AggregatedResult) (sev : Severity) : Z :=
  fold_left
    (fun count result =>
       fold_left
         (fun count finding =>
            if String.eqb (Severity_ finding) sev then count + 1 else count)
         (Findings result) count)
    (Results ar) 0.

Definition CountByType (ar : AggregatedResult) (typ : FindingType) : Z :=
  fold_left
    (fun count result =>
       fold_left
         (fun count finding =>
            if String.eqb (Type_ finding) typ then count + 1 else count)
         (Findings result) count)
    (Results ar) 0.

Definition AllFindings (ar : AggregatedResult) : list Finding :=
  fold_left (fun findings result => findings ++ Findings result) (Results ar) [].

Definition MalwareFindings (ar : AggregatedResult) : list Finding :=
  fold_left
    (fun findings result =>
       fold_left
         (fun findings finding =>
            if isMalwareType finding then findings ++ [finding] else findings)
         (Findings result) findings)
    (Results ar) [].

Definition CVEFindings (ar : AggregatedResult) : list Finding :=
  fold_left
    (fun findings result =>
       fold_left
         (fun findings finding =>
            if String.eqb (Type_ finding) FindingTypeCVE
            then findings ++ [finding] else findings)
         (Findings result) findings)
    (Results ar) [].

Definition SeverityOrder (s : Severity) : Z :=
  if String.eqb s SeverityCritical then 0
  else if String.eqb s SeverityHigh then 1
  else if String.eqb s SeverityMedium then 2
  else if String.eqb s SeverityLow then 3
  else 4.

End Types.

(** ** internal/config/config.go *)

Module Config.

Record SocketConfig : Type := mkSocketConfig {
  SocketEnabled : bool;
  APIToken : string;
  SocketTimeout : Z
}.

Record OSVConfig : Type := mkOSVConfig {
  OSVEnabled : bool;
  OSVTimeout : Z
}.

Record PolicyConfig : Type := mkPolicyConfig {
  Malware : string;
  CVE : gmap string string;
  AllowOverride : bool;
  Allowlist : list string;
  Blocklist : list string
}.

Record ScanningConfig : Type := mkScanningConfig {
  Enabled : bool;
  Socket : SocketConfig;
  OSV : OSVConfig;
  Policy : PolicyConfig
}.

(** The [Scanning] part of [Config]; the package-manager, container and UI
    settings are not read by any function modelled here. *)
Record Config : Type := mkConfig {
  Scanning : ScanningConfig
}.

Definition HasSocketToken (c : Config) : bool :=
  negb (String.eqb (APIToken (Socket (Scanning c))) "").

Definition ShouldBlock (c : Config) (action : string) : bool :=
  String.eqb action "block".

Definition ShouldWarn (c : Config) (action : string) : bool :=
  String.eqb action "warn".

Definition GetCVEAction (c : Config) (severity : string) : string :=
  match CVE (Policy (Scanning c)) !! severity with
  | Some action => action
  | None => "ignore"
  end.

Fixpoint containsName (names : list string) (name : string) : bool :=
  match names with
  | [] => false
  | pkg :: rest => if String.eqb pkg name then true else containsName rest name
  end.

Definition IsPackageAllowlisted (c : Config) (name : string) : bool :=
  containsName (Allowlist (Policy (Scanning c))) name.

Definition IsPackageBlocklisted (c : Config) (name : string) : bool :=
  containsName (Blocklist (Policy (Scanning c))) name.

End Config.

(** ** internal/scanner *)

Module Scanner.

(** The [Scanner] interface.  [Scan_] is the scanner's [Scan] method for a
    fixed context: the packages go in, a result or an error comes out. *)
Record Scanner : Type := mkScanner {
  Name : string;
  Scan_ : list Manifest.Package -> Types.ScanResult + Errors.error;
  IsAvailable : bool
}.

Record Orchestrator : Type := mkOrchestrator {
  scanners : list Scanner;
  config : Config.Config
}.

(** What [Scan] hands back: [(result, nil)] or [(nil, err)]. *)
Inductive ScanReturn : Type :=
| Ok (result : Types.AggregatedResult)
| Err (err : Errors.error).

(** [NewOrchestrator].  The two client constructors ([socket.NewClient],
    [osv.NewClient]) wrap network transports and are taken as given. *)
Definition NewOrchestrator
    (socketNewClient : Config.SocketConfig -> Scanner)
    (osvNewClient : Config.OSVConfig -> Scanner)
    (cfg : Config.Config) : Orchestrator :=
  let scanners := [] in
  let scanners :=
    if Config.SocketEnabled (Config.Socket (Config.Scanning cfg))
    then scanners ++ [socketNewClient (Config.Socket (Config.Scanning cfg))]
    else scanners in
  let scanners :=
    if Config.OSVEnabled (Config.OSV (Config.Scanning cfg))
    then scanners ++ [osvNewClient (Config.OSV (Config.Scanning cfg))]
    else scanners in
  mkOrchestrator scanners cfg.

Definition filterAllowlisted (o : Orchestrator) (packages : list Manifest.Package)
    : list Manifest.Package :=
  fold_left
    (fun filtered pkg =>
       if negb (Config.IsPackageAllowlisted (config o) (Manifest.Name pkg))
       then filtered ++ [pkg] else filtered)
    packages [].

(** *** The fan-out and the collecting loop

    One goroutine is started for every available scanner; it calls the
    scanner and sends the result on [resultsChan] or the error on [errChan].
    Both channels are buffered for every scanner, so a send never waits, and
    they are closed only after every goroutine is done, so the collecting
    loop receives every value, each channel in the order of its sends.  What
    the loop gathers is therefore fixed by the order in which the goroutines
    finish.  That order is the scheduler's choice: [sched] gives, for each
    started goroutine, how many of the goroutines started after it finish
    before it. *)

Fixpoint insertAt {A : Type} (k : nat) (x : A) (l : list A) : list A :=
  match k, l with
  | S k', y :: l' => y :: insertAt k' x l'
  | _, _ => x :: l
  end.

Fixpoint completionOrder (sched : list nat) (started : list Scanner) : list Scanner :=
  match started with
  | [] => []
  | s :: rest => insertAt (hd 0%nat sched) s (completionOrder (tl sched) rest)
  end.

(** The goroutines started by the [for _, s := range o.scanners] loop. *)
Definition started (o : Orchestrator) : list Scanner :=
  List.filter IsAvailable (scanners o).

(** State of the collecting loop, with the log of [Scan] calls made on
    scanners. *)
Record Gathered : Type := mkGathered {
  results : list Types.ScanResult;
  firstErr : option Errors.error;
  invoked : list string
}.

Definition receive (g : Gathered) (name : string)
    (r : Types.ScanResult + Errors.error) : Gathered :=
  match r with
  | inl result => mkGathered (results g ++ [result]) (firstErr g) (invoked g ++ [name])
  | inr err =>
      mkGathered (results g)
        (match firstErr g with None => Some err | Some e => Some e end)
        (invoked g ++ [name])
  end.

Definition gather (filteredPackages : list Manifest.Package) (order : list Scanner)
    : Gathered :=
  fold_left
    (fun g scanner => receive g (Name scanner) (Scan_ scanner filteredPackages))
    order (mkGathered [] None []).

(** *** aggregate *)

Definition aggregateFinding (aggregated : Types.AggregatedResult)
    (finding : Types.Finding) : Types.AggregatedResult :=
  let malware :=
    if String.eqb (Types.Type_ finding) Types.FindingTypeMalware
       || String.eqb (Types.Type_ finding) Types.FindingTypeTyposquat
    then true else Types.HasMalware aggregated in
  let critical :=
    if String.eqb (Types.Severity_ finding) Types.SeverityCritical
    then true else Types.HasCritical aggregated in
  let high :=
    if String.eqb (Types.Severity_ finding) Types.SeverityCritical
    then Types.HasHigh aggregated
    else if String.eqb (Types.Severity_ finding) Types.SeverityHigh
    then true else Types.HasHigh aggregated in
  Types.mkAggregatedResult
    (Types.Results aggregated)
    (Types.TotalPackages aggregated)
    (Types.TotalFindings aggregated + 1)
    malware critical high
    (Types.Duration aggregated).

Definition aggregate (o : Orchestrator) (results : list Types.ScanResult)
    : Types.AggregatedResult :=
  fold_left
    (fun aggregated result => fold_left aggregateFinding (Types.Findings result) aggregated)
    results (Types.zeroAggregated results).

(** *** Scan *)

Definition policyResult (pkg : Manifest.Package) : Types.ScanResult :=
  Types.mkScanResult "policy" 1
    [Types.mkFinding (Manifest.Name pkg) (Manifest.Version pkg)
       Types.FindingTypeMalware Types.SeverityCritical
       "Blocklisted package" "This package is in your blocklist" "" [] ""]
    0 false.

(** Body of the loop that adds a finding for every blocklisted package. *)
Definition blocklistStep (o : Orchestrator) (aggregated : Types.AggregatedResult)
    (pkg : Manifest.Package) : Types.AggregatedResult :=
  if Config.IsPackageBlocklisted (config o) (Manifest.Name pkg)
  then
    Types.mkAggregatedResult
      (Types.Results aggregated ++ [policyResult pkg])
      (Types.TotalPackages aggregated)
      (Types.TotalFindings aggregated + 1)
      true
      (Types.HasCritical aggregated)
      (Types.HasHigh aggregated)
      (Types.Duration aggregated)
  else aggregated.

Definition withPackagesAndDuration (aggregated : Types.AggregatedResult)
    (totalPackages duration : Z) : Types.AggregatedResult :=
  Types.mkAggregatedResult
    (Types.Results aggregated) totalPackages (Types.TotalFindings aggregated)
    (Types.HasMalware aggregated) (Types.HasCritical aggregated)
    (Types.HasHigh aggregated) duration.

(** [Scan].  [elapsed] is what [time.Since(start)] reads when the result is
    built.  The second component lists the scanners whose [Scan] method was
    called. *)
Definition Scan (o : Orchestrator) (sched : list nat) (elapsed : Z)
    (packages : list Manifest.Package) : ScanReturn * list string :=
  if (length packages =? 0)%nat
  then (Ok (Types.mkAggregatedResult [] 0 0 false false false elapsed), [])
  else
    let filteredPackages := filterAllowlisted o packages in
    let g := gather filteredPackages (completionOrder sched (started o)) in
    match results g, firstErr g with
    | [], Some err => (Err err, invoked g)
    | _, _ =>
        let aggregated := aggregate o (results g) in
        let aggregated :=
          withPackagesAndDuration aggregated
            (Z.of_nat (length filteredPackages)) elapsed in
        (Ok (fold_left (blocklistStep o) packages aggregated), invoked g)
    end.

(** *** ScanWithProgress

    The callback acts on whatever state [W] its closure captures; a nil
    callback is [None].  A goroutine's two notifications and its scanner call
    are placed together at the point where the goroutine finishes: nothing
    that [ScanWithProgress] returns depends on how the notifications of
    different goroutines interleave. *)

Section Progress.
Context {W : Type}.

Definition notify (onProgress : option (string -> bool -> W -> W))
    (scanner : string) (done : bool) (w : W) : W :=
  match onProgress with
  | Some f => f scanner done w
  | None => w
  end.

Definition gatherWithProgress (onProgress : option (string -> bool -> W -> W))
    (filteredPackages : list Manifest.Package) (order : list Scanner) (w : W)
    : Gathered * W :=
  fold_left
    (fun '(g, w) scanner =>
       let w := notify onProgress (Name scanner) false w in
       let r := Scan_ scanner filteredPackages in
       let w := notify onProgress (Name scanner) true w in
       (receive g (Name scanner) r, w))
    order (mkGathered [] None [], w).

Definition ScanWithProgress (o : Orchestrator) (sched : list nat) (elapsed : Z)
    (packages : list Manifest.Package)
    (onProgress : option (string -> bool -> W -> W)) (w : W)
    : ScanReturn * list string * W :=
  if (length packages =? 0)%nat
  then (Ok (Types.mkAggregatedResult [] 0 0 false false false elapsed), [], w)
  else
    let filteredPackages := filterAllowlisted o packages in
    let '(g, w) :=
      gatherWithProgress onProgress filteredPackages
        (completionOrder sched (started o)) w in
    match results g, firstErr g with
    | [], Some err => (Err err, invoked g, w)
    | _, _ =>
        let aggregated := aggregate o (results g) in
        (Ok (withPackagesAndDuration aggregated
               (Z.of_nat (length filteredPackages)) elapsed),
         invoked g, w)
    end.

End Progress.

(** *** Vocabulary for statements about a run *)

(** Whether the scanner's call succeeds on these packages. *)
Definition succeeds (filteredPackages : list Manifest.Package) (s : Scanner) : bool :=
  match Scan_ s filteredPackages with
  | inl _ => true
  | inr _ => false
  end.

(** The results, in the order of [l], of the scanners of [l] whose call
    succeeds, and the errors of those whose call fails. *)
Definition successes (filteredPackages : list Manifest.Package) (l : list Scanner)
    : list Types.ScanResult :=
  flat_map
    (fun s => match Scan_ s filteredPackages with inl r => [r] | inr _ => [] end) l.

Definition failures (filteredPackages : list Manifest.Package) (l : list Scanner)
    : list Errors.error :=
  flat_map
    (fun s => match Scan_ s filteredPackages with inl _ => [] | inr e => [e] end) l.

(** At least one scanner was called and every call failed. *)
Definition allFailed (o : Orchestrator) (packages : list Manifest.Package) : bool :=
  negb (length (started o) =? 0)%nat
  && forallb (fun s => negb (succeeds (filterAllowlisted o packages) s)) (started o).

(** The packages of the list whose name is on the blocklist. *)
Definition blocklisted (o : Orchestrator) (packages : list Manifest.Package)
    : list Manifest.Package :=
  List.filter
    (fun pkg => Config.IsPackageBlocklisted (config o) (Manifest.Name pkg)) packages.

Definition HasSocketScanner (o : Orchestrator) : bool :=
  existsb (fun s => String.eqb (Name s) "Socket.dev" && IsAvailable s) (scanners o).

Definition AvailableScanners (o : Orchestrator) : list string :=
  fold_left (fun names s => if IsAvailable s then names ++ [Name s] else names)
    (scanners o) [].

End Scanner.

(** ** internal/cli: policy evaluation of a scan result

    Both functions print the findings and then decide; only the decision is
    modelled.  [None] is the nil error. *)

Module Cli.

Definition severities : list Types.Severity :=
  [Types.SeverityCritical; Types.SeverityHigh; Types.SeverityMedium; Types.SeverityLow].

(** internal/cli/scan.go *)
Definition outputTextResult (cfg : Config.Config) (result : Types.AggregatedResult)
    : option Errors.error :=
  if Types.TotalFindings result =? 0 then None
  else if Types.HasMalware result
          && Config.ShouldBlock cfg (Config.Malware (Config.Policy (Config.Scanning cfg)))
  then Some (Errors.SecurityBlockError "malware detected")
  else if Types.HasCritical result
          && Config.ShouldBlock cfg (Config.GetCVEAction cfg "critical")
  then Some (Errors.SecurityBlockError "critical vulnerabilities detected")
  else None.

(** The inner loop of [evaluateScanResults] for one severity. *)
Definition cveSeverityLoop (cfg : Config.Config) (cveFindings : list Types.Finding)
    (hasBlockingIssue : bool) (sev : Types.Severity) : bool :=
  fold_left
    (fun hasBlockingIssue f =>
       if String.eqb (Types.Severity_ f) sev
       then
         let action := Config.GetCVEAction cfg sev in
         if Config.ShouldBlock cfg action then true else hasBlockingIssue
       else hasBlockingIssue)
    cveFindings hasBlockingIssue.

(** internal/cli/install.go *)
Definition evaluateScanResults (cfg : Config.Config) (result : Types.AggregatedResult)
    : option Errors.error :=
  if Types.TotalFindings result =? 0 then None
  else
    let hasBlockingIssue := false in
    let malwareFindings := Types.MalwareFindings result in
    let hasBlockingIssue :=
      if (0 <? length malwareFindings)%nat
      then
        if Config.ShouldBlock cfg (Config.Malware (Config.Policy (Config.Scanning cfg)))
        then true else hasBlockingIssue
      else hasBlockingIssue in
    let cveFindings := Types.CVEFindings result in
    let hasBlockingIssue :=
      if (0 <? length cveFindings)%nat
      then fold_left (cveSeverityLoop cfg cveFindings) severities hasBlockingIssue
      else hasBlockingIssue in
    if hasBlockingIssue
    then Some (Errors.SecurityBlockError "security threats detected")
    else None.

(** The value that [outputJSONResult] encodes. *)
Record Summary : Type := mkSummary {
  Total : Z;
  Critical : Z;
  High : Z;
  Medium : Z;
  Low : Z;
  Malware : Z
}.

Record Output : Type := mkOutput {
  Packages : Z;
  Findings : list Types.Finding;
  OutputSummary : Summary
}.

Definition outputJSONResult (result : Types.AggregatedResult) : Output :=
  mkOutput (Types.TotalPackages result) (Types.AllFindings result)
    (mkSummary
       (Types.TotalFindings result)
       (Types.CountBySeverity result Types.SeverityCritical)
       (Types.CountBySeverity result Types.SeverityHigh)
       (Types.CountBySeverity result Types.SeverityMedium)
       (Types.CountBySeverity result Types.SeverityLow)
       (Types.CountByType result Types.FindingTypeMalware
        + Types.CountByType result Types.FindingTypeTyposquat)).

End Cli.

(** ** internal/ui/prompt.go *)

Module UI.
Import Bytes.

(** What [reader.ReadString('\n')] returned: the line with its delimiter, or
    the bytes read so far together with an error. *)
Inductive ReadResult : Type :=
| ReadLine (input : string)
| ReadError (input : string) (err : Errors.error).

Definition isASCIIByte (c : ascii) : bool := (nat_of_ascii c <? 128)%nat.

Definition isASCII (s : string) : bool := forallb isASCIIByte (bytes s).

Definition isUpper (c : ascii) : bool :=
  (65 <=? nat_of_ascii c)%nat && (nat_of_ascii c <=? 90)%nat.

(** ['A'..'Z'] moved by ['a' - 'A']. *)
Definition lowerByte (c : ascii) : ascii :=
  if isUpper c then ascii_of_nat (nat_of_ascii c + 32) else c.

(** The [asciiSpace] table of package strings: tab, newline, vertical tab,
    form feed, carriage return, space. *)
Definition asciiSpace (c : ascii) : bool :=
  let n := nat_of_ascii c in
  ((9 <=? n)%nat && (n <=? 13)%nat) || (n =? 32)%nat.

Definition trimASCII (l : list ascii) : list ascii :=
  rev (dropWhile asciiSpace (rev (dropWhile asciiSpace l))).

Section Strings.

(** Go's [strings.ToLower] and [strings.TrimSpace] work byte by byte on a
    string of ASCII bytes and fall back to the Unicode tables otherwise:
    [strings.Map(unicode.ToLower, s)] and [strings.TrimFunc(s,
    unicode.IsSpace)].  The two table-driven functions are the variables of
    this section. *)
Variable unicodeToLower : string -> string.
Variable unicodeTrimSpace : string -> string.

Definition ToLower (s : string) : string :=
  if isASCII s then str (map lowerByte (bytes s)) else unicodeToLower s.

Definition TrimSpace (s : string) : string :=
  if isASCII s then str (trimASCII (bytes s)) else unicodeTrimSpace s.

Definition PromptUnsecure (read : ReadResult) : bool :=
  match read with
  | ReadError _ _ => false
  | ReadLine input => String.eqb (TrimSpace (ToLower input)) "unsecure"
  end.

Definition PromptForce (read : ReadResult) : bool :=
  match read with
  | ReadError _ _ => false
  | ReadLine input => String.eqb (TrimSpace (ToLower input)) "force"
  end.

Definition PromptConfirm (defaultYes : bool) (read : ReadResult) : bool :=
  match read with
  | ReadError _ _ => defaultYes
  | ReadLine input =>
      let input := TrimSpace (ToLower input) in
      if String.eqb input "" then defaultYes
      else String.eqb input "y" || String.eqb input "yes"
  end.

Definition PromptInput (read : ReadResult) : string :=
  match read with
  | ReadError _ _ => ""
  | ReadLine input => TrimSpace input
  end.

End Strings.

End UI.

(** ** The two scanner clients (internal/scanner/socket, internal/scanner/osv)

    Only what the orchestrator can observe of a client is modelled: its name,
    its availability and the early returns of its [Scan] method.  The batch
    query and the conversion of the response are the [transport]. *)

Module Clients.

Definition emptyResult (name : string) (elapsed : Z) : Types.ScanResult :=
  Types.mkScanResult name 0 [] elapsed false.

Definition socketNewClient
    (transport : list Manifest.Package -> Types.ScanResult + Errors.error)
    (elapsed : Z) (cfg : Config.SocketConfig) : Scanner.Scanner :=
  let available := negb (String.eqb (Config.APIToken cfg) "") in
  Scanner.mkScanner "Socket.dev"
    (fun packages =>
       if negb available then inl (emptyResult "Socket.dev" elapsed)
       else if (length packages =? 0)%nat then inl (emptyResult "Socket.dev" elapsed)
       else transport packages)
    available.

Definition osvNewClient
    (transport : list Manifest.Package -> Types.ScanResult + Errors.error)
    (elapsed : Z) (cfg : Config.OSVConfig) : Scanner.Scanner :=
  Scanner.mkScanner "Google OSV"
    (fun packages =>
       if (length packages =? 0)%nat then inl (emptyResult "Google OSV" elapsed)
       else transport packages)
    true.

End Clients.

(** ** Scanning the bytes of a string for a separator *)

Module ByteIndex.
Import Bytes.

(** The index found by [for i := len(s) - 1; i >= 0; i--] looking for the
    byte [sep], or [None] when the loop runs out. *)
Fixpoint lastIndexByte (sep : ascii) (l : list ascii) : option nat :=
  match l with
  | [] => None
  | c :: rest =>
      match lastIndexByte sep rest with
      | Some i => Some (S i)
      | None => if Ascii.eqb c sep then Some 0%nat else None
      end
  end.

(** The index of the first byte [sep]. *)
Fixpoint indexByte (sep : ascii) (l : list ascii) : option nat :=
  match l with
  | [] => None
  | c :: rest =>
      if Ascii.eqb c sep then Some 0%nat
      else match indexByte sep rest with
           | Some i => Some (S i)
           | None => None
           end
  end.

End ByteIndex.

(** ** internal/scanner/socket: the conversion of a batch response *)

Module Socket.
Import Bytes.

Record alert : Type := mkAlert {
  Key : string;
  Type_ : string;
  Severity : string;
  Message : string
}.

(** The [Score] of a package result is decoded but never read. *)
Record packageResult : Type := mkPackageResult {
  PURL : string;
  Alerts : list alert
}.

Record batchResponse : Type := mkBatchResponse {
  Results : list packageResult
}.

Definition oneOf (s : string) (cases : list string) : bool :=
  existsb (String.eqb s) cases.

Definition mapAlertType (alertType : string) : Types.FindingType :=
  if oneOf alertType ["malware"; "potentialVulnerability"; "protestware"]
  then Types.FindingTypeMalware
  else if oneOf alertType ["typosquat"; "socketPkgWithoutProvenance"]
  then Types.FindingTypeTyposquat
  else if oneOf alertType ["cve"; "vulnerability"]
  then Types.FindingTypeCVE
  else if oneOf alertType ["copyleftLicense"; "nonpermissiveLicense"; "unknownLicense"]
  then Types.FindingTypeLicense
  else if oneOf alertType ["criticalCVE"; "highCVE"; "moderateCVE"; "lowCVE"]
  then Types.FindingTypeCVE
  else if oneOf alertType ["newAuthor"; "noAuthor"; "suspiciousAuthorEmail"]
  then Types.FindingTypeMaintainer
  else Types.FindingTypeQuality.

Definition mapSeverity (severity : string) : Types.Severity :=
  if oneOf severity ["critical"] then Types.SeverityCritical
  else if oneOf severity ["high"] then Types.SeverityHigh
  else if oneOf severity ["medium"; "moderate"] then Types.SeverityMedium
  else if oneOf severity ["low"] then Types.SeverityLow
  else Types.SeverityInfo.

Definition parsePURL (purl : string) : string * string :=
  if (String.length purl <? 8)%nat then ("", "")
  else
    let rest :=
      if (8 <? String.length purl)%nat && String.eqb (prefix 8 purl) "pkg:npm/"
      then suffix 8 purl else purl in
    match ByteIndex.lastIndexByte "@"%char (bytes rest) with
    | Some i => (prefix i rest, suffix (S i) rest)
    | None => (rest, "")
    end.

Definition alertFinding (name version : string) (a : alert) : Types.Finding :=
  Types.mkFinding name version (mapAlertType (Type_ a)) (mapSeverity (Severity a))
    (Type_ a) (Message a) (Key a) [] "".

Definition convertToFindings (resp : batchResponse) : list Types.Finding :=
  fold_left
    (fun findings result =>
       let '(name, version) := parsePURL (PURL result) in
       fold_left (fun findings a => findings ++ [alertFinding name version a])
         (Alerts result) findings)
    (Results resp) [].

End Socket.

(** ** internal/scanner/osv: the conversion of a batch response *)

Module OSV.
Import Bytes.

Record severity : Type := mkSeverity {
  Type_ : string;
  Score : string
}.

Record reference : Type := mkReference {
  rType : string;
  URL : string
}.

(** The [Affected] ranges of a vulnerability are decoded but never read. *)
Record vulnerability : Type := mkVulnerability {
  ID : string;
  Summary : string;
  Details : string;
  Severity : list severity;
  References : list reference
}.

Record queryResult : Type := mkQueryResult {
  Vulns : list vulnerability
}.

Record batchResponse : Type := mkBatchResponse {
  Results : list queryResult
}.

(** [s[i : i+n] == substr], for [i + n <= len(s)]. *)
Definition sliceEq (s : list ascii) (i n : nat) (substr : list ascii) : bool :=
  String.eqb (str (firstn n (skipn i s))) (str substr).

Definition containsMiddle (s substr : string) : bool :=
  existsb
    (fun i => sliceEq (bytes s) i (String.length substr) (bytes substr))
    (seq 1 (String.length s - String.length substr)).

Definition contains (s substr : string) : bool :=
  (String.length substr <=? String.length s)%nat
  && (String.eqb s substr
      || (String.length substr <? String.length s)%nat
         && (String.eqb (prefix (String.length substr) s) substr
             || String.eqb (suffix (String.length s - String.length substr) s) substr
             || containsMiddle s substr)).

Definition highCount (vector : string) : Z :=
  let add (count : Z) (indicator : string) :=
    if contains vector indicator then count + 1 else count in
  fold_left add ["/C:H"; "/I:H"; "/A:H"; "/AV:N"; "/PR:N"] 0.

(** [parseCVSSScore].  The four scores and the thresholds they are compared
    with are short decimals, which [float64] holds exactly; here they are
    rationals. *)
Definition parseCVSSScore (vector : string) : QArith_base.Q :=
  let n := highCount vector in
  if 4 <=? n then QArith_base.Qmake 9 1
  else if 3 <=? n then QArith_base.Qmake 15 2
  else if 2 <=? n then QArith_base.Qmake 5 1
  else QArith_base.Qmake 3 1.

(** The first loop of [mapSeverity]: the first CVSS_V3 entry decides. *)
Fixpoint cvssSeverity (sevs : list severity) : option Types.Severity :=
  match sevs with
  | [] => None
  | sev :: rest =>
      if String.eqb (Type_ sev) "CVSS_V3"
      then
        let score := parseCVSSScore (Score sev) in
        Some (if QArith_base.Qle_bool (QArith_base.Qmake 9 1) score
              then Types.SeverityCritical
              else if QArith_base.Qle_bool (QArith_base.Qmake 7 1) score
              then Types.SeverityHigh
              else if QArith_base.Qle_bool (QArith_base.Qmake 4 1) score
              then Types.SeverityMedium
              else Types.SeverityLow)
      else cvssSeverity rest
  end.

(** The second loop: the first ECOSYSTEM entry with a known level decides. *)
Fixpoint ecosystemSeverity (sevs : list severity) : option Types.Severity :=
  match sevs with
  | [] => None
  | sev :: rest =>
      if String.eqb (Type_ sev) "ECOSYSTEM"
      then
        if String.eqb (Score sev) "CRITICAL" then Some Types.SeverityCritical
        else if String.eqb (Score sev) "HIGH" then Some Types.SeverityHigh
        else if String.eqb (Score sev) "MODERATE" || String.eqb (Score sev) "MEDIUM"
        then Some Types.SeverityMedium
        else if String.eqb (Score sev) "LOW" then Some Types.SeverityLow
        else ecosystemSeverity rest
      else ecosystemSeverity rest
  end.

Definition mapSeverity (vuln : vulnerability) : Types.Severity :=
  match cvssSeverity (Severity vuln) with
  | Some s => s
  | None =>
      match ecosystemSeverity (Severity vuln) with
      | Some s => s
      | None =>
          if (4 <=? String.length (ID vuln))%nat && String.eqb (prefix 4 (ID vuln)) "GHSA"
          then Types.SeverityMedium
          else Types.SeverityMedium
      end
  end.

Definition extractReferences (refs : list reference) : list string :=
  fold_left
    (fun urls ref => if negb (String.eqb (URL ref) "") then urls ++ [URL ref] else urls)
    refs [].

(** [truncate].  [None] is the run-time panic of [s[:maxLen-3]] when the
    bound is negative. *)
Definition truncate (s : string) (maxLen : Z) : option string :=
  if Z.of_nat (String.length s) <=? maxLen then Some s
  else if maxLen - 3 <? 0 then None
  else Some (prefix (Z.to_nat (maxLen - 3)) s +:+ "...").

Definition vulnFinding (pkg : Manifest.Package) (vuln : vulnerability)
    : option Types.Finding :=
  match truncate (Details vuln) 500 with
  | Some description =>
      Some (Types.mkFinding (Manifest.Name pkg) (Manifest.Version pkg)
              Types.FindingTypeCVE (mapSeverity vuln) (Summary vuln) description
              (ID vuln) (extractReferences (References vuln)) "")
  | None => None
  end.

(** The loop over the vulnerabilities of one result. *)
Fixpoint vulnFindings (pkg : Manifest.Package) (vulns : list vulnerability)
    (findings : list Types.Finding) : option (list Types.Finding) :=
  match vulns with
  | [] => Some findings
  | vuln :: rest =>
      match vulnFinding pkg vuln with
      | Some finding => vulnFindings pkg rest (findings ++ [finding])
      | None => None
      end
  end.

(** The loop over [resp.Results]; it stops at the first result that has no
    package at its index.  [None] is a panic. *)
Fixpoint resultFindings (packages : list Manifest.Package) (results : list queryResult)
    (findings : list Types.Finding) : option (list Types.Finding) :=
  match results, packages with
  | [], _ => Some findings
  | _ :: _, [] => Some findings
  | result :: results', pkg :: packages' =>
      match vulnFindings pkg (Vulns result) findings with
      | Some findings' => resultFindings packages' results' findings'
      | None => None
      end
  end.

Definition convertToFindings (packages : list Manifest.Package) (resp : batchResponse)
    : option (list Types.Finding) :=
  resultFindings packages (Results resp) [].

(** *** Vocabulary for statements *)

(** The finding made of a vulnerability of a package, its details cut at
    500 bytes. *)
Definition findingOf (pkg : Manifest.Package) (vuln : vulnerability) : Types.Finding :=
  Types.mkFinding (Manifest.Name pkg) (Manifest.Version pkg)
    Types.FindingTypeCVE (mapSeverity vuln) (Summary vuln)
    (if (String.length (Details vuln) <=? 500)%nat then Details vuln
     else prefix 497 (Details vuln) +:+ "...")
    (ID vuln) (extractReferences (References vuln)) "".

End OSV.

(** ** internal/container *)

Module Container.

Record PortMapping : Type := mkPortMapping {
  HostPort : string;
  ContainerPort : string
}.

Record VolumeMount : Type := mkVolumeMount {
  HostPath : string;
  ContainerPath : string;
  ReadOnly : bool
}.

Definition NetworkMode : Type := string.
Definition NetworkHost : NetworkMode := "host".
Definition NetworkNone : NetworkMode := "none".
Definition NetworkBridge : NetworkMode := "bridge".

(** [Environment] is the map in the order its range statement visits it. *)
Record RunOptions : Type := mkRunOptions {
  Image : string;
  Command : list string;
  WorkDir : string;
  Volumes : list VolumeMount;
  Ports : list PortMapping;
  Network : NetworkMode;
  Environment : list (string * string);
  Interactive : bool;
  TTY : bool;
  Remove : bool;
  Name : string
}.

Definition DefaultRunOptions : RunOptions :=
  mkRunOptions "node:lts-slim" [] "/app" [] [] NetworkHost [] true true true "".

Definition volumeArgs (args : list string) (v : VolumeMount) : list string :=
  let mount := HostPath v +:+ ":" +:+ ContainerPath v in
  let mount := if ReadOnly v then mount +:+ ":ro" else mount in
  args ++ ["--volume"; mount].

Definition portArgs (args : list string) (p : PortMapping) : list string :=
  args ++ ["--publish"; HostPort p +:+ ":" +:+ ContainerPort p].

Definition envArgs (args : list string) (kv : string * string) : list string :=
  args ++ ["--env"; fst kv +:+ "=" +:+ snd kv].

Definition buildArgs (opts : RunOptions) : list string :=
  let args := ["run"] in
  let args := if Remove opts then args ++ ["--rm"] else args in
  let args := if Interactive opts then args ++ ["--interactive"] else args in
  let args := if TTY opts then args ++ ["--tty"] else args in
  let args :=
    if negb (String.eqb (Name opts) "") then args ++ ["--name"; Name opts] else args in
  let args := fold_left volumeArgs (Volumes opts) args in
  let args :=
    if negb (String.eqb (WorkDir opts) "") then args ++ ["--workdir"; WorkDir opts]
    else args in
  let args := fold_left portArgs (Ports opts) args in
  let args :=
    if String.eqb (Network opts) NetworkNone then args ++ ["--network"; "none"]
    else args in
  let args := fold_left envArgs (Environment opts) args in
  let args := args ++ [Image opts] in
  args ++ Command opts.

End Container.

(** ** internal/pkgmanager *)

Module PkgManager.

(** The two implementations of the [Manager] interface. *)
Inductive Manager : Type :=
| NPM (image : string)
| Bun (image : string).

Definition NewNPM (image : string) : Manager :=
  NPM (if String.eqb image "" then "node:lts-slim" else image).

Definition NewBun (image : string) : Manager :=
  Bun (if String.eqb image "" then "oven/bun:latest" else image).

Definition Name (m : Manager) : string :=
  match m with NPM _ => "npm" | Bun _ => "bun" end.

Definition Image (m : Manager) : string :=
  match m with NPM image => image | Bun image => image end.

Definition InstallCommand (m : Manager) (packages : list string) (saveDev : bool)
    : list string :=
  match m with
  | NPM _ =>
      let cmd := ["npm"; "install"] in
      let cmd := if saveDev then cmd ++ ["--save-dev"] else cmd in
      cmd ++ packages
  | Bun _ =>
      let cmd := ["bun"; "install"] in
      let cmd := if saveDev then cmd ++ ["--dev"] else cmd in
      cmd ++ packages
  end.

Definition RunCommand (m : Manager) (script : string) (args : list string)
    : list string :=
  match m with
  | NPM _ =>
      let npmCmd := "npm run " +:+ script in
      let npmCmd :=
        if (0 <? length args)%nat
        then fold_left (fun cmd arg => cmd +:+ " " +:+ arg) args (npmCmd +:+ " --")
        else npmCmd in
      ["sh"; "-c"; "trap 'exit 0' INT TERM; " +:+ npmCmd]
  | Bun _ => ["bun"; "run"; script] ++ args
  end.

Definition ExecCommand (m : Manager) (command : list string) : list string := command.

(** [images["npm"]]: the zero value for a missing key. *)
Definition imageOf (images : gmap string string) (key : string) : string :=
  match images !! key with
  | Some image => image
  | None => ""
  end.

(** [Detect].  [hasBunLockfile] is what [parser.HasBunLockfile()] answers
    for the project directory. *)
Definition Detect (hasBunLockfile : bool) (preferred : string)
    (images : gmap string string) : Manager :=
  let npmImage := imageOf images "npm" in
  let bunImage := imageOf images "bun" in
  if String.eqb preferred "npm" then NewNPM npmImage
  else if String.eqb preferred "bun" then NewBun bunImage
  else if hasBunLockfile then NewBun bunImage
  else NewNPM npmImage.

(** [BuildContainerOptions].  [absPath] is [filepath.Abs(projectDir)]. *)
Definition BuildContainerOptions (mgr : Manager) (absPath : string)
    (network : Container.NetworkMode) (command : list string) : Container.RunOptions :=
  Container.mkRunOptions (Image mgr) command "/app"
    [Container.mkVolumeMount absPath "/app" false] [] network [] true true true "".

End PkgManager.

(** ** internal/cli/run.go *)

Module Run.
Import Bytes.

Definition isDevScript (script : string) : bool :=
  existsb (String.eqb script) ["dev"; "start"; "serve"; "develop"; "server"].

(** [strings.SplitN(s, ":", 2)]: the string itself when it holds no colon,
    else what is before the first colon and what is after it. *)
Definition SplitN2 (s : string) : list string :=
  match ByteIndex.indexByte ":"%char (bytes s) with
  | Some i => [prefix i s; suffix (S i) s]
  | None => [s]
  end.

(** The body of the loop over the [-p] flags. *)
Definition portMapping (portSpec : string) : Container.PortMapping :=
  match SplitN2 portSpec with
  | [host; container] => Container.mkPortMapping host container
  | parts => Container.mkPortMapping (hd "" parts) (hd "" parts)
  end.

Definition networkMode (runNoNetwork : bool) (configured : string)
    : Container.NetworkMode :=
  if runNoNetwork then Container.NetworkNone
  else if String.eqb configured "none" then Container.NetworkNone
  else Container.NetworkHost.

(** The ports of [runRun]: the [-p] flags if there are any, else the
    detected port of a development script.  [detectedPort] is what
    [parser.DetectPort()] returns and [printed] its decimal form. *)
Definition withPorts (opts : Container.RunOptions) (runPublishPorts : list string)
    (runNoPorts : bool) (script : string) (detectedPort : Z) (printed : string)
    : Container.RunOptions :=
  let ports :=
    if (0 <? length runPublishPorts)%nat
    then fold_left (fun ports portSpec => ports ++ [portMapping portSpec])
           runPublishPorts (Container.Ports opts)
    else if negb runNoPorts && isDevScript script
    then
      if 0 <? detectedPort
      then Container.Ports opts ++ [Container.mkPortMapping printed printed]
      else Container.Ports opts
    else Container.Ports opts in
  Container.mkRunOptions (Container.Image opts) (Container.Command opts)
    (Container.WorkDir opts) (Container.Volumes opts) ports (Container.Network opts)
    (Container.Environment opts) (Container.Interactive opts) (Container.TTY opts)
    (Container.Remove opts) (Container.Name opts).

End Run.

(** ** internal/cli/install.go: the scan before the installation *)

Module Install.
Import Bytes.

Definition parsePackageArg (pkg : string) : string * string :=
  match bytes pkg with
  | c :: rest =>
      if Ascii.eqb c "@"%char
      then
        let idx :=
          match ByteIndex.lastIndexByte "@"%char rest with
          | Some i => Z.of_nat i + 1
          | None => -1
          end in
        if 0 <? idx
        then (prefix (Z.to_nat idx) pkg, suffix (Z.to_nat (idx + 1)) pkg)
        else (pkg, "latest")
      else
        match ByteIndex.lastIndexByte "@"%char (bytes pkg) with
        | Some i => (prefix i pkg, suffix (S i) pkg)
        | None => (pkg, "latest")
        end
  | [] => (pkg, "latest")
  end.

(** [cfg.Scanning.Socket.Enabled = false]. *)
Definition disableSocket (cfg : Config.Config) : Config.Config :=
  Config.mkConfig
    (Config.mkScanningConfig
       (Config.Enabled (Config.Scanning cfg))
       (Config.mkSocketConfig false
          (Config.APIToken (Config.Socket (Config.Scanning cfg)))
          (Config.SocketTimeout (Config.Socket (Config.Scanning cfg))))
       (Config.OSV (Config.Scanning cfg))
       (Config.Policy (Config.Scanning cfg))).

(** The world a run goes through: the two transports, the order in which
    the scanner goroutines finish, the clock readings, the Unicode tables of
    package strings, and the lines the user types at the two prompts. *)
Record World : Type := mkWorld {
  socketTransport : list Manifest.Package -> Types.ScanResult + Errors.error;
  osvTransport : list Manifest.Package -> Types.ScanResult + Errors.error;
  sched : list nat;
  elapsed : Z;
  unicodeToLower : string -> string;
  unicodeTrimSpace : string -> string;
  unsecureRead : UI.ReadResult;
  forceRead : UI.ReadResult
}.

(** What [runSecurityScan] leaves behind: its error, the configuration as it
    stands afterwards (the function writes to it), and the scanners it
    called. *)
Record ScanRun : Type := mkScanRun {
  scanErr : option Errors.error;
  cfgAfter : Config.Config;
  called : list string
}.

Definition newPackage (packages : list Manifest.Package) (pkg : string)
    : list Manifest.Package :=
  let '(name, version) := parsePackageArg pkg in
  packages ++ [Manifest.mkPackage name version "npm"].

Definition runSecurityScan (w : World) (cfg : Config.Config)
    (manifest : Manifest.ManifestFile + Errors.error)
    (lockfile : option Manifest.PackageLock) (newPackages : list string) : ScanRun :=
  let asked := negb (Config.HasSocketToken cfg)
               && Config.SocketEnabled (Config.Socket (Config.Scanning cfg)) in
  if asked && negb (UI.PromptUnsecure (unicodeToLower w) (unicodeTrimSpace w)
                      (unsecureRead w))
  then mkScanRun (Some Errors.UserAbortError) cfg []
  else
    let cfg := if asked then disableSocket cfg else cfg in
    let packages :=
      match Manifest.GetDependencies manifest lockfile true with
      | inl packages => packages
      | inr _ => []
      end in
    let packages := fold_left newPackage newPackages packages in
    if (length packages =? 0)%nat then mkScanRun None cfg []
    else
      let orch :=
        Scanner.NewOrchestrator
          (Clients.socketNewClient (socketTransport w) (elapsed w))
          (Clients.osvNewClient (osvTransport w) (elapsed w)) cfg in
      let scanners := Scanner.AvailableScanners orch in
      if (length scanners =? 0)%nat then mkScanRun None cfg []
      else
        match Scanner.ScanWithProgress orch (sched w) (elapsed w) packages
                (Some (fun (name : string) (done : bool) (u : unit) => u)) tt with
        | (Scanner.Err err, called, _) =>
            mkScanRun (Some (Errors.ScannerError "security" err)) cfg called
        | (Scanner.Ok result, called, _) =>
            mkScanRun (Cli.evaluateScanResults cfg result) cfg called
        end.

(** How far [runInstall] gets: it returns an error, or goes on to build and
    run the installation command. *)
Inductive Outcome : Type :=
| Returns (err : Errors.error)
| Proceeds.

(** [runInstall], from the scan to the decision to install. *)
Definition runInstall (w : World) (skipScan force : bool) (cfg : Config.Config)
    (manifest : Manifest.ManifestFile + Errors.error)
    (lockfile : option Manifest.PackageLock) (args : list string) : Outcome :=
  if Config.Enabled (Config.Scanning cfg) && negb skipScan
  then
    let run := runSecurityScan w cfg manifest lockfile args in
    match scanErr run with
    | Some err =>
        let allowOverride :=
          Config.AllowOverride (Config.Policy (Config.Scanning (cfgAfter run))) in
        if negb force && negb allowOverride then Returns err
        else if allowOverride && negb force
                && negb (UI.PromptForce (unicodeToLower w) (unicodeTrimSpace w)
                           (forceRead w))
        then Returns Errors.UserAbortError
        else Proceeds
    | None => Proceeds
    end
  else Proceeds.

End Install.

(** ** internal/cli/scan.go: the scan command *)

Module ScanCmd.




End ScanCmd.

(** ** Sample data used by the worked examples below *)

Module Samples.

Definition lodash : Manifest.Package := Manifest.mkPackage "lodash" "4.17.20" "npm".
Definition maliciousLib : Manifest.Package :=
  Manifest.mkPackage "malicious-lib" "1.0.0" "npm".

Definition cveFinding (pkg : string) (sev : Types.Severity) : Types.Finding :=
  Types.mkFinding pkg "4.17.20" Types.FindingTypeCVE sev
    "Prototype pollution" "" "GHSA-p6mc-m468-83gw" [] "".

(** The policy of the README example: critical blocks, high and medium warn,
    low is ignored. *)
Definition policy (allowlist blocklist : list string) : Config.PolicyConfig :=
  Config.mkPolicyConfig "block"
    (<["critical" := "block"]>
       (<["high" := "warn"]> (<["medium" := "warn"]> (<["low" := "ignore"]> ∅))))
    true allowlist blocklist.

Definition cfg (socketEnabled : bool) (token : string) (osvEnabled : bool)
    (allowlist blocklist : list string) : Config.Config :=
  Config.mkConfig
    (Config.mkScanningConfig true
       (Config.mkSocketConfig socketEnabled token 30)
       (Config.mkOSVConfig osvEnabled 30)
       (policy allowlist blocklist)).

(** A version 3 lockfile whose entries are the paths of the parser's test
    table, in one order of iteration. *)
Definition locked (version : string) : Manifest.PackageLockPkg :=
  Manifest.mkPackageLockPkg version "" "" false.

Definition lockfile : Manifest.PackageLock :=
  Manifest.mkPackageLock "app" "1.0.0" 3
    [("", locked "1.0.0");
     ("node_modules/lodash", locked "4.17.20");
     ("node_modules/@babel/core", locked "7.23.0");
     ("node_modules/foo/node_modules/bar", locked "2.0.0");
     ("node_modules/@babel/core/node_modules/@types/node", locked "20.1.0");
     ("node_modules/foo/node_modules/@babel/helper-plugin-utils", locked "7.22.5")].

Definition manifest : Manifest.ManifestFile :=
  Manifest.mkManifest "app" "1.0.0" [("lodash", "^4.17.20")] [].

(** One high-severity CVE finding and nothing else, as [ScanWithProgress]
    aggregates it, and a policy that blocks on high. *)
Definition highOnly : Types.AggregatedResult :=
  Types.mkAggregatedResult
    [Types.mkScanResult "Google OSV" 1 [cveFinding "lodash" Types.SeverityHigh] 5 false]
    1 1 false false true 12.

Definition criticalOnly : Types.AggregatedResult :=
  Types.mkAggregatedResult
    [Types.mkScanResult "Google OSV" 1 [cveFinding "lodash" Types.SeverityCritical] 5 false]
    1 1 false true false 12.


(** A line as [ReadString] returns it: what was typed and the newline. *)
Definition typed (s : string) : string := s +:+ String "010"%char "".

(** What two scanners could report for one scan. *)
Definition socketReport : Types.ScanResult :=
  Types.mkScanResult "Socket.dev" 1
    [Types.mkFinding "evil" "1.0.0" Types.FindingTypeTyposquat
       Types.SeverityCritical "Typosquat" "" "" [] ""] 5 false.

Definition osvReport : Types.ScanResult :=
  Types.mkScanResult "Google OSV" 1
    [cveFinding "lodash" Types.SeverityHigh;
     cveFinding "lodash" Types.SeverityMedium] 5 false.

(** Transports: one that answers with no finding, one that answers with two
    findings, one that fails. *)
Definition quiet (name : string) (packages : list Manifest.Package)
    : Types.ScanResult + Errors.error :=
  inl (Types.mkScanResult name (Z.of_nat (length packages)) [] 5 false).

Definition twoFindings (name : string) (packages : list Manifest.Package)
    : Types.ScanResult + Errors.error :=
  inl (Types.mkScanResult name (Z.of_nat (length packages))
         [cveFinding "lodash" Types.SeverityHigh;
          cveFinding "lodash" Types.SeverityMedium] 5 false).

Definition failing (msg : string) (packages : list Manifest.Package)
    : Types.ScanResult + Errors.error :=
  inr (Errors.Foreign msg).

Definition orchestrator
    (socketTransport osvTransport : list Manifest.Package -> Types.ScanResult + Errors.error)
    (c : Config.Config) : Scanner.Orchestrator :=
  Scanner.NewOrchestrator
    (Clients.socketNewClient socketTransport 0)
    (Clients.osvNewClient osvTransport 0) c.

(** Socket.dev fails, OSV reports two findings. *)
Definition oMixed : Scanner.Orchestrator :=
  orchestrator (failing "invalid Socket API token") (twoFindings "Google OSV")
    (cfg true "token" true [] []).

(** Both enabled scanners fail; [malicious-lib] is blocklisted. *)
Definition oDown : Scanner.Orchestrator :=
  orchestrator (failing "invalid Socket API token") (failing "OSV API returned status 503")
    (cfg true "token" true [] ["malicious-lib"]).

(** OSV answers with no finding; [malicious-lib] is blocklisted and also
    allowlisted. *)
Definition oBlock : Scanner.Orchestrator :=
  orchestrator (quiet "Socket.dev") (quiet "Google OSV")
    (cfg false "" true ["malicious-lib"] ["malicious-lib"]).

(** Socket.dev is enabled without a token, OSV is disabled: no scanner is
    available. *)
Definition oNone : Scanner.Orchestrator :=
  orchestrator (quiet "Socket.dev") (quiet "Google OSV")
    (cfg true "" false [] ["malicious-lib"]).

End Samples.

(** * Proofs *)

(** ** Loops that append to a slice *)

Section AppendLoops.
Context {A B : Type}.

Lemma fold_left_append_if (p : A -> bool) (l : list A) (init : list A) :
  fold_left (fun acc x => if p x then acc ++ [x] else acc) l init
  = init ++ List.filter p l.
Proof.
  revert init; induction l as [|x l IH]; intros init; simpl.
  - now rewrite app_nil_r.
  - rewrite IH. destruct (p x); [|reflexivity].
    now rewrite <- app_assoc.
Qed.

Lemma fold_left_append_all (f : A -> list B) (l : list A) (init : list B) :
  fold_left (fun acc x => acc ++ f x) l init = init ++ flat_map f l.
Proof.
  revert init; induction l as [|x l IH]; intros init; simpl.
  - now rewrite app_nil_r.
  - rewrite IH. now rewrite <- app_assoc.
Qed.

(** A nested loop is one loop over the concatenation. *)
Lemma fold_left_nested {S : Type} (step : S -> B -> S) (f : A -> list B)
    (l : list A) (init : S) :
  fold_left (fun acc x => fold_left step (f x) acc) l init
  = fold_left step (flat_map f l) init.
Proof.
  revert init; induction l as [|x l IH]; intros init; simpl.
  - reflexivity.
  - now rewrite IH, fold_left_app.
Qed.

End AppendLoops.


(** ** The finishing order is a rearrangement of the started goroutines *)

Lemma insertAt_Permutation {A : Type} (k : nat) (x : A) (l : list A) :
  Permutation (Scanner.insertAt k x l) (x :: l).
Proof.
  revert k; induction l as [|y l IH]; intros [|k]; simpl; try reflexivity.
  rewrite IH. apply perm_swap.
Qed.

Lemma completionOrder_Permutation (sched : list nat) (l : list Scanner.Scanner) :
  Permutation (Scanner.completionOrder sched l) l.
Proof.
  revert sched; induction l as [|s l IH]; intros sched; simpl.
  - reflexivity.
  - rewrite insertAt_Permutation. now constructor.
Qed.

Lemma completionOrder_nil (sched : list nat) (l : list Scanner.Scanner) :
  Scanner.completionOrder sched l = [] <-> l = [].
Proof.
  split; intros H.
  - apply Permutation_nil. rewrite <- H. apply completionOrder_Permutation.
  - now subst.
Qed.

(** Every rearrangement is the finishing order of some schedule. *)
Lemma insertAt_reaches {A : Type} (x : A) (l1 l2 : list A) :
  Scanner.insertAt (length l1) x (l1 ++ l2) = l1 ++ x :: l2.
Proof.
  induction l1 as [|y l1 IH]; simpl.
  - now destruct l2.
  - now rewrite IH.
Qed.

Lemma completionOrder_complete (l order : list Scanner.Scanner) :
  Permutation l order -> exists sched, Scanner.completionOrder sched l = order.
Proof.
  revert order; induction l as [|s l IH]; intros order HP.
  - apply Permutation_nil in HP. subst. now exists [].
  - assert (Hin : In s order) by (eapply Permutation_in; [exact HP | now left]).
    destruct (in_split _ _ Hin) as (l1 & l2 & ->).
    apply Permutation_cons_app_inv in HP.
    destruct (IH _ HP) as [sched Hs].
    exists (length l1 :: sched). simpl. rewrite Hs. apply insertAt_reaches.
Qed.

(** ** The collecting loop *)

Lemma gather_from (f : list Manifest.Package) (order : list Scanner.Scanner)
    (g : Scanner.Gathered) :
  fold_left
    (fun g scanner =>
       Scanner.receive g (Scanner.Name scanner) (Scanner.Scan_ scanner f))
    order g
  = Scanner.mkGathered
      (Scanner.results g ++ Scanner.successes f order)
      (match Scanner.firstErr g with
       | Some e => Some e
       | None => hd_error (Scanner.failures f order)
       end)
      (Scanner.invoked g ++ map Scanner.Name order).
Proof.
  revert g; induction order as [|s order IH]; intros g; simpl.
  - rewrite !app_nil_r. destruct g as [r [e|] i]; reflexivity.
  - rewrite IH. unfold Scanner.receive.
    destruct (Scanner.Scan_ s f) as [res|err]; simpl.
    + now rewrite <- !app_assoc.
    + rewrite <- app_assoc. now destruct (Scanner.firstErr g).
Qed.

Lemma gather_spec (f : list Manifest.Package) (order : list Scanner.Scanner) :
  Scanner.gather f order
  = Scanner.mkGathered (Scanner.successes f order)
      (hd_error (Scanner.failures f order)) (map Scanner.Name order).
Proof. unfold Scanner.gather. now rewrite gather_from. Qed.

Lemma gatherWithProgress_fst {W : Type} (cb : option (string -> bool -> W -> W))
    (f : list Manifest.Package) (order : list Scanner.Scanner) (w : W) :
  fst (Scanner.gatherWithProgress cb f order w) = Scanner.gather f order.
Proof.
  unfold Scanner.gatherWithProgress, Scanner.gather.
  generalize (Scanner.mkGathered [] None []) as g.
  revert w; induction order as [|s order IH]; intros w g; simpl.
  - reflexivity.
  - apply IH.
Qed.

Lemma successes_Permutation (f : list Manifest.Package) (l l' : list Scanner.Scanner) :
  Permutation l l' -> Permutation (Scanner.successes f l) (Scanner.successes f l').
Proof. intros H. unfold Scanner.successes. now apply Permutation_flat_map. Qed.

Lemma failures_Permutation (f : list Manifest.Package) (l l' : list Scanner.Scanner) :
  Permutation l l' -> Permutation (Scanner.failures f l) (Scanner.failures f l').
Proof. intros H. unfold Scanner.failures. now apply Permutation_flat_map. Qed.

Lemma successes_nil (f : list Manifest.Package) (l : list Scanner.Scanner) :
  Scanner.successes f l = [] <-> forallb (fun s => negb (Scanner.succeeds f s)) l = true.
Proof.
  unfold Scanner.succeeds.
  induction l as [|s l IH]; simpl; [tauto|].
  destruct (Scanner.Scan_ s f); simpl; [|exact IH].
  split; discriminate.
Qed.

Lemma successes_In (f : list Manifest.Package) (l : list Scanner.Scanner)
    (r : Types.ScanResult) :
  In r (Scanner.successes f l) <-> exists s, In s l /\ Scanner.Scan_ s f = inl r.
Proof.
  unfold Scanner.successes. rewrite in_flat_map. split.
  - intros (s & Hs & Hr). exists s. split; [assumption|].
    destruct (Scanner.Scan_ s f); simpl in Hr; [|contradiction].
    destruct Hr as [->|[]]. reflexivity.
  - intros (s & Hs & Hr). exists s. split; [assumption|]. rewrite Hr. now left.
Qed.

Lemma failures_In (f : list Manifest.Package) (l : list Scanner.Scanner)
    (e : Errors.error) :
  In e (Scanner.failures f l) <-> exists s, In s l /\ Scanner.Scan_ s f = inr e.
Proof.
  unfold Scanner.failures. rewrite in_flat_map. split.
  - intros (s & Hs & Hr). exists s. split; [assumption|].
    destruct (Scanner.Scan_ s f); simpl in Hr; [contradiction|].
    destruct Hr as [->|[]]. reflexivity.
  - intros (s & Hs & Hr). exists s. split; [assumption|]. rewrite Hr. now left.
Qed.

Lemma successes_failures_length (f : list Manifest.Package) (l : list Scanner.Scanner) :
  (length (Scanner.successes f l) + length (Scanner.failures f l) = length l)%nat.
Proof.
  unfold Scanner.successes, Scanner.failures.
  induction l as [|s l IH]; simpl; [reflexivity|].
  rewrite !length_app. destruct (Scanner.Scan_ s f); simpl; lia.
Qed.

(** ** Derived queries of an aggregated result *)

Lemma AllFindings_spec (ar : Types.AggregatedResult) :
  Types.AllFindings ar = Types.findingsOf (Types.Results ar).
Proof. unfold Types.AllFindings. now rewrite fold_left_append_all. Qed.

Lemma MalwareFindings_spec (ar : Types.AggregatedResult) :
  Types.MalwareFindings ar
  = List.filter Types.isMalwareType (Types.findingsOf (Types.Results ar)).
Proof.
  unfold Types.MalwareFindings.
  rewrite (fold_left_nested
             (fun findings finding =>
                if Types.isMalwareType finding then findings ++ [finding] else findings)
             Types.Findings).
  now rewrite fold_left_append_if.
Qed.


Lemma findingsOf_app (l1 l2 : list Types.ScanResult) :
  Types.findingsOf (l1 ++ l2) = Types.findingsOf l1 ++ Types.findingsOf l2.
Proof. apply flat_map_app. Qed.

Lemma findingsOf_policy (pkgs : list Manifest.Package) :
  length (Types.findingsOf (map Scanner.policyResult pkgs)) = length pkgs.
Proof. induction pkgs as [|p pkgs IH]; simpl; [reflexivity | now rewrite IH]. Qed.

(** ** aggregate *)

Lemma aggregateFinding_loop (fs : list Types.Finding) (a : Types.AggregatedResult) :
  fold_left Scanner.aggregateFinding fs a
  = Types.mkAggregatedResult
      (Types.Results a)
      (Types.TotalPackages a)
      (Types.TotalFindings a + Z.of_nat (length fs))
      (Types.HasMalware a || existsb Types.isMalwareType fs)
      (Types.HasCritical a || existsb (Types.hasSeverity Types.SeverityCritical) fs)
      (Types.HasHigh a || existsb (Types.hasSeverity Types.SeverityHigh) fs)
      (Types.Duration a).
Proof.
  revert a; induction fs as [|f fs IH]; intros a.
  - simpl. rewrite Z.add_0_r, !orb_false_r. now destruct a.
  - cbn [fold_left]. rewrite IH. unfold Scanner.aggregateFinding.
    cbn [Types.Results Types.TotalPackages Types.TotalFindings Types.HasMalware
         Types.HasCritical Types.HasHigh Types.Duration existsb length].
    assert (Hne : String.eqb Types.SeverityCritical Types.SeverityHigh = false)
      by reflexivity.
    f_equal.
    + lia.
    + unfold Types.isMalwareType at 2.
      destruct (String.eqb (Types.Type_ f) Types.FindingTypeMalware
                || String.eqb (Types.Type_ f) Types.FindingTypeTyposquat)%bool;
        destruct (Types.HasMalware a); reflexivity.
    + unfold Types.hasSeverity at 2.
      destruct (String.eqb (Types.Severity_ f) Types.SeverityCritical);
        destruct (Types.HasCritical a); reflexivity.
    + unfold Types.hasSeverity at 2.
      destruct (String.eqb (Types.Severity_ f) Types.SeverityCritical) eqn:Ec.
      * apply String.eqb_eq in Ec. rewrite Ec, Hne. reflexivity.
      * destruct (String.eqb (Types.Severity_ f) Types.SeverityHigh);
          destruct (Types.HasHigh a); reflexivity.
Qed.

Lemma aggregate_spec (o : Scanner.Orchestrator) (results : list Types.ScanResult) :
  Scanner.aggregate o results
  = Types.mkAggregatedResult results 0
      (Z.of_nat (length (Types.findingsOf results)))
      (existsb Types.isMalwareType (Types.findingsOf results))
      (existsb (Types.hasSeverity Types.SeverityCritical) (Types.findingsOf results))
      (existsb (Types.hasSeverity Types.SeverityHigh) (Types.findingsOf results))
      0.
Proof.
  unfold Scanner.aggregate.
  rewrite (fold_left_nested Scanner.aggregateFinding Types.Findings).
  rewrite aggregateFinding_loop. reflexivity.
Qed.

(** ** The allowlist filter and the blocklist loop *)


Lemma blocklist_loop (o : Scanner.Orchestrator) (packages : list Manifest.Package)
    (a : Types.AggregatedResult) :
  fold_left (Scanner.blocklistStep o) packages a
  = Types.mkAggregatedResult
      (Types.Results a ++ map Scanner.policyResult (Scanner.blocklisted o packages))
      (Types.TotalPackages a)
      (Types.TotalFindings a + Z.of_nat (length (Scanner.blocklisted o packages)))
      (Types.HasMalware a
       || negb (length (Scanner.blocklisted o packages) =? 0)%nat)
      (Types.HasCritical a)
      (Types.HasHigh a)
      (Types.Duration a).
Proof.
  unfold Scanner.blocklisted.
  revert a; induction packages as [|p packages IH]; intros a.
  - simpl. rewrite app_nil_r, Z.add_0_r, orb_false_r. now destruct a.
  - cbn [fold_left List.filter]. rewrite IH. unfold Scanner.blocklistStep.
    destruct (Config.IsPackageBlocklisted (Scanner.config o) (Manifest.Name p)).
    + cbn [Types.Results Types.TotalPackages Types.TotalFindings Types.HasMalware
           Types.HasCritical Types.HasHigh Types.Duration map length].
      rewrite <- app_assoc. simpl app. rewrite orb_true_r. f_equal. lia.
    + reflexivity.
Qed.

(** ** The shape of what Scan returns *)

Lemma allFailed_iff (o : Scanner.Orchestrator) (sched : list nat)
    (packages : list Manifest.Package) :
  let f := Scanner.filterAllowlisted o packages in
  let order := Scanner.completionOrder sched (Scanner.started o) in
  Scanner.allFailed o packages = true
  <-> Scanner.successes f order = [] /\ Scanner.failures f order <> [].
Proof.
  intros f order.
  assert (HP : Permutation order (Scanner.started o))
    by apply completionOrder_Permutation.
  assert (Hlen : length order = length (Scanner.started o))
    by now apply Permutation_length.
  pose proof (successes_failures_length f order) as Hsum.
  unfold Scanner.allFailed. fold f.
  rewrite andb_true_iff, negb_true_iff, Nat.eqb_neq, <- successes_nil.
  split.
  - intros [Hne Hs].
    assert (Ho : Scanner.successes f order = []).
    { apply Permutation_nil. rewrite <- Hs. symmetry. now apply successes_Permutation. }
    split; [exact Ho|].
    intros Hf. rewrite Ho, Hf in Hsum. simpl in Hsum. lia.
  - intros [Ho Hf]. split.
    + rewrite Ho in Hsum. simpl in Hsum.
      destruct (Scanner.failures f order); [congruence | simpl in Hsum; lia].
    + apply Permutation_nil. rewrite <- Ho. now apply successes_Permutation.
Qed.

Lemma length_eqb_0 {A : Type} (l : list A) : l <> [] -> (length l =? 0)%nat = false.
Proof. destruct l; [congruence | reflexivity]. Qed.

Lemma Scan_all_failed (o : Scanner.Orchestrator) (sched : list nat) (elapsed : Z)
    (packages : list Manifest.Package) :
  let f := Scanner.filterAllowlisted o packages in
  let order := Scanner.completionOrder sched (Scanner.started o) in
  packages <> [] ->
  Scanner.allFailed o packages = true ->
  exists e, hd_error (Scanner.failures f order) = Some e
            /\ Scanner.Scan o sched elapsed packages = (Scanner.Err e, map Scanner.Name order).
Proof.
  intros f order Hne Hall.
  apply (allFailed_iff o sched) in Hall. fold f order in Hall.
  destruct Hall as [Hs Hf].
  unfold Scanner.Scan. rewrite (length_eqb_0 _ Hne). fold f order.
  rewrite gather_spec. cbn [Scanner.results Scanner.firstErr Scanner.invoked].
  rewrite Hs. destruct (Scanner.failures f order) as [|e fs]; [congruence|].
  exists e. split; reflexivity.
Qed.

Lemma Scan_not_all_failed (o : Scanner.Orchestrator) (sched : list nat) (elapsed : Z)
    (packages : list Manifest.Package) :
  let f := Scanner.filterAllowlisted o packages in
  let order := Scanner.completionOrder sched (Scanner.started o) in
  let done := Scanner.successes f order in
  let blocked := Scanner.blocklisted o packages in
  packages <> [] ->
  Scanner.allFailed o packages = false ->
  Scanner.Scan o sched elapsed packages
  = (Scanner.Ok
       (Types.mkAggregatedResult
          (done ++ map Scanner.policyResult blocked)
          (Z.of_nat (length f))
          (Z.of_nat (length (Types.findingsOf done)) + Z.of_nat (length blocked))
          (existsb Types.isMalwareType (Types.findingsOf done)
           || negb (length blocked =? 0)%nat)
          (existsb (Types.hasSeverity Types.SeverityCritical) (Types.findingsOf done))
          (existsb (Types.hasSeverity Types.SeverityHigh) (Types.findingsOf done))
          elapsed),
     map Scanner.Name order).
Proof.
  intros f order done blocked Hne Hall.
  assert (Hcase : done <> [] \/ Scanner.failures f order = []).
  { destruct done eqn:Ed; [|left; congruence].
    destruct (Scanner.failures f order) eqn:Ef; [now right|].
    exfalso. apply not_true_iff_false in Hall. apply Hall.
    apply (allFailed_iff o sched). fold f order. split; [exact Ed|].
    rewrite Ef. discriminate. }
  unfold Scanner.Scan. rewrite (length_eqb_0 _ Hne). fold f order.
  rewrite gather_spec. cbn [Scanner.results Scanner.firstErr Scanner.invoked].
  fold done.
  assert (Hok : forall rest : Scanner.ScanReturn * list string,
             match done, hd_error (Scanner.failures f order) with
             | [], Some err => (Scanner.Err err, map Scanner.Name order)
             | _, _ => rest
             end = rest).
  { intros rest. destruct Hcase as [Hd|Hf].
    - destruct done; [congruence|]. reflexivity.
    - rewrite Hf. now destruct done. }
  rewrite Hok. rewrite blocklist_loop, aggregate_spec. reflexivity.
Qed.

(** ** Worked runs of Scan *)

Example Scan_mixed_run :
  Scanner.Scan Samples.oMixed [] 12 [Samples.lodash]
  = (Scanner.Ok
       (Types.mkAggregatedResult
          [Types.mkScanResult "Google OSV" 1
             [Samples.cveFinding "lodash" Types.SeverityHigh;
              Samples.cveFinding "lodash" Types.SeverityMedium] 5 false]
          1 2 false false true 12),
     ["Socket.dev"; "Google OSV"]).
Proof. vm_compute. reflexivity. Qed.

Example Scan_mixed_run_other_order :
  Scanner.Scan Samples.oMixed [1%nat] 12 [Samples.lodash]
  = (fst (Scanner.Scan Samples.oMixed [] 12 [Samples.lodash]),
     ["Google OSV"; "Socket.dev"]).
Proof. vm_compute. reflexivity. Qed.

Example Scan_down_run :
  Scanner.Scan Samples.oDown [] 12 [Samples.maliciousLib]
  = (Scanner.Err (Errors.Foreign "invalid Socket API token"),
     ["Socket.dev"; "Google OSV"]).
Proof. vm_compute. reflexivity. Qed.

Example Scan_down_run_other_order :
  Scanner.Scan Samples.oDown [1%nat] 12 [Samples.maliciousLib]
  = (Scanner.Err (Errors.Foreign "OSV API returned status 503"),
     ["Google OSV"; "Socket.dev"]).
Proof. vm_compute. reflexivity. Qed.

(** ** Claims about Scan *)

(** C6.  On the empty package list [Scan] returns at once, without error, a
    result with no entries, [total_packages = 0] and [total_findings = 0],
    and the [Scan] method of no scanner is called, whatever the orchestrator
    and the schedule. *)
Theorem Scan_empty_package_list
    (o : Scanner.Orchestrator) (sched : list nat) (elapsed : Z) :
  Scanner.Scan o sched elapsed []
  = (Scanner.Ok (Types.mkAggregatedResult [] 0 0 false false false elapsed), []).
Proof. reflexivity. Qed.

Lemma NewOrchestrator_none_enabled
    (socketNewClient : Config.SocketConfig -> Scanner.Scanner)
    (osvNewClient : Config.OSVConfig -> Scanner.Scanner) (cfg : Config.Config) :
  Config.SocketEnabled (Config.Socket (Config.Scanning cfg)) = false ->
  Config.OSVEnabled (Config.OSV (Config.Scanning cfg)) = false ->
  Scanner.scanners (Scanner.NewOrchestrator socketNewClient osvNewClient cfg) = [].
Proof. intros Hs Ho. unfold Scanner.NewOrchestrator. now rewrite Hs, Ho. Qed.

Example oNone_scanners :
  map (fun s => (Scanner.Name s, Scanner.IsAvailable s)) (Scanner.scanners Samples.oNone)
  = [("Socket.dev", false)].
Proof. reflexivity. Qed.



(** C9.  In every result that [Scan] returns without error, [total_findings]
    is the number of findings held by the entries of [results], that is the
    length of [AllFindings()], the policy findings of blocklisted packages
    included. *)
Theorem Scan_total_findings_is_length_AllFindings
    (o : Scanner.Orchestrator) (sched : list nat) (elapsed : Z)
    (packages : list Manifest.Package)
    (r : Types.AggregatedResult) (calls : list string) :
  Scanner.Scan o sched elapsed packages = (Scanner.Ok r, calls) ->
  Types.TotalFindings r = Z.of_nat (length (Types.AllFindings r)).
Proof.
  intros H. destruct packages as [|p packages].
  - cbn in H. injection H as <- _. reflexivity.
  - assert (Hne : p :: packages <> []) by discriminate.
    destruct (Scanner.allFailed o (p :: packages)) eqn:Hall.
    + destruct (Scan_all_failed o sched elapsed _ Hne Hall) as (e & _ & He).
      rewrite He in H. discriminate.
    + rewrite (Scan_not_all_failed o sched elapsed _ Hne Hall) in H.
      injection H as <- _.
      rewrite AllFindings_spec. cbn [Types.TotalFindings Types.Results].
      rewrite findingsOf_app, length_app, findingsOf_policy. lia.
Qed.

Lemma Scan_total_findings_is_length_AllFindings_witness :
  Types.TotalFindings
    (Types.mkAggregatedResult
       [Types.mkScanResult "Google OSV" 1 [] 5 false;
        Scanner.policyResult Samples.maliciousLib]
       1 1 true false false 7)
  = Z.of_nat
      (length
         (Types.AllFindings
            (Types.mkAggregatedResult
               [Types.mkScanResult "Google OSV" 1 [] 5 false;
                Scanner.policyResult Samples.maliciousLib]
               1 1 true false false 7))).
Proof.
  apply (Scan_total_findings_is_length_AllFindings Samples.oBlock [] 7
           [Samples.lodash; Samples.maliciousLib] _ ["Google OSV"]).
  vm_compute. reflexivity.
Defined.

(** C4.  Scanners are called only on a non-empty package list.  If at least
    one available scanner succeeds, [Scan] returns a result and no error; its
    [results] are the results of exactly the scanners that succeeded, in the
    order they finished, followed by the policy entries, and its
    [total_findings] counts their findings only: a scanner that failed has no
    entry and adds nothing.  If scanners were called and every one of them
    failed, [Scan] returns an error, the error of one of them, and no
    result. *)
Theorem Scan_tolerates_partial_failure
    (o : Scanner.Orchestrator) (sched : list nat) (elapsed : Z)
    (packages : list Manifest.Package) :
  packages <> [] ->
  ((exists s, In s (Scanner.scanners o) /\ Scanner.IsAvailable s = true
              /\ Scanner.succeeds (Scanner.filterAllowlisted o packages) s = true) ->
   exists r done,
     fst (Scanner.Scan o sched elapsed packages) = Scanner.Ok r
     /\ Permutation done
          (Scanner.successes (Scanner.filterAllowlisted o packages) (Scanner.started o))
     /\ Types.Results r
        = done ++ map Scanner.policyResult (Scanner.blocklisted o packages)
     /\ Types.TotalFindings r
        = Z.of_nat (length (Types.findingsOf done))
          + Z.of_nat (length (Scanner.blocklisted o packages)))
  /\
  ((Scanner.started o <> []
    /\ forall s, In s (Scanner.started o) ->
                 Scanner.succeeds (Scanner.filterAllowlisted o packages) s = false) ->
   exists e,
     fst (Scanner.Scan o sched elapsed packages) = Scanner.Err e
     /\ In e (Scanner.failures (Scanner.filterAllowlisted o packages) (Scanner.started o))).
Proof.
  intros Hne. split.
  - intros (s & Hin & Hav & Hok).
    assert (Hall : Scanner.allFailed o packages = false).
    { unfold Scanner.allFailed. apply andb_false_iff. right.
      apply not_true_iff_false. intros Hf.
      rewrite forallb_forall in Hf.
      assert (Hs : In s (Scanner.started o))
        by (unfold Scanner.started; apply filter_In; now split).
      specialize (Hf s Hs). rewrite Hok in Hf. discriminate. }
    rewrite (Scan_not_all_failed o sched elapsed packages Hne Hall).
    eexists. eexists. cbn [fst Types.Results Types.TotalFindings].
    split; [reflexivity|]. split; [|split; reflexivity].
    apply successes_Permutation, completionOrder_Permutation.
  - intros [Hst Hfail].
    assert (Hall : Scanner.allFailed o packages = true).
    { unfold Scanner.allFailed. apply andb_true_iff. split.
      - now rewrite (length_eqb_0 _ Hst).
      - apply forallb_forall. intros s Hs. now rewrite (Hfail s Hs). }
    destruct (Scan_all_failed o sched elapsed packages Hne Hall) as (e & He & HS).
    exists e. rewrite HS. split; [reflexivity|].
    apply (Permutation_in _
             (failures_Permutation _ _ _ (completionOrder_Permutation sched _))).
    cbv zeta in He.
    destruct (Scanner.failures _ (Scanner.completionOrder sched (Scanner.started o)))
      as [|e' fs]; simpl in He; [discriminate He|].
    injection He as ->. apply in_eq.
Qed.

Lemma Scan_tolerates_partial_failure_witness :
  (exists r done,
     fst (Scanner.Scan Samples.oMixed [] 12 [Samples.lodash]) = Scanner.Ok r
     /\ Permutation done
          (Scanner.successes (Scanner.filterAllowlisted Samples.oMixed [Samples.lodash])
             (Scanner.started Samples.oMixed))
     /\ Types.Results r
        = done ++ map Scanner.policyResult
                    (Scanner.blocklisted Samples.oMixed [Samples.lodash])
     /\ Types.TotalFindings r
        = Z.of_nat (length (Types.findingsOf done))
          + Z.of_nat (length (Scanner.blocklisted Samples.oMixed [Samples.lodash])))
  /\
  (exists e,
     fst (Scanner.Scan Samples.oDown [] 12 [Samples.maliciousLib]) = Scanner.Err e
     /\ In e (Scanner.failures
                (Scanner.filterAllowlisted Samples.oDown [Samples.maliciousLib])
                (Scanner.started Samples.oDown))).
Proof.
  split.
  - apply (Scan_tolerates_partial_failure Samples.oMixed [] 12 [Samples.lodash]).
    + discriminate.
    + exists (Clients.osvNewClient (Samples.twoFindings "Google OSV") 0
                (Config.mkOSVConfig true 30)).
      split; [right; left; reflexivity | split; reflexivity].
  - apply (Scan_tolerates_partial_failure Samples.oDown [] 12 [Samples.maliciousLib]).
    + discriminate.
    + split; [discriminate|].
      intros s Hs. cbv in Hs. destruct Hs as [<-|[<-|[]]]; reflexivity.
Defined.

(** C3, the claim as written fails: [malicious-lib] is in the package list
    and on the blocklist, both scanners fail, and [Scan] returns their error
    and no result, hence no policy finding. *)
Lemma Scan_blocklisted_but_all_scanners_failed :
  In Samples.maliciousLib [Samples.maliciousLib]
  /\ Config.IsPackageBlocklisted (Scanner.config Samples.oDown)
       (Manifest.Name Samples.maliciousLib) = true
  /\ fst (Scanner.Scan Samples.oDown [] 12 [Samples.maliciousLib])
     = Scanner.Err (Errors.Foreign "invalid Socket API token")
  /\ ~ exists r,
         fst (Scanner.Scan Samples.oDown [] 12 [Samples.maliciousLib]) = Scanner.Ok r
         /\ Types.HasMalware r = true.
Proof.
  split; [now left|]. split; [reflexivity|]. split; [reflexivity|].
  intros (r & H & _). vm_compute in H. discriminate.
Qed.

(** C3, amended.  Unless scanners were called and every one of them failed,
    [Scan] returns a result in which every package of the original list whose
    name is on the blocklist, allowlisted or not, has an entry of the
    pseudo-scanner "policy" holding one finding of type malware, severity
    critical and title "Blocklisted package"; [has_malware] is true, and
    [total_findings] is the number of the scanners' findings plus one for each
    blocklisted package. *)
Theorem Scan_injects_blocklist_findings
    (o : Scanner.Orchestrator) (sched : list nat) (elapsed : Z)
    (packages : list Manifest.Package) (pkg : Manifest.Package) :
  In pkg packages ->
  Config.IsPackageBlocklisted (Scanner.config o) (Manifest.Name pkg) = true ->
  Scanner.allFailed o packages = false ->
  exists r done,
    fst (Scanner.Scan o sched elapsed packages) = Scanner.Ok r
    /\ Permutation done
         (Scanner.successes (Scanner.filterAllowlisted o packages) (Scanner.started o))
    /\ Types.Results r = done ++ map Scanner.policyResult (Scanner.blocklisted o packages)
    /\ In (Types.mkScanResult "policy" 1
             [Types.mkFinding (Manifest.Name pkg) (Manifest.Version pkg)
                "malware" "critical" "Blocklisted package"
                "This package is in your blocklist" "" [] ""]
             0 false)
          (map Scanner.policyResult (Scanner.blocklisted o packages))
    /\ Types.HasMalware r = true
    /\ Types.TotalFindings r
       = Z.of_nat (length (Types.findingsOf done))
         + Z.of_nat (length (Scanner.blocklisted o packages)).
Proof.
  intros Hin Hbl Hall.
  assert (Hne : packages <> []) by (destruct packages; [contradiction | discriminate]).
  assert (Hb : In pkg (Scanner.blocklisted o packages))
    by (unfold Scanner.blocklisted; apply filter_In; now split).
  rewrite (Scan_not_all_failed o sched elapsed packages Hne Hall).
  eexists. eexists.
  cbn [fst Types.Results Types.TotalFindings Types.HasMalware].
  split; [reflexivity|].
  split; [apply successes_Permutation, completionOrder_Permutation|].
  split; [reflexivity|].
  split; [exact (in_map Scanner.policyResult _ _ Hb)|].
  split; [|reflexivity].
  destruct (Scanner.blocklisted o packages); [contradiction|].
  apply orb_true_r.
Qed.

Lemma Scan_injects_blocklist_findings_witness :
  exists r done,
    fst (Scanner.Scan Samples.oBlock [] 7 [Samples.lodash; Samples.maliciousLib])
    = Scanner.Ok r
    /\ Permutation done
         (Scanner.successes
            (Scanner.filterAllowlisted Samples.oBlock [Samples.lodash; Samples.maliciousLib])
            (Scanner.started Samples.oBlock))
    /\ Types.Results r
       = done ++ map Scanner.policyResult
                   (Scanner.blocklisted Samples.oBlock [Samples.lodash; Samples.maliciousLib])
    /\ In (Types.mkScanResult "policy" 1
             [Types.mkFinding "malicious-lib" "1.0.0"
                "malware" "critical" "Blocklisted package"
                "This package is in your blocklist" "" [] ""]
             0 false)
          (map Scanner.policyResult
             (Scanner.blocklisted Samples.oBlock [Samples.lodash; Samples.maliciousLib]))
    /\ Types.HasMalware r = true
    /\ Types.TotalFindings r
       = Z.of_nat (length (Types.findingsOf done))
         + Z.of_nat
             (length (Scanner.blocklisted Samples.oBlock
                        [Samples.lodash; Samples.maliciousLib])).
Proof.
  apply (Scan_injects_blocklist_findings Samples.oBlock [] 7
           [Samples.lodash; Samples.maliciousLib] Samples.maliciousLib).
  - right; left; reflexivity.
  - reflexivity.
  - reflexivity.
Defined.

(** ** ScanWithProgress against Scan *)

(** The callback has no influence on what [ScanWithProgress] returns. *)
Lemma ScanWithProgress_callback_irrelevant {W W' : Type}
    (o : Scanner.Orchestrator) (sched : list nat) (elapsed : Z)
    (packages : list Manifest.Package)
    (cb : option (string -> bool -> W -> W)) (w : W)
    (cb' : option (string -> bool -> W' -> W')) (w' : W') :
  fst (Scanner.ScanWithProgress o sched elapsed packages cb w)
  = fst (Scanner.ScanWithProgress o sched elapsed packages cb' w').
Proof.
  unfold Scanner.ScanWithProgress.
  destruct (length packages =? 0)%nat; [reflexivity|].
  pose proof (gatherWithProgress_fst cb (Scanner.filterAllowlisted o packages)
                (Scanner.completionOrder sched (Scanner.started o)) w) as H.
  pose proof (gatherWithProgress_fst cb' (Scanner.filterAllowlisted o packages)
                (Scanner.completionOrder sched (Scanner.started o)) w') as H'.
  destruct (Scanner.gatherWithProgress cb _ _ w) as [g v].
  destruct (Scanner.gatherWithProgress cb' _ _ w') as [g' v'].
  simpl in H, H'. subst g g'.
  destruct (Scanner.results _); [destruct (Scanner.firstErr _)|]; reflexivity.
Qed.

(** When no package of the list is blocklisted the two functions return the
    same result and call the same scanners. *)
Lemma ScanWithProgress_agrees_without_blocklist {W : Type}
    (o : Scanner.Orchestrator) (sched : list nat) (elapsed : Z)
    (packages : list Manifest.Package)
    (cb : option (string -> bool -> W -> W)) (w : W) :
  Scanner.blocklisted o packages = [] ->
  fst (Scanner.ScanWithProgress o sched elapsed packages cb w)
  = Scanner.Scan o sched elapsed packages.
Proof.
  intros Hb. unfold Scanner.ScanWithProgress, Scanner.Scan.
  destruct (length packages =? 0)%nat; [reflexivity|].
  pose proof (gatherWithProgress_fst cb (Scanner.filterAllowlisted o packages)
                (Scanner.completionOrder sched (Scanner.started o)) w) as H.
  destruct (Scanner.gatherWithProgress cb _ _ w) as [g v].
  simpl in H. subst g.
  rewrite blocklist_loop, Hb. simpl map. simpl length.
  rewrite app_nil_r, Z.add_0_r, orb_false_r.
  destruct (Scanner.results _); [destruct (Scanner.firstErr _)|]; reflexivity.
Qed.

(** C2.  [ScanWithProgress] lacks the loop over the blocklist that closes
    [Scan].  On the list [lodash, malicious-lib] with [malicious-lib]
    blocklisted and one scanner that answers without findings, [Scan] returns
    the policy finding, [total_findings = 1] and [has_malware = true];
    [ScanWithProgress], with a nil callback as with one that records its
    calls, returns no finding, [total_findings = 0] and [has_malware =
    false]. *)
Theorem ScanWithProgress_omits_blocklist_findings :
  fst (Scanner.Scan Samples.oBlock [] 7 [Samples.lodash; Samples.maliciousLib])
  = Scanner.Ok
      (Types.mkAggregatedResult
         [Types.mkScanResult "Google OSV" 1 [] 5 false;
          Scanner.policyResult Samples.maliciousLib]
         1 1 true false false 7)
  /\ Scanner.ScanWithProgress Samples.oBlock [] 7
       [Samples.lodash; Samples.maliciousLib] None tt
     = (Scanner.Ok
          (Types.mkAggregatedResult
             [Types.mkScanResult "Google OSV" 1 [] 5 false]
             1 0 false false false 7),
        ["Google OSV"], tt)
  /\ Scanner.ScanWithProgress Samples.oBlock [] 7
       [Samples.lodash; Samples.maliciousLib]
       (Some (fun name done (log : list (string * bool)) => log ++ [(name, done)])) []
     = (Scanner.Ok
          (Types.mkAggregatedResult
             [Types.mkScanResult "Google OSV" 1 [] 5 false]
             1 0 false false false 7),
        ["Google OSV"], [("Google OSV", false); ("Google OSV", true)]).
Proof. repeat split; vm_compute; reflexivity. Qed.

(** ** aggregate does not depend on the order of its input *)

Lemma existsb_Permutation {A : Type} (p : A -> bool) (l l' : list A) :
  Permutation l l' -> existsb p l = existsb p l'.
Proof.
  induction 1 as [|x l l' _ IH|x y l|l l' l'' _ IH1 _ IH2]; simpl.
  - reflexivity.
  - now rewrite IH.
  - destruct (p x), (p y); reflexivity.
  - now rewrite IH1.
Qed.

Lemma findingsOf_Permutation (rs rs' : list Types.ScanResult) :
  Permutation rs rs' -> Permutation (Types.findingsOf rs) (Types.findingsOf rs').
Proof. intros H. unfold Types.findingsOf. now apply Permutation_flat_map. Qed.

(** C7.  [aggregate] yields the same [total_findings], [has_malware],
    [has_critical] and [has_high] on two lists of scanner results that differ
    by the order of the results or, more generally, by the order in which
    their findings are met. *)
Theorem aggregate_order_independent
    (o : Scanner.Orchestrator) (rs rs' : list Types.ScanResult) :
  Permutation rs rs' \/ Permutation (Types.findingsOf rs) (Types.findingsOf rs') ->
  Types.TotalFindings (Scanner.aggregate o rs) = Types.TotalFindings (Scanner.aggregate o rs')
  /\ Types.HasMalware (Scanner.aggregate o rs) = Types.HasMalware (Scanner.aggregate o rs')
  /\ Types.HasCritical (Scanner.aggregate o rs) = Types.HasCritical (Scanner.aggregate o rs')
  /\ Types.HasHigh (Scanner.aggregate o rs) = Types.HasHigh (Scanner.aggregate o rs').
Proof.
  intros H.
  assert (HP : Permutation (Types.findingsOf rs) (Types.findingsOf rs')).
  { destruct H as [H|H]; [now apply findingsOf_Permutation | exact H]. }
  rewrite !aggregate_spec.
  cbn [Types.TotalFindings Types.HasMalware Types.HasCritical Types.HasHigh].
  repeat split.
  - now rewrite (Permutation_length HP).
  - now apply existsb_Permutation.
  - now apply existsb_Permutation.
  - now apply existsb_Permutation.
Qed.

Lemma aggregate_order_independent_witness :
  Types.TotalFindings
    (Scanner.aggregate Samples.oMixed [Samples.socketReport; Samples.osvReport])
  = Types.TotalFindings
      (Scanner.aggregate Samples.oMixed [Samples.osvReport; Samples.socketReport])
  /\ Types.HasMalware
       (Scanner.aggregate Samples.oMixed [Samples.socketReport; Samples.osvReport])
     = Types.HasMalware
         (Scanner.aggregate Samples.oMixed [Samples.osvReport; Samples.socketReport])
  /\ Types.HasCritical
       (Scanner.aggregate Samples.oMixed [Samples.socketReport; Samples.osvReport])
     = Types.HasCritical
         (Scanner.aggregate Samples.oMixed [Samples.osvReport; Samples.socketReport])
  /\ Types.HasHigh
       (Scanner.aggregate Samples.oMixed [Samples.socketReport; Samples.osvReport])
     = Types.HasHigh
         (Scanner.aggregate Samples.oMixed [Samples.osvReport; Samples.socketReport]).
Proof.
  apply (aggregate_order_independent Samples.oMixed
           [Samples.socketReport; Samples.osvReport]
           [Samples.osvReport; Samples.socketReport]).
  left. apply perm_swap.
Defined.

(** ** Package names from lockfile paths *)

Example Base_lodash : Manifest.Base "node_modules/lodash" = "lodash".
Proof. reflexivity. Qed.

Example Base_scoped : Manifest.Base "node_modules/@babel/core" = "core".
Proof. reflexivity. Qed.

Example Base_trailing_separator : Manifest.Base "node_modules/lodash/" = "lodash".
Proof. reflexivity. Qed.

Example Base_separators_only : Manifest.Base "//" = "/".
Proof. reflexivity. Qed.

Example cleanVersion_caret : Manifest.cleanVersion "^1.2.3" = "1.2.3".
Proof. reflexivity. Qed.

Example cleanVersion_ge : Manifest.cleanVersion ">=1.2.3" = "1.2.3".
Proof. reflexivity. Qed.

Example cleanVersion_bare_operator : Manifest.cleanVersion "^" = "^".
Proof. reflexivity. Qed.

Lemma bytes_append (s t : string) :
  Bytes.bytes (s +:+ t) = Bytes.bytes s ++ Bytes.bytes t.
Proof. induction s as [|c s IH]; simpl; [reflexivity | now rewrite <- IH]. Qed.

Lemma str_bytes (s : string) : Bytes.str (Bytes.bytes s) = s.
Proof. apply string_of_list_ascii_of_string. Qed.

Lemma bytes_str (l : list ascii) : Bytes.bytes (Bytes.str l) = l.
Proof. apply list_ascii_of_string_of_list_ascii. Qed.

Lemma takeWhile_app_stop {A : Type} (p : A -> bool) (l : list A) (x : A) (r : list A) :
  forallb p l = true -> p x = false -> Bytes.takeWhile p (l ++ x :: r) = l.
Proof.
  intros Hl Hx. induction l as [|y l IH]; simpl.
  - now rewrite Hx.
  - simpl in Hl. apply andb_true_iff in Hl as [Hy Hl]. rewrite Hy. now rewrite IH.
Qed.

Lemma forallb_rev {A : Type} (p : A -> bool) (l : list A) :
  forallb p (rev l) = forallb p l.
Proof.
  induction l as [|x l IH]; simpl; [reflexivity|].
  rewrite forallb_app, IH. simpl. rewrite andb_true_r. apply andb_comm.
Qed.

Lemma last_element (dir name : list ascii) :
  name <> [] ->
  forallb (fun c => negb (Manifest.IsPathSeparator c)) name = true ->
  rev (Bytes.takeWhile (fun c => negb (Manifest.IsPathSeparator c))
         (Bytes.dropWhile Manifest.IsPathSeparator (rev (dir ++ "/"%char :: name))))
  = name.
Proof.
  intros Hne Hseg.
  rewrite rev_app_distr. simpl rev. rewrite <- app_assoc. simpl app.
  assert (Hrev : forallb (fun c => negb (Manifest.IsPathSeparator c)) (rev name) = true)
    by now rewrite forallb_rev.
  destruct (rev name) as [|c l] eqn:Er.
  - exfalso. apply Hne. rewrite <- (rev_involutive name), Er. reflexivity.
  - assert (Hc : Manifest.IsPathSeparator c = false).
    { simpl in Hrev. apply andb_true_iff in Hrev as [Hc _]. now apply negb_true_iff. }
    cbn [app Bytes.dropWhile]. rewrite Hc.
    change (c :: l ++ "/"%char :: rev dir) with ((c :: l) ++ "/"%char :: rev dir).
    rewrite takeWhile_app_stop by (assumption || reflexivity).
    now rewrite <- Er, rev_involutive.
Qed.

(** [filepath.Base] keeps the last segment only: whatever precedes the last
    separator, a scope included, is dropped. *)
Lemma Base_last_segment (dir name : string) :
  name <> "" ->
  forallb (fun c => negb (Manifest.IsPathSeparator c)) (Bytes.bytes name) = true ->
  Manifest.Base (dir +:+ "/" +:+ name) = name.
Proof.
  intros Hne Hseg. unfold Manifest.Base.
  assert (Hpath : String.eqb (dir +:+ "/" +:+ name) "" = false).
  { apply String.eqb_neq. intros H. apply (f_equal Bytes.bytes) in H.
    rewrite !bytes_append in H. simpl in H.
    destruct (Bytes.bytes dir); discriminate. }
  assert (Hb : Bytes.bytes name <> []).
  { intros H. apply Hne. now rewrite <- (str_bytes name), H. }
  rewrite Hpath, !bytes_append.
  change (Bytes.bytes "/" ++ Bytes.bytes name) with ("/"%char :: Bytes.bytes name).
  rewrite (last_element _ _ Hb Hseg), str_bytes.
  apply String.eqb_neq in Hne. now rewrite Hne.
Qed.

Example Base_drops_scope :
  Manifest.Base ("node_modules/foo/node_modules/@scope" +:+ "/" +:+ "pkg") = "pkg".
Proof. now apply Base_last_segment. Qed.

(** C1.  [GetDependencies] names a lockfile entry by [filepath.Base] of its
    path.  On the paths of the parser's own test table the unscoped entries
    come out as the test expects (lodash, bar), the scoped ones lose their
    scope: "node_modules/@babel/core" is named "core" where the test expects
    "@babel/core", and likewise "node" for "@types/node" and
    "helper-plugin-utils" for "@babel/helper-plugin-utils". *)
Theorem GetDependencies_drops_scope_of_scoped_packages :
  Manifest.GetDependencies (inl Samples.manifest) (Some Samples.lockfile) true
  = inl [Manifest.mkPackage "lodash" "4.17.20" "npm";
         Manifest.mkPackage "core" "7.23.0" "npm";
         Manifest.mkPackage "bar" "2.0.0" "npm";
         Manifest.mkPackage "node" "20.1.0" "npm";
         Manifest.mkPackage "helper-plugin-utils" "7.22.5" "npm"].
Proof. vm_compute. reflexivity. Qed.

Lemma lockEntry_loop_names (includeDev : bool)
    (entries : list (string * Manifest.PackageLockPkg))
    (init : list Manifest.Package) (pkg : Manifest.Package) :
  In pkg (fold_left (Manifest.lockEntry includeDev) entries init) ->
  In pkg init
  \/ exists path info,
       In (path, info) entries
       /\ pkg = Manifest.mkPackage (Manifest.Base path) (Manifest.lVersion info) "npm".
Proof.
  revert init; induction entries as [|[path info] entries IH]; intros init H; simpl in H.
  - now left.
  - destruct (IH _ H) as [Hin|(p & i & Hin & Hp)].
    + unfold Manifest.lockEntry in Hin.
      destruct (String.eqb path ""); [now left|].
      destruct (Manifest.Dev info && negb includeDev); [now left|].
      destruct (String.eqb (Manifest.Base path) "" || String.eqb (Manifest.lVersion info) "");
        [now left|].
      apply in_app_or in Hin as [Hin|[<-|[]]]; [now left|].
      right. exists path, info. split; [now left | reflexivity].
    + right. exists p, i. split; [now right | exact Hp].
Qed.

(** ** Policy evaluation *)

Lemma cveSeverityLoop_spec (cfg : Config.Config) (fs : list Types.Finding)
    (b : bool) (sev : Types.Severity) :
  Cli.cveSeverityLoop cfg fs b sev
  = b || (Config.ShouldBlock cfg (Config.GetCVEAction cfg sev)
          && existsb (Types.hasSeverity sev) fs).
Proof.
  unfold Cli.cveSeverityLoop.
  revert b; induction fs as [|f fs IH]; intros b; simpl.
  - now rewrite andb_false_r, orb_false_r.
  - rewrite IH. unfold Types.hasSeverity at 2.
    destruct (String.eqb (Types.Severity_ f) sev); simpl; [|reflexivity].
    destruct (Config.ShouldBlock cfg (Config.GetCVEAction cfg sev)); simpl.
    + now rewrite orb_true_r.
    + reflexivity.
Qed.

Lemma cveSeverities_loop (cfg : Config.Config) (fs : list Types.Finding)
    (sevs : list Types.Severity) (b : bool) :
  fold_left (Cli.cveSeverityLoop cfg fs) sevs b
  = b || existsb (fun sev => Cli.cveSeverityLoop cfg fs false sev) sevs.
Proof.
  revert b; induction sevs as [|sev sevs IH]; intros b; simpl.
  - now rewrite orb_false_r.
  - rewrite IH, (cveSeverityLoop_spec cfg fs b), (cveSeverityLoop_spec cfg fs false).
    simpl. now rewrite orb_assoc.
Qed.

(** The decision of [evaluateScanResults] as one boolean. *)
Lemma evaluateScanResults_spec (cfg : Config.Config) (r : Types.AggregatedResult) :
  Types.TotalFindings r <> 0 ->
  Cli.evaluateScanResults cfg r
  = if (existsb Types.isMalwareType (Types.AllFindings r)
        && Config.ShouldBlock cfg (Config.Malware (Config.Policy (Config.Scanning cfg))))
       || existsb (fun sev => Cli.cveSeverityLoop cfg (Types.CVEFindings r) false sev)
            Cli.severities
    then Some (Errors.SecurityBlockError "security threats detected")
    else None.
Proof.
  intros Hne. unfold Cli.evaluateScanResults.
  apply Z.eqb_neq in Hne. rewrite Hne.
  rewrite MalwareFindings_spec, AllFindings_spec.
  set (fs := Types.findingsOf (Types.Results r)).
  assert (Hm : (0 <? length (List.filter Types.isMalwareType fs))%nat
               = existsb Types.isMalwareType fs).
  { induction fs as [|f fs IH]; simpl; [reflexivity|].
    destruct (Types.isMalwareType f); simpl; [reflexivity | exact IH]. }
  rewrite Hm.
  assert (Hc : (if (0 <? length (Types.CVEFindings r))%nat
                then fold_left (Cli.cveSeverityLoop cfg (Types.CVEFindings r)) Cli.severities
                       (if existsb Types.isMalwareType fs
                        then if Config.ShouldBlock cfg
                                  (Config.Malware (Config.Policy (Config.Scanning cfg)))
                             then true else false
                        else false)
                else (if existsb Types.isMalwareType fs
                      then if Config.ShouldBlock cfg
                                (Config.Malware (Config.Policy (Config.Scanning cfg)))
                           then true else false
                      else false))
               = (existsb Types.isMalwareType fs
                  && Config.ShouldBlock cfg
                       (Config.Malware (Config.Policy (Config.Scanning cfg))))
                 || existsb (fun sev => Cli.cveSeverityLoop cfg (Types.CVEFindings r) false sev)
                      Cli.severities).
  { rewrite cveSeverities_loop.
    destruct (Types.CVEFindings r) as [|f cs]; simpl.
    - destruct (existsb Types.isMalwareType fs), (Config.ShouldBlock cfg _); reflexivity.
    - destruct (existsb Types.isMalwareType fs), (Config.ShouldBlock cfg _); reflexivity. }
  rewrite Hc. reflexivity.
Qed.



Example outputTextResult_critical_blocks :
  Cli.outputTextResult (Samples.cfg false "" true [] []) Samples.criticalOnly
  = Some (Errors.SecurityBlockError "critical vulnerabilities detected").
Proof. vm_compute. reflexivity. Qed.

Example evaluateScanResults_high_warns :
  Cli.evaluateScanResults (Samples.cfg false "" true [] []) Samples.highOnly = None.
Proof. vm_compute. reflexivity. Qed.




(** ** The confirmation prompts *)

Section TrimLemmas.
Context {A : Type} (p : A -> bool).





End TrimLemmas.










Section PromptExamples.
Variables unicodeToLower unicodeTrimSpace : string -> string.

Example PromptUnsecure_plain :
  UI.PromptUnsecure unicodeToLower unicodeTrimSpace
    (UI.ReadLine (Samples.typed "unsecure")) = true.
Proof. reflexivity. Qed.

Example PromptUnsecure_mixed_case_and_blanks :
  UI.PromptUnsecure unicodeToLower unicodeTrimSpace
    (UI.ReadLine (Samples.typed "  UnSeCuRe ")) = true.
Proof. reflexivity. Qed.

Example PromptUnsecure_end_of_input :
  UI.PromptUnsecure unicodeToLower unicodeTrimSpace
    (UI.ReadError "unsecure" (Errors.Foreign "EOF")) = false.
Proof. reflexivity. Qed.

Example PromptForce_upper :
  UI.PromptForce unicodeToLower unicodeTrimSpace
    (UI.ReadLine (Samples.typed "FORCE")) = true.
Proof. reflexivity. Qed.

Example PromptForce_other_word :
  UI.PromptForce unicodeToLower unicodeTrimSpace
    (UI.ReadLine (Samples.typed "forced")) = false.
Proof. reflexivity. Qed.

Example PromptForce_inner_blank :
  UI.PromptForce unicodeToLower unicodeTrimSpace
    (UI.ReadLine (Samples.typed "for ce")) = false.
Proof. reflexivity. Qed.

Example PromptForce_wrong_phrase :
  UI.PromptForce unicodeToLower unicodeTrimSpace
    (UI.ReadLine (Samples.typed "unsecure")) = false.
Proof. reflexivity. Qed.

End PromptExamples.



(** * Further properties of the code *)

(** ** Slices of a string *)

Lemma length_bytes (s : string) : length (Bytes.bytes s) = String.length s.
Proof. induction s as [|c s IH]; simpl; [reflexivity | now rewrite IH]. Qed.

Lemma str_app (l1 l2 : list ascii) : Bytes.str (l1 ++ l2) = Bytes.str l1 +:+ Bytes.str l2.
Proof. induction l1 as [|c l1 IH]; simpl; [reflexivity | now rewrite IH]. Qed.

Lemma str_inj (l1 l2 : list ascii) : Bytes.str l1 = Bytes.str l2 -> l1 = l2.
Proof. intros H. now rewrite <- (bytes_str l1), <- (bytes_str l2), H. Qed.

Lemma bytes_inj (s t : string) : Bytes.bytes s = Bytes.bytes t -> s = t.
Proof. intros H. now rewrite <- (str_bytes s), <- (str_bytes t), H. Qed.

Lemma prefix_suffix (n : nat) (s : string) : Bytes.prefix n s +:+ Bytes.suffix n s = s.
Proof.
  unfold Bytes.prefix, Bytes.suffix.
  now rewrite <- str_app, firstn_skipn, str_bytes.
Qed.

Lemma prefix_app (s t : string) : Bytes.prefix (String.length s) (s +:+ t) = s.
Proof.
  unfold Bytes.prefix. rewrite bytes_append, <- length_bytes.
  rewrite firstn_app, Nat.sub_diag, firstn_all, firstn_O, app_nil_r.
  apply str_bytes.
Qed.

Lemma suffix_app (s t : string) : Bytes.suffix (String.length s) (s +:+ t) = t.
Proof.
  unfold Bytes.suffix. rewrite bytes_append, <- length_bytes.
  rewrite skipn_app, Nat.sub_diag, skipn_all, skipn_O. simpl app.
  apply str_bytes.
Qed.

Lemma length_append (s t : string) :
  String.length (s +:+ t) = (String.length s + String.length t)%nat.
Proof. induction s as [|c s IH]; simpl; [reflexivity | now rewrite IH]. Qed.

Lemma length_suffix (n : nat) (s : string) :
  String.length (Bytes.suffix n s) = (String.length s - n)%nat.
Proof.
  unfold Bytes.suffix. now rewrite <- length_bytes, bytes_str, length_skipn, length_bytes.
Qed.

Lemma length_prefix (n : nat) (s : string) :
  String.length (Bytes.prefix n s) = Nat.min n (String.length s).
Proof.
  unfold Bytes.prefix. now rewrite <- length_bytes, bytes_str, length_firstn, length_bytes.
Qed.

(** ** cleanVersion *)

Lemma cleanVersion_loop_spec (prefixes : list string) (version : string) :
  exists op,
    (op = "" \/ In op prefixes)
    /\ version = op +:+ Manifest.cleanVersion_loop prefixes version
    /\ (version <> "" -> Manifest.cleanVersion_loop prefixes version <> "").
Proof.
  induction prefixes as [|p rest IH]; simpl.
  - exists "". auto.
  - destruct ((String.length p <? String.length version)%nat
              && String.eqb (Bytes.prefix (String.length p) version) p) eqn:E.
    + apply andb_true_iff in E as [Hlen Heq].
      apply Nat.ltb_lt in Hlen. apply String.eqb_eq in Heq.
      exists p. split; [right; now left|]. split.
      * rewrite <- Heq at 1. now rewrite prefix_suffix.
      * intros _ H. apply (f_equal String.length) in H.
        rewrite length_suffix in H. simpl in H. lia.
    + destruct IH as (op & [->|Hin] & Hv & Hne).
      * exists "". auto.
      * exists op. auto.
Qed.

Lemma cleanVersion_loop_unchanged (prefixes : list string) (version : string) :
  (forall p, In p prefixes -> Bytes.prefix (String.length p) version <> p) ->
  Manifest.cleanVersion_loop prefixes version = version.
Proof.
  induction prefixes as [|p rest IH]; intros H; simpl; [reflexivity|].
  assert (Hp : String.eqb (Bytes.prefix (String.length p) version) p = false).
  { apply String.eqb_neq. apply H. now left. }
  rewrite Hp, andb_false_r. apply IH. intros q Hq. apply H. now right.
Qed.

(** X1.  [cleanVersion] returns its argument with at most one leading range
    operator ([^], [~], [>=], [<=], [>], [<], [=]) removed; the result of a
    non-empty version is never empty; a version that does not begin with one
    of the bytes [^ ~ > < =] is returned as it is. *)
Theorem cleanVersion_strips_one_operator (version : string) :
  (exists op,
     In op [""; "^"; "~"; ">="; "<="; ">"; "<"; "="]
     /\ version = op +:+ Manifest.cleanVersion version)
  /\ (version <> "" -> Manifest.cleanVersion version <> "")
  /\ (forall c rest,
        version = String c rest ->
        ~ In c ["^"; "~"; ">"; "<"; "="]%char ->
        Manifest.cleanVersion version = version).
Proof.
  unfold Manifest.cleanVersion.
  destruct version as [|c0 rest0].
  - simpl. split; [exists ""; split; [now left | reflexivity]|].
    split; [congruence|]. intros c rest H. discriminate.
  - cbn [String.length Nat.eqb].
    destruct (cleanVersion_loop_spec ["^"; "~"; ">="; "<="; ">"; "<"; "="] (String c0 rest0))
      as (op & Hop & Hv & Hne).
    split; [exists op; split; [|exact Hv]|split; [exact Hne|]].
    + destruct Hop as [->|Hin]; [now left | now right].
    + intros c rest Heq Hc. injection Heq as <- <-.
      apply cleanVersion_loop_unchanged. intros p Hp Hpre.
      apply Hc.
      assert (Hs : String c0 rest0 = p +:+ Bytes.suffix (String.length p) (String c0 rest0)).
      { rewrite <- Hpre at 1. now rewrite prefix_suffix. }
      simpl in Hp.
      destruct Hp as [<-|[<-|[<-|[<-|[<-|[<-|[<-|[]]]]]]]];
        simpl in Hs; injection Hs as -> _; simpl; auto 6.
Qed.

Example cleanVersion_two_operators : Manifest.cleanVersion ">>1.0" = ">1.0".
Proof. reflexivity. Qed.

Example cleanVersion_range_kept : Manifest.cleanVersion "1.0 - 2.0" = "1.0 - 2.0".
Proof. reflexivity. Qed.

Lemma cleanVersion_strips_one_operator_witness :
  Manifest.cleanVersion "1.2.3" = "1.2.3".
Proof.
  apply (proj2 (proj2 (cleanVersion_strips_one_operator "1.2.3")) "1"%char ".2.3").
  - reflexivity.
  - intros [H|[H|[H|[H|[H|[]]]]]]; discriminate.
Defined.

(** ** GetDependencies *)






Lemma manifestEntry_loop (entries : list (string * string)) (init : list Manifest.Package) :
  fold_left Manifest.manifestEntry entries init
  = init ++ map (fun e => Manifest.mkPackage (fst e) (Manifest.cleanVersion (snd e)) "npm")
              entries.
Proof.
  revert init; induction entries as [|[name version] entries IH]; intros init; simpl.
  - now rewrite app_nil_r.
  - rewrite IH. unfold Manifest.manifestEntry. now rewrite <- app_assoc.
Qed.

(** X3.  Without a lockfile, or with one older than version 2,
    [GetDependencies] returns what [GetDirectDependencies] returns: one
    package per entry of [dependencies], then, if asked for, one per entry of
    [devDependencies], each with the name as written in package.json (a scope
    is kept) and the version cleaned by [cleanVersion]. *)
Theorem GetDependencies_without_lockfile
    (manifest : Manifest.ManifestFile) (lockfile : option Manifest.PackageLock)
    (includeDev : bool) :
  (forall lock, lockfile = Some lock -> Manifest.LockfileVersion lock < 2) ->
  Manifest.GetDependencies (inl manifest) lockfile includeDev
  = Manifest.GetDirectDependencies (inl manifest) includeDev
  /\ Manifest.GetDirectDependencies (inl manifest) includeDev
     = inl (map (fun e => Manifest.mkPackage (fst e) (Manifest.cleanVersion (snd e)) "npm")
              (Manifest.Dependencies manifest
               ++ if includeDev then Manifest.DevDependencies manifest else [])).
Proof.
  intros Hlock. split.
  - unfold Manifest.GetDependencies, Manifest.GetDirectDependencies.
    destruct lockfile as [lock|]; [|reflexivity].
    specialize (Hlock lock eq_refl).
    assert (H : (2 <=? Manifest.LockfileVersion lock) = false) by (apply Z.leb_gt; lia).
    now rewrite H.
  - unfold Manifest.GetDirectDependencies. f_equal.
    rewrite !manifestEntry_loop. simpl app.
    destruct includeDev; [now rewrite map_app | now rewrite app_nil_r].
Qed.

Lemma GetDependencies_without_lockfile_witness :
  Manifest.GetDependencies (inl Samples.manifest) None true
  = Manifest.GetDirectDependencies (inl Samples.manifest) true
  /\ Manifest.GetDirectDependencies (inl Samples.manifest) true
     = inl (map (fun e => Manifest.mkPackage (fst e) (Manifest.cleanVersion (snd e)) "npm")
              (Manifest.Dependencies Samples.manifest
               ++ Manifest.DevDependencies Samples.manifest)).
Proof.
  apply (GetDependencies_without_lockfile Samples.manifest None true).
  intros lock H. discriminate.
Defined.

(** ** DetectPort *)

Lemma scriptPort_range (F : string -> string -> list string)
    (patterns : list string) (script : string) (port : Z) :
  Manifest.scriptPort F patterns script = Some port -> 0 < port < 65536.
Proof.
  induction patterns as [|p rest IH]; simpl; [discriminate|].
  destruct (F p script) as [|m0 [|group ms]]; try exact IH.
  destruct (Manifest.Atoi group) as [n|]; [|exact IH].
  destruct ((0 <? n) && (n <? 65536)) eqn:E; [|exact IH].
  intros H. injection H as <-.
  apply andb_true_iff in E as [H1 H2]. apply Z.ltb_lt in H1, H2. lia.
Qed.

Lemma scriptsPort_range (F : string -> string -> list string)
    (scripts : gmap string string) (names : list string) (port : Z) :
  Manifest.scriptsPort F scripts names = Some port -> 0 < port < 65536.
Proof.
  induction names as [|n rest IH]; cbn [Manifest.scriptsPort]; [discriminate|].
  destruct (scripts !! n) as [script|]; [|exact IH].
  destruct (Manifest.scriptPort F Manifest.patterns script) as [p|] eqn:E; [|exact IH].
  intros H. injection H as <-. eapply scriptPort_range, E.
Qed.

Lemma scriptsPort_none (F : string -> string -> list string)
    (scripts : gmap string string) (names : list string) :
  (forall n, In n names -> scripts !! n = None) ->
  Manifest.scriptsPort F scripts names = None.
Proof.
  induction names as [|n rest IH]; intros H; cbn [Manifest.scriptsPort]; [reflexivity|].
  rewrite (H n) by now left. apply IH. intros m Hm. apply H. now right.
Qed.

Lemma frameworkPort_some (allDeps : gmap string string) (frameworks : list string)
    (port : Z) :
  Manifest.frameworkPort allDeps frameworks = Some port ->
  exists framework,
    In framework frameworks /\ is_Some (allDeps !! framework)
    /\ Manifest.FrameworkPort !! framework = Some port.
Proof.
  induction frameworks as [|f rest IH]; cbn [Manifest.frameworkPort]; [discriminate|].
  destruct (allDeps !! f) as [v|] eqn:Ed.
  - destruct (Manifest.FrameworkPort !! f) as [p|] eqn:Ep.
    + intros H. injection H as <-. exists f. split; [now left|]. split; [eauto | exact Ep].
    + intros H. destruct (IH H) as (g & Hin & Hg). exists g. split; [now right | exact Hg].
  - intros H. destruct (IH H) as (g & Hin & Hg). exists g. split; [now right | exact Hg].
Qed.

Lemma copyInto_lookup (entries : list (string * string)) (m : gmap string string)
    (k : string) :
  is_Some (Manifest.copyInto m entries !! k)
  <-> is_Some (m !! k) \/ In k (map fst entries).
Proof.
  unfold Manifest.copyInto.
  revert m; induction entries as [|[k' v] entries IH]; intros m; simpl.
  - tauto.
  - rewrite IH. simpl. rewrite lookup_insert_is_Some. split.
    + intros [[->|[Hne H]]|H]; auto.
    + intros [H|[->|H]]; auto.
      destruct (decide (k' = k)) as [->|Hne]; auto.
Qed.

(** X4.  [DetectPort] returns 0 or a port number between 1 and 65535,
    whatever the scripts hold and whatever the pattern matcher extracts from
    them.  It returns 0 when package.json cannot be parsed, and also when no
    script is named dev, start, serve or develop and no dependency or dev
    dependency is one of the frameworks of the priority list.  A port found
    in the scripts is returned before any framework is looked at. *)
Theorem DetectPort_zero_or_valid_port
    (FindStringSubmatch : string -> string -> list string)
    (manifest : Manifest.ManifestFile + Errors.error) (scripts : gmap string string) :
  0 <= Manifest.DetectPort FindStringSubmatch manifest scripts < 65536
  /\ (forall err, manifest = inr err ->
                  Manifest.DetectPort FindStringSubmatch manifest scripts = 0)
  /\ (forall pkg, manifest = inl pkg ->
        0 < Manifest.detectPortFromScripts FindStringSubmatch scripts ->
        Manifest.DetectPort FindStringSubmatch manifest scripts
        = Manifest.detectPortFromScripts FindStringSubmatch scripts)
  /\ (forall pkg, manifest = inl pkg ->
        (forall n, In n ["dev"; "start"; "serve"; "develop"] -> scripts !! n = None) ->
        (forall f, In f Manifest.priorityOrder ->
                   ~ In f (map fst (Manifest.Dependencies pkg))
                   /\ ~ In f (map fst (Manifest.DevDependencies pkg))) ->
        Manifest.DetectPort FindStringSubmatch manifest scripts = 0).
Proof.
  split; [|split; [|split]].
  - destruct manifest as [pkg|err]; unfold Manifest.DetectPort; [|lia].
    unfold Manifest.detectPortFromScripts.
    destruct (Manifest.scriptsPort _ scripts Manifest.devScripts) as [p|] eqn:Es.
    + pose proof (scriptsPort_range _ _ _ _ Es) as Hr.
      destruct (0 <? p) eqn:Hp; [lia|]. apply Z.ltb_ge in Hp. lia.
    + change (0 <? 0) with false. cbv iota.
      destruct (Manifest.frameworkPort _ Manifest.priorityOrder) as [p|] eqn:Ef; [|lia].
      apply frameworkPort_some in Ef as (f & Hin & _ & Hp).
      unfold Manifest.priorityOrder in Hin. cbn [In] in Hin.
      repeat (destruct Hin as [<-|Hin];
              [vm_compute in Hp; injection Hp as <-; lia|]).
      contradiction.
  - intros err ->. reflexivity.
  - intros pkg -> Hpos. unfold Manifest.DetectPort.
    apply Z.ltb_lt in Hpos. now rewrite Hpos.
  - intros pkg -> Hs Hf. unfold Manifest.DetectPort, Manifest.detectPortFromScripts.
    rewrite (scriptsPort_none _ _ Manifest.devScripts Hs).
    change (0 <? 0) with false. cbv iota.
    destruct (Manifest.frameworkPort _ Manifest.priorityOrder) as [p|] eqn:Ef;
      [|reflexivity].
    apply frameworkPort_some in Ef as (f & Hin & Hd & _).
    apply copyInto_lookup in Hd as [Hd|Hd].
    + apply copyInto_lookup in Hd as [Hd|Hd].
      * rewrite lookup_empty in Hd. destruct Hd; discriminate.
      * destruct (Hf f Hin) as [H _]. contradiction.
    + destruct (Hf f Hin) as [_ H]. contradiction.
Qed.

Example DetectPort_script_port :
  Manifest.DetectPort
    (fun pattern script =>
       if String.eqb pattern "--port[=\s]+(\d+)" then ["--port 4000"; "4000"] else [])
    (inl (Manifest.mkManifest "app" "1.0.0" [("next", "^14.0.0")] []))
    {["dev" := "next dev --port 4000"]}
  = 4000.
Proof. vm_compute. reflexivity. Qed.

Example DetectPort_framework_priority :
  Manifest.DetectPort (fun pattern script => [])
    (inl (Manifest.mkManifest "app" "1.0.0" [("express", "^4.0.0")] [("vite", "^5.0.0")]))
    {["dev" := "vite"]}
  = 5173.
Proof. vm_compute. reflexivity. Qed.

Example Atoi_examples :
  Manifest.Atoi "3000" = Some 3000 /\ Manifest.Atoi "-12" = Some (-12)
  /\ Manifest.Atoi "" = None /\ Manifest.Atoi "+" = None /\ Manifest.Atoi "30a" = None
  /\ Manifest.Atoi "9223372036854775807" = Some 9223372036854775807
  /\ Manifest.Atoi "9223372036854775808" = None.
Proof. repeat split; vm_compute; reflexivity. Qed.

(** ** Searching for the version separator *)

Lemma lastIndexByte_none (sep : ascii) (l : list ascii) :
  ByteIndex.lastIndexByte sep l = None <-> ~ In sep l.
Proof.
  induction l as [|c l IH]; simpl; [tauto|].
  destruct (ByteIndex.lastIndexByte sep l) as [i|].
  - split; [discriminate|]. intros H. exfalso. apply H. right.
    destruct (in_dec ascii_dec sep l) as [Hin|Hin]; [exact Hin|].
    apply IH in Hin. discriminate.
  - destruct (Ascii.eqb c sep) eqn:E.
    + apply Ascii.eqb_eq in E. split; [discriminate|]. intros H. exfalso. apply H. now left.
    + apply Ascii.eqb_neq in E. split; [|reflexivity].
      intros _ [H|H]; [contradiction|]. now apply IH.
Qed.

Lemma lastIndexByte_app (sep : ascii) (l r : list ascii) :
  ~ In sep r -> ByteIndex.lastIndexByte sep (l ++ sep :: r) = Some (length l).
Proof.
  intros Hr. apply lastIndexByte_none in Hr.
  induction l as [|c l IH]; simpl.
  - now rewrite Hr, Ascii.eqb_refl.
  - now rewrite IH.
Qed.

Lemma split_at_separator (name version : string) :
  Bytes.prefix (String.length name) (name +:+ "@" +:+ version) = name
  /\ Bytes.suffix (S (String.length name)) (name +:+ "@" +:+ version) = version.
Proof.
  split; [apply prefix_app|].
  replace (name +:+ "@" +:+ version) with ((name +:+ "@") +:+ version).
  - replace (S (String.length name)) with (String.length (name +:+ "@")).
    + apply suffix_app.
    + rewrite length_append. simpl. lia.
  - apply bytes_inj. rewrite !bytes_append. now rewrite <- app_assoc.
Qed.

(** X5.  [parsePackageArg] splits an install argument at its last [@] that
    is not the first byte: for every non-empty name, scoped or not, and
    every version without [@], the argument [name@version] gives back the
    name and the version.  An argument with no [@] after its first byte is
    taken whole as the name, with the version "latest". *)
Theorem parsePackageArg_splits_name_and_version :
  (forall name version,
     name <> "" -> ~ In "@"%char (Bytes.bytes version) ->
     Install.parsePackageArg (name +:+ "@" +:+ version) = (name, version))
  /\ (forall pkg,
        ~ In "@"%char (tl (Bytes.bytes pkg)) ->
        Install.parsePackageArg pkg = (pkg, "latest")).
Proof.
  split.
  - intros name version Hne Hv.
    destruct (split_at_separator name version) as [Hp Hs].
    unfold Install.parsePackageArg.
    destruct name as [|c name']; [congruence|].
    rewrite bytes_append. cbn [Bytes.bytes list_ascii_of_string app].
    fold (Bytes.bytes name'). fold (Bytes.bytes ("@" +:+ version)).
    change (Bytes.bytes ("@" +:+ version)) with ("@"%char :: Bytes.bytes version).
    destruct (Ascii.eqb c "@"%char) eqn:Ec.
    + rewrite (lastIndexByte_app _ _ _ Hv), length_bytes.
      assert (Hidx : (0 <? Z.of_nat (String.length name') + 1) = true)
        by (apply Z.ltb_lt; lia).
      rewrite Hidx.
      replace (Z.to_nat (Z.of_nat (String.length name') + 1))
        with (String.length (String c name')) by (simpl; lia).
      replace (Z.to_nat (Z.of_nat (String.length name') + 1 + 1))
        with (S (String.length (String c name'))) by (simpl; lia).
      now rewrite Hp, Hs.
    + change (c :: Bytes.bytes name' ++ "@"%char :: Bytes.bytes version)
        with ((c :: Bytes.bytes name') ++ "@"%char :: Bytes.bytes version).
      rewrite (lastIndexByte_app _ _ _ Hv).
      change (length (c :: Bytes.bytes name')) with (S (length (Bytes.bytes name'))).
      rewrite length_bytes.
      change (S (String.length name')) with (String.length (String c name')).
      now rewrite Hp, Hs.
  - intros pkg H. unfold Install.parsePackageArg.
    destruct (Bytes.bytes pkg) as [|c rest] eqn:Eb; [reflexivity|].
    simpl in H. pose proof (proj2 (lastIndexByte_none _ _) H) as Hn.
    destruct (Ascii.eqb c "@"%char) eqn:Ec.
    + now rewrite Hn.
    + simpl. now rewrite Hn, Ec.
Qed.

Lemma parsePackageArg_splits_name_and_version_witness :
  Install.parsePackageArg ("@types/node" +:+ "@" +:+ "20.1.0") = ("@types/node", "20.1.0").
Proof.
  apply (proj1 parsePackageArg_splits_name_and_version "@types/node" "20.1.0").
  - discriminate.
  - intros H. simpl in H. repeat (destruct H as [H|H]; [discriminate|]). exact H.
Defined.

Example parsePackageArg_examples :
  Install.parsePackageArg "lodash@4.17.20" = ("lodash", "4.17.20")
  /\ Install.parsePackageArg "lodash" = ("lodash", "latest")
  /\ Install.parsePackageArg "@types/node" = ("@types/node", "latest")
  /\ Install.parsePackageArg "lodash@" = ("lodash", "")
  /\ Install.parsePackageArg "" = ("", "latest").
Proof. repeat split; reflexivity. Qed.

(** ** Socket.dev: from the response to findings *)

(** X6.  The package URL that [Package.PURL] builds for an npm package is
    read back by the Socket client's [parsePURL] as the same name and
    version, for every name (scoped names included) and every version
    without [@].  A string shorter than 8 bytes is read as an empty name and
    version. *)
Theorem parsePURL_reads_back_PURL :
  (forall name version,
     ~ In "@"%char (Bytes.bytes version) ->
     Socket.parsePURL (Manifest.PURL (Manifest.mkPackage name version "npm"))
     = (name, version))
  /\ (forall purl, (String.length purl < 8)%nat -> Socket.parsePURL purl = ("", "")).
Proof.
  split.
  - intros name version Hv. unfold Manifest.PURL. cbn [Manifest.Ecosystem Manifest.Name
      Manifest.Version].
    change ("pkg:" +:+ "npm" +:+ "/" +:+ name +:+ "@" +:+ version)
      with ("pkg:npm/" +:+ (name +:+ "@" +:+ version)).
    unfold Socket.parsePURL.
    assert (Hlen : String.length ("pkg:npm/" +:+ (name +:+ "@" +:+ version))
                   = (9 + String.length name + String.length version)%nat).
    { rewrite !length_append. simpl. lia. }
    assert (H1 : (String.length ("pkg:npm/" +:+ (name +:+ "@" +:+ version)) <? 8)%nat = false)
      by (apply Nat.ltb_ge; lia).
    assert (H2 : (8 <? String.length ("pkg:npm/" +:+ (name +:+ "@" +:+ version)))%nat = true)
      by (apply Nat.ltb_lt; lia).
    rewrite H1, H2.
    assert (Hpre : Bytes.prefix 8 ("pkg:npm/" +:+ (name +:+ "@" +:+ version)) = "pkg:npm/")
      by exact (prefix_app "pkg:npm/" (name +:+ "@" +:+ version)).
    assert (Hsuf : Bytes.suffix 8 ("pkg:npm/" +:+ (name +:+ "@" +:+ version))
                   = name +:+ "@" +:+ version)
      by exact (suffix_app "pkg:npm/" (name +:+ "@" +:+ version)).
    rewrite Hpre, Hsuf.
    cbn [String.eqb Ascii.eqb Bool.eqb andb].
    rewrite bytes_append.
    change (Bytes.bytes ("@" +:+ version)) with ("@"%char :: Bytes.bytes version).
    rewrite (lastIndexByte_app _ _ _ Hv), length_bytes.
    destruct (split_at_separator name version) as [Hp Hs]. now rewrite Hp, Hs.
  - intros purl H. unfold Socket.parsePURL. apply Nat.ltb_lt in H. now rewrite H.
Qed.

Lemma parsePURL_reads_back_PURL_witness :
  Socket.parsePURL (Manifest.PURL (Manifest.mkPackage "@babel/core" "7.23.0" "npm"))
  = ("@babel/core", "7.23.0").
Proof.
  apply (proj1 parsePURL_reads_back_PURL "@babel/core" "7.23.0").
  intros H. simpl in H. repeat (destruct H as [H|H]; [discriminate|]). exact H.
Defined.

Example parsePURL_bare_prefix : Socket.parsePURL "pkg:npm/" = ("pkg:npm/", "").
Proof. reflexivity. Qed.








Example Socket_convertToFindings_example :
  Socket.convertToFindings
    (Socket.mkBatchResponse
       [Socket.mkPackageResult "pkg:npm/evil@1.0.0"
          [Socket.mkAlert "k1" "protestware" "moderate" "Protestware";
           Socket.mkAlert "k2" "unheardOf" "urgent" "Something new"];
        Socket.mkPackageResult "pkg:npm/lodash@4.17.20" []])
  = [Types.mkFinding "evil" "1.0.0" "malware" "medium" "protestware" "Protestware" "k1" [] "";
     Types.mkFinding "evil" "1.0.0" "quality" "info" "unheardOf" "Something new" "k2" [] ""].
Proof. reflexivity. Qed.

(** ** OSV: substring search, truncation, severity *)

Lemma firstn_skipn_middle {A : Type} (pre u post : list A) :
  firstn (length u) (skipn (length pre) (pre ++ u ++ post)) = u.
Proof.
  rewrite skipn_app, Nat.sub_diag, skipn_all, skipn_O. simpl app.
  rewrite firstn_app, Nat.sub_diag, firstn_all, firstn_O. apply app_nil_r.
Qed.

Lemma split_at_slice {A : Type} (i m : nat) (l u : list A) :
  (i + m <= length l)%nat -> firstn m (skipn i l) = u ->
  l = firstn i l ++ u ++ skipn (i + m) l.
Proof.
  intros Hlen Hu. rewrite <- Hu.
  rewrite <- (firstn_skipn i l) at 1. f_equal.
  rewrite <- (firstn_skipn m (skipn i l)) at 1. f_equal.
  rewrite skipn_skipn. f_equal. lia.
Qed.

Lemma sliceEq_iff (s : list ascii) (i n : nat) (u : list ascii) :
  OSV.sliceEq s i n u = true <-> firstn n (skipn i s) = u.
Proof.
  unfold OSV.sliceEq. rewrite String.eqb_eq. split.
  - apply str_inj.
  - now intros ->.
Qed.

Lemma prefix_eq_iff (n : nat) (s u : string) :
  Bytes.prefix n s = u <-> firstn n (Bytes.bytes s) = Bytes.bytes u.
Proof.
  unfold Bytes.prefix. split; intros H.
  - now rewrite <- H, bytes_str.
  - now rewrite H, str_bytes.
Qed.

Lemma suffix_eq_iff (n : nat) (s u : string) :
  Bytes.suffix n s = u <-> skipn n (Bytes.bytes s) = Bytes.bytes u.
Proof.
  unfold Bytes.suffix. split; intros H.
  - now rewrite <- H, bytes_str.
  - now rewrite H, str_bytes.
Qed.

(** X8.  The OSV client's own [contains] is substring search: it answers
    true exactly when the second string occurs somewhere in the first; in
    particular the empty string occurs in every string. *)
Theorem OSV_contains_is_substring (s substr : string) :
  OSV.contains s substr = true <-> exists pre post, s = pre +:+ substr +:+ post.
Proof.
  unfold OSV.contains, OSV.containsMiddle.
  rewrite <- !length_bytes.
  set (S := Bytes.bytes s). set (U := Bytes.bytes substr).
  assert (Hstr : forall pre post,
             s = pre +:+ substr +:+ post <-> S = Bytes.bytes pre ++ U ++ Bytes.bytes post).
  { intros pre post. unfold S, U. rewrite <- !bytes_append. split; [now intros <-|].
    apply bytes_inj. }
  split.
  - intros H. apply andb_true_iff in H as [Hle H]. apply Nat.leb_le in Hle.
    apply orb_true_iff in H as [H|H].
    + apply String.eqb_eq in H. exists "", "". apply Hstr. simpl.
      rewrite app_nil_r. unfold S, U. now rewrite H.
    + apply andb_true_iff in H as [Hlt H]. apply Nat.ltb_lt in Hlt.
      apply orb_true_iff in H as [H|H]; [apply orb_true_iff in H as [H|H]|].
      * apply String.eqb_eq, prefix_eq_iff in H. fold S U in H.
        exists "", (Bytes.str (skipn (length U) S)). apply Hstr.
        rewrite bytes_str. simpl.
        rewrite <- (firstn_skipn (length U) S) at 1. now rewrite H.
      * apply String.eqb_eq, suffix_eq_iff in H. fold S U in H.
        exists (Bytes.str (firstn (length S - length U) S)), "". apply Hstr.
        rewrite bytes_str. simpl. rewrite app_nil_r.
        rewrite <- (firstn_skipn (length S - length U) S) at 1. now rewrite H.
      * apply existsb_exists in H as (i & Hi & H). apply in_seq in Hi.
        apply sliceEq_iff in H. fold S U in H.
        exists (Bytes.str (firstn i S)), (Bytes.str (skipn (i + length U) S)).
        apply Hstr. rewrite !bytes_str. apply split_at_slice; [lia | exact H].
  - intros (pre & post & H). apply Hstr in H.
    set (P := Bytes.bytes pre) in H. set (Q := Bytes.bytes post) in H.
    assert (Hlen : length S = (length P + length U + length Q)%nat).
    { rewrite H, !length_app. lia. }
    assert (Hmid : firstn (length U) (skipn (length P) S) = U).
    { rewrite H. apply firstn_skipn_middle. }
    apply andb_true_iff. split; [apply Nat.leb_le; lia|].
    destruct (Nat.eq_dec (length S) (length U)) as [Heq|Hneq].
    + apply orb_true_iff. left. apply String.eqb_eq, bytes_inj. fold S U.
      assert (length P = 0 /\ length Q = 0)%nat as [HP HQ] by lia.
      destruct P, Q; try discriminate. rewrite H. simpl. apply app_nil_r.
    + apply orb_true_iff. right. apply andb_true_iff. split; [apply Nat.ltb_lt; lia|].
      destruct (length P) as [|i] eqn:EP.
      * apply orb_true_iff. left. apply orb_true_iff. left.
        apply String.eqb_eq, prefix_eq_iff. fold S U.
        rewrite skipn_O in Hmid. exact Hmid.
      * apply orb_true_iff. right. apply existsb_exists. exists (Datatypes.S i). split.
        -- apply in_seq. lia.
        -- apply sliceEq_iff. fold S U. exact Hmid.
Qed.

Lemma OSV_contains_is_substring_witness :
  OSV.contains "CVSS:3.1/AV:N/AC:L" "/AV:N" = true
  <-> exists pre post, "CVSS:3.1/AV:N/AC:L" = pre +:+ "/AV:N" +:+ post.
Proof. apply (OSV_contains_is_substring "CVSS:3.1/AV:N/AC:L" "/AV:N"). Defined.

Example contains_examples :
  OSV.contains "CVSS:3.1/AV:N/AC:L" "/AV:N" = true
  /\ OSV.contains "CVSS:3.1/AV:N/AC:L" "/AC:L" = true
  /\ OSV.contains "CVSS:3.1/AV:N/AC:L" "CVSS" = true
  /\ OSV.contains "CVSS:3.1/AV:N/AC:L" "/C:H" = false
  /\ OSV.contains "" "" = true
  /\ OSV.contains "ab" "abc" = false.
Proof. repeat split; reflexivity. Qed.

(** X9.  [truncate] leaves a string of at most [maxLen] bytes as it is and
    cuts a longer one to its first [maxLen - 3] bytes followed by three
    dots, so that, for [maxLen] of 3 or more, the result never exceeds
    [maxLen] bytes; it fails only for a string longer than a [maxLen] below
    3.  With the bound 500 that the client uses it never fails. *)
Theorem OSV_truncate_bounds (s : string) (maxLen : Z) :
  (OSV.truncate s maxLen = None <-> maxLen < Z.of_nat (String.length s) /\ maxLen < 3)
  /\ (Z.of_nat (String.length s) <= maxLen -> OSV.truncate s maxLen = Some s)
  /\ (3 <= maxLen ->
      exists t,
        OSV.truncate s maxLen = Some t
        /\ Z.of_nat (String.length t) <= maxLen
        /\ (maxLen < Z.of_nat (String.length s) ->
            t = Bytes.prefix (Z.to_nat (maxLen - 3)) s +:+ "..."
            /\ Z.of_nat (String.length t) = maxLen)).
Proof.
  unfold OSV.truncate.
  destruct (Z.of_nat (String.length s) <=? maxLen) eqn:E1.
  - apply Z.leb_le in E1. split; [|split].
    + split; [discriminate | lia].
    + reflexivity.
    + intros _. exists s. split; [reflexivity|]. split; [exact E1 | lia].
  - apply Z.leb_gt in E1. destruct (maxLen - 3 <? 0) eqn:E2.
    + apply Z.ltb_lt in E2. split; [|split].
      * split; [lia | reflexivity].
      * lia.
      * lia.
    + apply Z.ltb_ge in E2. split; [|split].
      * split; [discriminate | lia].
      * lia.
      * intros _. eexists. split; [reflexivity|].
        assert (Hl : Z.of_nat (String.length
                                 (Bytes.prefix (Z.to_nat (maxLen - 3)) s +:+ "..."))
                     = maxLen).
        { rewrite length_append, length_prefix. simpl String.length. lia. }
        split; [lia|]. intros _. split; [reflexivity | exact Hl].
Qed.

Lemma OSV_truncate_bounds_witness :
  exists t,
    OSV.truncate "A prototype pollution issue" 10 = Some t
    /\ Z.of_nat (String.length t) <= 10
    /\ (10 < Z.of_nat (String.length "A prototype pollution issue") ->
        t = Bytes.prefix (Z.to_nat (10 - 3)) "A prototype pollution issue" +:+ "..."
        /\ Z.of_nat (String.length t) = 10).
Proof.
  apply (proj2 (proj2 (OSV_truncate_bounds "A prototype pollution issue" 10))).
  lia.
Defined.

Example truncate_example :
  OSV.truncate "A prototype pollution issue" 10 = Some "A proto...".
Proof. reflexivity. Qed.


Lemma cvssSeverity_spec (sevs : list OSV.severity) :
  OSV.cvssSeverity sevs
  = match find (fun sev => String.eqb (OSV.Type_ sev) "CVSS_V3") sevs with
    | Some sev =>
        let n := OSV.highCount (OSV.Score sev) in
        Some (if 4 <=? n then Types.SeverityCritical
              else if 3 <=? n then Types.SeverityHigh
              else if 2 <=? n then Types.SeverityMedium
              else Types.SeverityLow)
    | None => None
    end.
Proof.
  induction sevs as [|sev rest IH]; simpl; [reflexivity|].
  destruct (String.eqb (OSV.Type_ sev) "CVSS_V3"); [|exact IH].
  unfold OSV.parseCVSSScore.
  destruct (4 <=? OSV.highCount (OSV.Score sev)); [reflexivity|].
  destruct (3 <=? OSV.highCount (OSV.Score sev)); [reflexivity|].
  destruct (2 <=? OSV.highCount (OSV.Score sev)); reflexivity.
Qed.

Lemma ecosystemSeverity_range (sevs : list OSV.severity) (s : Types.Severity) :
  OSV.ecosystemSeverity sevs = Some s -> In s ["critical"; "high"; "medium"; "low"].
Proof.
  induction sevs as [|sev rest IH]; simpl; [discriminate|].
  repeat match goal with
         | |- context [if ?b then _ else _] => destruct b
         end;
    try exact IH; intros H; injection H as <-; simpl; auto.
Qed.

Lemma OSV_mapSeverity_range (vuln : OSV.vulnerability) :
  In (OSV.mapSeverity vuln) ["critical"; "high"; "medium"; "low"].
Proof.
  unfold OSV.mapSeverity. rewrite cvssSeverity_spec.
  destruct (find _ (OSV.Severity vuln)) as [sev|].
  - cbv zeta.
    repeat match goal with |- context [if ?b then _ else _] => destruct b end;
      simpl; auto.
  - destruct (OSV.ecosystemSeverity (OSV.Severity vuln)) as [s|] eqn:E.
    + eapply ecosystemSeverity_range, E.
    + destruct (_ && _); simpl; auto.
Qed.



Example mapSeverity_examples :
  OSV.mapSeverity
    (OSV.mkVulnerability "GHSA-x" "" ""
       [OSV.mkSeverity "CVSS_V3" "CVSS:3.1/AV:N/AC:L/PR:N/UI:N/S:U/C:H/I:H/A:H"] [])
  = "critical"
  /\ OSV.mapSeverity
       (OSV.mkVulnerability "GHSA-x" "" ""
          [OSV.mkSeverity "CVSS_V3" "CVSS:3.1/AV:L/AC:H/PR:H/UI:R/S:U/C:L/I:N/A:N"] [])
     = "low"
  /\ OSV.mapSeverity
       (OSV.mkVulnerability "GHSA-x" "" "" [OSV.mkSeverity "ECOSYSTEM" "HIGH"] [])
     = "high"
  /\ OSV.mapSeverity (OSV.mkVulnerability "PYSEC-1" "" "" [] []) = "medium".
Proof. repeat split; vm_compute; reflexivity. Qed.

Lemma extractReferences_spec (refs : list OSV.reference) :
  OSV.extractReferences refs
  = List.filter (fun url => negb (String.eqb url "")) (map OSV.URL refs).
Proof.
  unfold OSV.extractReferences.
  assert (H : forall init,
             fold_left
               (fun urls ref =>
                  if negb (String.eqb (OSV.URL ref) "") then urls ++ [OSV.URL ref] else urls)
               refs init
             = init ++ List.filter (fun url => negb (String.eqb url "")) (map OSV.URL refs)).
  { induction refs as [|r refs IH]; intros init; simpl.
    - now rewrite app_nil_r.
    - rewrite IH. destruct (negb (String.eqb (OSV.URL r) "")); [|reflexivity].
      now rewrite <- app_assoc. }
  apply H.
Qed.

Lemma vulnFinding_spec (pkg : Manifest.Package) (vuln : OSV.vulnerability) :
  OSV.vulnFinding pkg vuln = Some (OSV.findingOf pkg vuln).
Proof.
  unfold OSV.vulnFinding, OSV.findingOf, OSV.truncate.
  destruct (String.length (OSV.Details vuln) <=? 500)%nat eqn:E.
  - apply Nat.leb_le in E.
    assert (H : (Z.of_nat (String.length (OSV.Details vuln)) <=? 500) = true)
      by (apply Z.leb_le; lia).
    now rewrite H.
  - apply Nat.leb_gt in E.
    assert (H : (Z.of_nat (String.length (OSV.Details vuln)) <=? 500) = false)
      by (apply Z.leb_gt; lia).
    now rewrite H.
Qed.

Lemma vulnFindings_spec (pkg : Manifest.Package) (vulns : list OSV.vulnerability)
    (findings : list Types.Finding) :
  OSV.vulnFindings pkg vulns findings = Some (findings ++ map (OSV.findingOf pkg) vulns).
Proof.
  revert findings; induction vulns as [|v vulns IH]; intros findings; simpl.
  - now rewrite app_nil_r.
  - rewrite vulnFinding_spec, IH. now rewrite <- app_assoc.
Qed.

Lemma resultFindings_spec (packages : list Manifest.Package)
    (results : list OSV.queryResult) (findings : list Types.Finding) :
  OSV.resultFindings packages results findings
  = Some (findings
          ++ flat_map (fun pr => map (OSV.findingOf (fst pr)) (OSV.Vulns (snd pr)))
               (combine packages results)).
Proof.
  revert packages findings; induction results as [|r results IH];
    intros packages findings.
  - destruct packages; simpl; now rewrite app_nil_r.
  - destruct packages as [|pkg packages]; simpl.
    + now rewrite app_nil_r.
    + rewrite vulnFindings_spec, IH. now rewrite <- app_assoc.
Qed.

(** X11.  The OSV client's conversion never fails.  The vulnerabilities of
    the i-th result become findings of the i-th package of the request, with
    that package's name and version; results beyond the number of packages
    are ignored.  Every finding is of type cve, has a severity among
    critical, high, medium, low (the severities the policy loop of
    [evaluateScanResults] goes through), a description of at most 500 bytes
    and no empty reference. *)
Theorem OSV_convertToFindings_by_position
    (packages : list Manifest.Package) (resp : OSV.batchResponse) :
  OSV.convertToFindings packages resp
  = Some (flat_map (fun pr => map (OSV.findingOf (fst pr)) (OSV.Vulns (snd pr)))
            (combine packages (OSV.Results resp)))
  /\ forall findings, OSV.convertToFindings packages resp = Some findings ->
     forall f, In f findings ->
       Types.Type_ f = "cve"
       /\ In (Types.Severity_ f) Cli.severities
       /\ (String.length (Types.Description f) <= 500)%nat
       /\ ~ In "" (Types.References f)
       /\ exists pkg, In pkg packages
                      /\ Types.Package f = Manifest.Name pkg
                      /\ Types.Version f = Manifest.Version pkg.
Proof.
  unfold OSV.convertToFindings. rewrite resultFindings_spec. simpl app.
  split; [reflexivity|].
  intros findings H f Hf. injection H as <-.
  apply in_flat_map in Hf as ([pkg r] & Hpr & Hf).
  apply in_map_iff in Hf as (v & <- & _).
  unfold OSV.findingOf.
  cbn [Types.Type_ Types.Severity_ Types.Description Types.References Types.Package
       Types.Version fst].
  split; [reflexivity|]. split; [apply OSV_mapSeverity_range|].
  split; [|split].
  - destruct (String.length (OSV.Details v) <=? 500)%nat eqn:E.
    + now apply Nat.leb_le.
    + rewrite length_append, length_prefix. cbn [String.length]. lia.
  - rewrite extractReferences_spec. intros Hin. apply filter_In in Hin as [_ Hin].
    discriminate.
  - exists pkg. split; [eapply in_combine_l, Hpr | split; reflexivity].
Qed.

(** ** Which scanners a scan calls *)

Lemma AvailableScanners_spec (o : Scanner.Orchestrator) :
  Scanner.AvailableScanners o = map Scanner.Name (Scanner.started o).
Proof.
  unfold Scanner.AvailableScanners, Scanner.started.
  assert (H : forall l init,
             fold_left
               (fun names s =>
                  if Scanner.IsAvailable s then names ++ [Scanner.Name s] else names)
               l init
             = init ++ map Scanner.Name (List.filter Scanner.IsAvailable l)).
  { induction l as [|s l IH]; intros init; simpl.
    - now rewrite app_nil_r.
    - rewrite IH. destruct (Scanner.IsAvailable s); [|reflexivity].
      simpl. now rewrite <- app_assoc. }
  apply H.
Qed.

Lemma Scan_calls (o : Scanner.Orchestrator) (sched : list nat) (elapsed : Z)
    (packages : list Manifest.Package) :
  packages <> [] ->
  snd (Scanner.Scan o sched elapsed packages)
  = map Scanner.Name (Scanner.completionOrder sched (Scanner.started o)).
Proof.
  intros Hne. destruct (Scanner.allFailed o packages) eqn:Hall.
  - destruct (Scan_all_failed o sched elapsed packages Hne Hall) as (e & _ & ->).
    reflexivity.
  - now rewrite (Scan_not_all_failed o sched elapsed packages Hne Hall).
Qed.

Lemma ScanWithProgress_shape {W : Type}
    (o : Scanner.Orchestrator) (sched : list nat) (elapsed : Z)
    (packages : list Manifest.Package)
    (cb : option (string -> bool -> W -> W)) (w : W) :
  let f := Scanner.filterAllowlisted o packages in
  let order := Scanner.completionOrder sched (Scanner.started o) in
  let done := Scanner.successes f order in
  packages <> [] ->
  fst (Scanner.ScanWithProgress o sched elapsed packages cb w)
  = (match done, hd_error (Scanner.failures f order) with
     | [], Some err => Scanner.Err err
     | _, _ =>
         Scanner.Ok
           (Types.mkAggregatedResult done (Z.of_nat (length f))
              (Z.of_nat (length (Types.findingsOf done)))
              (existsb Types.isMalwareType (Types.findingsOf done))
              (existsb (Types.hasSeverity Types.SeverityCritical) (Types.findingsOf done))
              (existsb (Types.hasSeverity Types.SeverityHigh) (Types.findingsOf done))
              elapsed)
     end,
     map Scanner.Name order).
Proof.
  intros f order done Hne. unfold Scanner.ScanWithProgress.
  rewrite (length_eqb_0 _ Hne). fold f order.
  pose proof (gatherWithProgress_fst cb f order w) as H.
  destruct (Scanner.gatherWithProgress cb f order w) as [g v].
  simpl in H. subst g. rewrite gather_spec.
  cbn [Scanner.results Scanner.firstErr Scanner.invoked]. fold done.
  rewrite aggregate_spec.
  destruct done; [destruct (hd_error _)|]; reflexivity.
Qed.

(** X12.  On a non-empty package list [Scan] calls each scanner that
    [AvailableScanners] names exactly once and no other scanner, whether the
    calls succeed or fail, and [ScanWithProgress] calls the same scanners in
    the same order. *)
Theorem Scan_calls_exactly_the_available_scanners {W : Type}
    (o : Scanner.Orchestrator) (sched : list nat) (elapsed : Z)
    (packages : list Manifest.Package)
    (cb : option (string -> bool -> W -> W)) (w : W) :
  packages <> [] ->
  Permutation (snd (Scanner.Scan o sched elapsed packages)) (Scanner.AvailableScanners o)
  /\ snd (fst (Scanner.ScanWithProgress o sched elapsed packages cb w))
     = snd (Scanner.Scan o sched elapsed packages).
Proof.
  intros Hne. rewrite (Scan_calls o sched elapsed packages Hne). split.
  - rewrite AvailableScanners_spec. apply Permutation_map, completionOrder_Permutation.
  - now rewrite (ScanWithProgress_shape o sched elapsed packages cb w Hne).
Qed.

Lemma Scan_calls_exactly_the_available_scanners_witness :
  Permutation (snd (Scanner.Scan Samples.oMixed [1%nat] 12 [Samples.lodash]))
    (Scanner.AvailableScanners Samples.oMixed)
  /\ snd (fst (Scanner.ScanWithProgress Samples.oMixed [1%nat] 12 [Samples.lodash] None tt))
     = snd (Scanner.Scan Samples.oMixed [1%nat] 12 [Samples.lodash]).
Proof.
  apply (Scan_calls_exactly_the_available_scanners Samples.oMixed [1%nat] 12
           [Samples.lodash] None tt).
  discriminate.
Defined.

(** ** Flags and counters of a result against its findings *)

Lemma count_loop (p : Types.Finding -> bool) (results : list Types.ScanResult) :
  fold_left
    (fun count result =>
       fold_left (fun count finding => if p finding then count + 1 else count)
         (Types.Findings result) count)
    results 0
  = Z.of_nat (length (List.filter p (Types.findingsOf results))).
Proof.
  rewrite (fold_left_nested (fun count finding => if p finding then count + 1 else count)
             Types.Findings).
  fold (Types.findingsOf results).
  assert (H : forall l init,
             fold_left (fun count finding => if p finding then count + 1 else count) l init
             = init + Z.of_nat (length (List.filter p l))).
  { induction l as [|x l IH]; intros init; simpl; [lia|].
    rewrite IH. destruct (p x); simpl length; lia. }
  rewrite H. lia.
Qed.

Lemma CountBySeverity_spec (ar : Types.AggregatedResult) (sev : Types.Severity) :
  Types.CountBySeverity ar sev
  = Z.of_nat (length (List.filter (Types.hasSeverity sev)
                        (Types.findingsOf (Types.Results ar)))).
Proof. unfold Types.CountBySeverity. apply (count_loop (Types.hasSeverity sev)). Qed.

Lemma CountByType_spec (ar : Types.AggregatedResult) (typ : Types.FindingType) :
  Types.CountByType ar typ
  = Z.of_nat (length (List.filter (fun f => String.eqb (Types.Type_ f) typ)
                        (Types.findingsOf (Types.Results ar)))).
Proof.
  unfold Types.CountByType.
  apply (count_loop (fun f => String.eqb (Types.Type_ f) typ)).
Qed.

Lemma existsb_filter_nonempty {A : Type} (p : A -> bool) (l : list A) :
  existsb p l = true <-> List.filter p l <> [].
Proof.
  induction l as [|x l IH]; simpl.
  - split; [discriminate | congruence].
  - destruct (p x); simpl; [split; [discriminate | reflexivity] | exact IH].
Qed.

Lemma existsb_count {A : Type} (p : A -> bool) (l : list A) :
  existsb p l = true <-> 0 < Z.of_nat (length (List.filter p l)).
Proof.
  rewrite existsb_filter_nonempty.
  destruct (List.filter p l); simpl; split; intros H; try congruence; try lia.
Qed.

(** X13.  In every result that [ScanWithProgress] returns, the counters and
    flags agree with the findings it holds: [total_findings] is the number
    of findings, [has_malware] is true exactly when [MalwareFindings] is not
    empty, [has_critical] exactly when some finding is of severity critical
    and [has_high] exactly when some finding is of severity high. *)
Theorem ScanWithProgress_flags_match_findings {W : Type}
    (o : Scanner.Orchestrator) (sched : list nat) (elapsed : Z)
    (packages : list Manifest.Package)
    (cb : option (string -> bool -> W -> W)) (w w' : W)
    (r : Types.AggregatedResult) (calls : list string) :
  Scanner.ScanWithProgress o sched elapsed packages cb w = (Scanner.Ok r, calls, w') ->
  Types.TotalFindings r = Z.of_nat (length (Types.AllFindings r))
  /\ (Types.HasMalware r = true <-> Types.MalwareFindings r <> [])
  /\ (Types.HasCritical r = true <-> 0 < Types.CountBySeverity r "critical")
  /\ (Types.HasHigh r = true <-> 0 < Types.CountBySeverity r "high").
Proof.
  intros H.
  rewrite AllFindings_spec, MalwareFindings_spec, !CountBySeverity_spec.
  destruct packages as [|p packages].
  - cbn in H. injection H as <- _ _. cbn. repeat split; try discriminate; try lia.
    congruence.
  - assert (Hne : p :: packages <> []) by discriminate.
    pose proof (ScanWithProgress_shape o sched elapsed _ cb w Hne) as Hs.
    rewrite H in Hs. cbn [fst] in Hs. cbv zeta in Hs.
    destruct (Scanner.successes _ _) as [|d ds] eqn:Ed.
    + destruct (hd_error _); [discriminate|].
      injection Hs as -> _. cbn. repeat split; try discriminate; try lia. congruence.
    + injection Hs as -> _.
      cbn [Types.TotalFindings Types.Results Types.HasMalware Types.HasCritical
           Types.HasHigh].
      split; [reflexivity|].
      split; [apply existsb_filter_nonempty|]. split; apply existsb_count.
Qed.

Lemma ScanWithProgress_flags_match_findings_witness :
  Types.TotalFindings Samples.highOnly
  = Z.of_nat (length (Types.AllFindings Samples.highOnly))
  /\ (Types.HasMalware Samples.highOnly = true
      <-> Types.MalwareFindings Samples.highOnly <> [])
  /\ (Types.HasCritical Samples.highOnly = true
      <-> 0 < Types.CountBySeverity Samples.highOnly "critical")
  /\ (Types.HasHigh Samples.highOnly = true
      <-> 0 < Types.CountBySeverity Samples.highOnly "high").
Proof.
  apply (ScanWithProgress_flags_match_findings
           (Scanner.mkOrchestrator
              [Scanner.mkScanner "Google OSV"
                 (fun _ =>
                    inl (Types.mkScanResult "Google OSV" 1
                           [Samples.cveFinding "lodash" Types.SeverityHigh] 5 false))
                 true]
              (Samples.cfg false "" true [] []))
           [] 12 [Samples.lodash] None tt tt Samples.highOnly ["Google OSV"]).
  reflexivity.
Defined.

Lemma policy_findings_filter (p : Types.Finding -> bool) (pkgs : list Manifest.Package) :
  (forall pkg f, In f (Types.Findings (Scanner.policyResult pkg)) -> p f = true) ->
  List.filter p (Types.findingsOf (map Scanner.policyResult pkgs))
  = Types.findingsOf (map Scanner.policyResult pkgs).
Proof.
  intros H. induction pkgs as [|pkg pkgs IH]; simpl; [reflexivity|].
  rewrite (H pkg) by (now left). now rewrite IH.
Qed.

Lemma policy_findings_filter_none (p : Types.Finding -> bool) (pkgs : list Manifest.Package) :
  (forall pkg f, In f (Types.Findings (Scanner.policyResult pkg)) -> p f = false) ->
  List.filter p (Types.findingsOf (map Scanner.policyResult pkgs)) = [].
Proof.
  intros H. induction pkgs as [|pkg pkgs IH]; simpl; [reflexivity|].
  rewrite (H pkg) by (now left). exact IH.
Qed.

Lemma policy_finding_facts (pkg : Manifest.Package) (f : Types.Finding) :
  In f (Types.Findings (Scanner.policyResult pkg)) ->
  Types.isMalwareType f = true
  /\ Types.hasSeverity "critical" f = true
  /\ Types.hasSeverity "high" f = false.
Proof. intros [<-|[]]. repeat split. Qed.

Lemma Scan_result_shape (o : Scanner.Orchestrator) (sched : list nat) (elapsed : Z)
    (packages : list Manifest.Package) (r : Types.AggregatedResult) (calls : list string) :
  Scanner.Scan o sched elapsed packages = (Scanner.Ok r, calls) ->
  exists done,
    r = Types.mkAggregatedResult
          (done ++ map Scanner.policyResult (Scanner.blocklisted o packages))
          (Z.of_nat (length (Scanner.filterAllowlisted o packages)))
          (Z.of_nat (length (Types.findingsOf done))
           + Z.of_nat (length (Scanner.blocklisted o packages)))
          (existsb Types.isMalwareType (Types.findingsOf done)
           || negb (length (Scanner.blocklisted o packages) =? 0)%nat)
          (existsb (Types.hasSeverity Types.SeverityCritical) (Types.findingsOf done))
          (existsb (Types.hasSeverity Types.SeverityHigh) (Types.findingsOf done))
          elapsed.
Proof.
  intros H. destruct packages as [|p packages].
  - cbn in H. injection H as <- _. exists []. reflexivity.
  - assert (Hne : p :: packages <> []) by discriminate.
    destruct (Scanner.allFailed o (p :: packages)) eqn:Hall.
    + destruct (Scan_all_failed o sched elapsed _ Hne Hall) as (e & _ & He).
      rewrite He in H. discriminate.
    + rewrite (Scan_not_all_failed o sched elapsed _ Hne Hall) in H.
      injection H as <- _. eexists. reflexivity.
Qed.

(** X14.  In every result that [Scan] returns, [has_malware] is true
    exactly when [MalwareFindings] is not empty and [has_high] exactly when
    some finding is of severity high.  [has_critical] reflects the scanners'
    findings only: when it is true some finding is critical, but the
    findings added for blocklisted packages, which are of severity critical,
    do not set it; when it is false the critical findings are exactly those
    of the blocklisted packages. *)
Theorem Scan_flags_against_findings
    (o : Scanner.Orchestrator) (sched : list nat) (elapsed : Z)
    (packages : list Manifest.Package) (r : Types.AggregatedResult) (calls : list string) :
  Scanner.Scan o sched elapsed packages = (Scanner.Ok r, calls) ->
  (Types.HasMalware r = true <-> Types.MalwareFindings r <> [])
  /\ (Types.HasHigh r = true <-> 0 < Types.CountBySeverity r "high")
  /\ (Types.HasCritical r = true -> 0 < Types.CountBySeverity r "critical")
  /\ (Types.HasCritical r = false ->
      Types.CountBySeverity r "critical"
      = Z.of_nat (length (Scanner.blocklisted o packages))).
Proof.
  intros H. destruct (Scan_result_shape _ _ _ _ _ _ H) as (done & ->).
  rewrite MalwareFindings_spec, !CountBySeverity_spec.
  cbn [Types.Results Types.HasMalware Types.HasHigh Types.HasCritical].
  rewrite findingsOf_app, !List.filter_app, !length_app.
  rewrite (policy_findings_filter Types.isMalwareType)
    by (intros pkg f Hf; apply (policy_finding_facts pkg f Hf)).
  rewrite (policy_findings_filter (Types.hasSeverity "critical"))
    by (intros pkg f Hf; apply (policy_finding_facts pkg f Hf)).
  rewrite (policy_findings_filter_none (Types.hasSeverity "high"))
    by (intros pkg f Hf; apply (policy_finding_facts pkg f Hf)).
  rewrite findingsOf_policy. simpl length. rewrite Nat.add_0_r.
  split; [|split; [|split]].
  - rewrite orb_true_iff, existsb_filter_nonempty, negb_true_iff, Nat.eqb_neq.
    pose proof (findingsOf_policy (Scanner.blocklisted o packages)) as HP.
    split.
    + intros Hor Happ. apply app_eq_nil in Happ as [HF HQ].
      rewrite HQ in HP. simpl in HP. destruct Hor as [Hor|Hor]; [congruence | lia].
    + intros Happ.
      destruct (List.filter Types.isMalwareType (Types.findingsOf done)) as [|x F];
        [|left; discriminate].
      right. intros Hz. rewrite Hz in HP.
      destruct (Types.findingsOf (map Scanner.policyResult (Scanner.blocklisted o packages)));
        [now apply Happ | discriminate].
  - apply existsb_count.
  - intros Hc. apply (existsb_count (Types.hasSeverity "critical")) in Hc. lia.
  - intros Hc.
    assert (Hn : ~ 0 < Z.of_nat (length (List.filter (Types.hasSeverity "critical")
                                          (Types.findingsOf done)))).
    { intros Hx.
      pose proof (proj2 (existsb_count (Types.hasSeverity Types.SeverityCritical)
                           (Types.findingsOf done)) Hx) as Ht.
      congruence. }
    lia.
Qed.

Lemma Scan_flags_against_findings_witness :
  Types.CountBySeverity
    (Types.mkAggregatedResult
       [Types.mkScanResult "Google OSV" 1 [] 5 false;
        Scanner.policyResult Samples.maliciousLib]
       1 1 true false false 7) "critical"
  = Z.of_nat (length (Scanner.blocklisted Samples.oBlock
                        [Samples.lodash; Samples.maliciousLib])).
Proof.
  refine (proj2 (proj2 (proj2
            (Scan_flags_against_findings Samples.oBlock [] 7
               [Samples.lodash; Samples.maliciousLib] _ ["Google OSV"] _))) _).
  - vm_compute. reflexivity.
  - reflexivity.
Defined.

Example Scan_has_critical_ignores_blocklist :
  Types.HasCritical
    (Types.mkAggregatedResult
       [Types.mkScanResult "Google OSV" 1 [] 5 false;
        Scanner.policyResult Samples.maliciousLib]
       1 1 true false false 7) = false
  /\ Types.CountBySeverity
       (Types.mkAggregatedResult
          [Types.mkScanResult "Google OSV" 1 [] 5 false;
           Scanner.policyResult Samples.maliciousLib]
          1 1 true false false 7) "critical" = 1.
Proof. split; reflexivity. Qed.

(** ** The JSON summary *)

Lemma severity_counts_le (l : list Types.Finding) :
  (length (List.filter (Types.hasSeverity "critical") l)
   + length (List.filter (Types.hasSeverity "high") l)
   + length (List.filter (Types.hasSeverity "medium") l)
   + length (List.filter (Types.hasSeverity "low") l)
   <= length l)%nat.
Proof.
  induction l as [|f l IH]; [simpl; lia|].
  cbn [List.filter].
  destruct (Types.hasSeverity "critical" f) eqn:E1;
    destruct (Types.hasSeverity "high" f) eqn:E2;
    destruct (Types.hasSeverity "medium" f) eqn:E3;
    destruct (Types.hasSeverity "low" f) eqn:E4;
    unfold Types.hasSeverity in E1, E2, E3, E4;
    try apply String.eqb_eq in E1; try apply String.eqb_eq in E2;
    try apply String.eqb_eq in E3; try apply String.eqb_eq in E4;
    try congruence; cbn [length]; lia.
Qed.

Lemma malware_counts (l : list Types.Finding) :
  (length (List.filter (fun f => String.eqb (Types.Type_ f) "malware") l)
   + length (List.filter (fun f => String.eqb (Types.Type_ f) "typosquat") l)
   = length (List.filter Types.isMalwareType l))%nat.
Proof.
  induction l as [|f l IH]; [reflexivity|].
  cbn [List.filter]. unfold Types.isMalwareType at 1.
  change Types.FindingTypeMalware with "malware".
  change Types.FindingTypeTyposquat with "typosquat".
  destruct (String.eqb (Types.Type_ f) "malware") eqn:E1;
    destruct (String.eqb (Types.Type_ f) "typosquat") eqn:E2;
    try apply String.eqb_eq in E1; try apply String.eqb_eq in E2;
    try congruence; cbn [orb length]; lia.
Qed.

(** X15.  The summary that [snapem scan --json] prints for a result of
    [Scan] is consistent with the findings it lists: [total] is the number
    of listed findings, [malware] is the number of malware and typosquat
    findings, the four severity counts never add up to more than [total],
    and [packages_scanned] is the number of packages left after the
    allowlist. *)
Theorem outputJSONResult_summary_consistent
    (o : Scanner.Orchestrator) (sched : list nat) (elapsed : Z)
    (packages : list Manifest.Package) (r : Types.AggregatedResult) (calls : list string) :
  Scanner.Scan o sched elapsed packages = (Scanner.Ok r, calls) ->
  Cli.Total (Cli.OutputSummary (Cli.outputJSONResult r))
  = Z.of_nat (length (Cli.Findings (Cli.outputJSONResult r)))
  /\ Cli.Malware (Cli.OutputSummary (Cli.outputJSONResult r))
     = Z.of_nat (length (Types.MalwareFindings r))
  /\ Cli.Critical (Cli.OutputSummary (Cli.outputJSONResult r))
     + Cli.High (Cli.OutputSummary (Cli.outputJSONResult r))
     + Cli.Medium (Cli.OutputSummary (Cli.outputJSONResult r))
     + Cli.Low (Cli.OutputSummary (Cli.outputJSONResult r))
     <= Cli.Total (Cli.OutputSummary (Cli.outputJSONResult r))
  /\ Cli.Packages (Cli.outputJSONResult r)
     = Z.of_nat (length (Scanner.filterAllowlisted o packages)).
Proof.
  intros H. destruct (Scan_result_shape _ _ _ _ _ _ H) as (done & Hr).
  assert (Htotal : Types.TotalFindings r
                   = Z.of_nat (length (Types.findingsOf (Types.Results r)))).
  { rewrite Hr. cbn [Types.TotalFindings Types.Results].
    rewrite findingsOf_app, length_app, findingsOf_policy. lia. }
  unfold Cli.outputJSONResult.
  cbn [Cli.OutputSummary Cli.Total Cli.Findings Cli.Malware Cli.Critical Cli.High
       Cli.Medium Cli.Low Cli.Packages].
  rewrite AllFindings_spec, MalwareFindings_spec, !CountBySeverity_spec, !CountByType_spec.
  split; [exact Htotal|]. split; [|split].
  - pose proof (malware_counts (Types.findingsOf (Types.Results r))).
    change Types.FindingTypeMalware with "malware".
    change Types.FindingTypeTyposquat with "typosquat".
    lia.
  - rewrite Htotal.
    pose proof (severity_counts_le (Types.findingsOf (Types.Results r))).
    change Types.SeverityCritical with "critical". change Types.SeverityHigh with "high".
    change Types.SeverityMedium with "medium". change Types.SeverityLow with "low".
    lia.
  - rewrite Hr. reflexivity.
Qed.

Lemma outputJSONResult_summary_consistent_witness :
  Cli.Total
    (Cli.OutputSummary
       (Cli.outputJSONResult
          (Types.mkAggregatedResult
             [Types.mkScanResult "Google OSV" 1 [] 5 false;
              Scanner.policyResult Samples.maliciousLib]
             1 1 true false false 7)))
  = Z.of_nat
      (length
         (Cli.Findings
            (Cli.outputJSONResult
               (Types.mkAggregatedResult
                  [Types.mkScanResult "Google OSV" 1 [] 5 false;
                   Scanner.policyResult Samples.maliciousLib]
                  1 1 true false false 7)))).
Proof.
  apply (outputJSONResult_summary_consistent Samples.oBlock [] 7
           [Samples.lodash; Samples.maliciousLib] _ ["Google OSV"]).
  vm_compute. reflexivity.
Defined.

(** ** The allowlist *)




(** ** A scan of allowlisted packages only *)










(** ** The scan before an installation *)


Lemma client_started_names
    (socketTransport osvTransport : list Manifest.Package -> Types.ScanResult + Errors.error)
    (clientElapsed : Z) (cfg : Config.Config) (s : Scanner.Scanner) :
  In s (Scanner.started
          (Scanner.NewOrchestrator
             (Clients.socketNewClient socketTransport clientElapsed)
             (Clients.osvNewClient osvTransport clientElapsed) cfg)) ->
  (Scanner.Name s = "Socket.dev"
   /\ Config.SocketEnabled (Config.Socket (Config.Scanning cfg)) = true
   /\ Config.HasSocketToken cfg = true)
  \/ (Scanner.Name s = "Google OSV"
      /\ Config.OSVEnabled (Config.OSV (Config.Scanning cfg)) = true).
Proof.
  unfold Scanner.started, Scanner.NewOrchestrator, Config.HasSocketToken.
  cbn [Scanner.scanners].
  destruct (Config.SocketEnabled _) eqn:Es, (Config.OSVEnabled _) eqn:Eo; simpl;
    try destruct (negb (String.eqb _ "")) eqn:Et; simpl;
    intros H; repeat destruct H as [<-|H]; try contradiction; simpl; auto.
Qed.

Lemma evaluateScanResults_reason (cfg : Config.Config) (r : Types.AggregatedResult) :
  Cli.evaluateScanResults cfg r = None
  \/ Cli.evaluateScanResults cfg r
     = Some (Errors.SecurityBlockError "security threats detected").
Proof.
  destruct (Z.eq_dec (Types.TotalFindings r) 0) as [Hz|Hnz].
  - left. unfold Cli.evaluateScanResults. now rewrite Hz.
  - rewrite (evaluateScanResults_spec cfg r Hnz).
    destruct (_ || _); [now right | now left].
Qed.

(** What [runSecurityScan] leaves behind, case by case. *)
Lemma runSecurityScan_cases (w : Install.World) (cfg : Config.Config)
    (manifest : Manifest.ManifestFile + Errors.error)
    (lockfile : option Manifest.PackageLock) (newPackages : list string) :
  let run := Install.runSecurityScan w cfg manifest lockfile newPackages in
  let asked := negb (Config.HasSocketToken cfg)
               && Config.SocketEnabled (Config.Socket (Config.Scanning cfg)) in
  let accepted := UI.PromptUnsecure (Install.unicodeToLower w) (Install.unicodeTrimSpace w)
                    (Install.unsecureRead w) in
  (Install.cfgAfter run = if asked && accepted then Install.disableSocket cfg else cfg)
  /\ (asked && negb accepted = true ->
      run = Install.mkScanRun (Some Errors.UserAbortError) cfg [])
  /\ (forall name, In name (Install.called run) ->
        (name = "Socket.dev" /\ Config.HasSocketToken cfg = true)
        \/ (name = "Google OSV"
            /\ Config.OSVEnabled (Config.OSV (Config.Scanning cfg)) = true))
  /\ (Install.scanErr run = None
      \/ (Install.scanErr run = Some Errors.UserAbortError /\ asked && negb accepted = true)
      \/ (exists err, Install.scanErr run = Some (Errors.ScannerError "security" err)
                      /\ Install.called run <> [])
      \/ (Install.scanErr run
          = Some (Errors.SecurityBlockError "security threats detected")
          /\ Install.called run <> [])).
Proof.
  cbv zeta. unfold Install.runSecurityScan.
  set (asked := negb (Config.HasSocketToken cfg)
                && Config.SocketEnabled (Config.Socket (Config.Scanning cfg))).
  set (accepted := UI.PromptUnsecure _ _ _).
  destruct (asked && negb accepted) eqn:Edecl.
  { cbn [Install.cfgAfter Install.called Install.scanErr].
    assert (Ha : asked && accepted = false)
      by (destruct asked, accepted; simpl in *; congruence).
    rewrite Ha. split; [reflexivity|]. split; [reflexivity|].
    split; [contradiction | auto]. }
  set (cfg' := if asked then Install.disableSocket cfg else cfg).
  assert (Hcfg : cfg' = if asked && accepted then Install.disableSocket cfg else cfg).
  { unfold cfg'. destruct asked, accepted; simpl in *; congruence. }
  assert (Htok : Config.HasSocketToken cfg' = Config.HasSocketToken cfg)
    by (unfold cfg'; now destruct asked).
  assert (Hosv : Config.OSVEnabled (Config.OSV (Config.Scanning cfg'))
                 = Config.OSVEnabled (Config.OSV (Config.Scanning cfg)))
    by (unfold cfg'; now destruct asked).
  set (packages := fold_left Install.newPackage newPackages _).
  destruct (length packages =? 0)%nat eqn:Elen.
  { cbn [Install.cfgAfter Install.called Install.scanErr].
    split; [exact Hcfg|]. split; [discriminate|]. split; [contradiction | auto]. }
  set (orch := Scanner.NewOrchestrator _ _ cfg').
  destruct (length (Scanner.AvailableScanners orch) =? 0)%nat eqn:Eav.
  { cbn [Install.cfgAfter Install.called Install.scanErr].
    split; [exact Hcfg|]. split; [discriminate|]. split; [contradiction | auto]. }
  assert (Hne : packages <> []) by (destruct packages; discriminate).
  pose proof (ScanWithProgress_shape orch (Install.sched w) (Install.elapsed w) packages
                (Some (fun (name : string) (done : bool) (u : unit) => u)) tt Hne) as Hs.
  destruct (Scanner.ScanWithProgress orch _ _ packages _ tt) as [[ret called] u].
  cbn [fst] in Hs. cbv zeta in Hs.
  assert (Hc : called = map Scanner.Name
                          (Scanner.completionOrder (Install.sched w) (Scanner.started orch)))
    by (now injection Hs).
  assert (Hcalled : forall name, In name called ->
             (name = "Socket.dev" /\ Config.HasSocketToken cfg = true)
             \/ (name = "Google OSV"
                 /\ Config.OSVEnabled (Config.OSV (Config.Scanning cfg)) = true)).
  { rewrite Hc. intros name Hin.
    apply in_map_iff in Hin as (s & <- & Hin).
    apply (Permutation_in _ (completionOrder_Permutation _ _)) in Hin.
    apply client_started_names in Hin as [(Hn & _ & Ht)|(Hn & Ho)].
    - left. split; [exact Hn | now rewrite <- Htok].
    - right. split; [exact Hn | now rewrite <- Hosv]. }
  assert (Hsome : called <> []).
  { rewrite Hc. intros Hnil. apply map_eq_nil in Hnil.
    apply completionOrder_nil in Hnil.
    rewrite AvailableScanners_spec, Hnil in Eav. discriminate. }
  destruct ret as [result|err]; cbn [Install.cfgAfter Install.called Install.scanErr].
  - split; [exact Hcfg|]. split; [discriminate|]. split; [exact Hcalled|].
    destruct (evaluateScanResults_reason cfg' result) as [->| ->]; auto.
  - split; [exact Hcfg|]. split; [discriminate|]. split; [exact Hcalled|].
    right. right. left. eauto.
Qed.

(** X18.  [runSecurityScan] never changes the policy of the configuration.
    It calls no scanner other than Socket.dev and Google OSV, Socket.dev
    only when a token is configured and OSV only when it is enabled.  Its
    error is nil, the user abort, a scanner error labelled "security", or
    the security block "security threats detected", nothing else, and the
    last two only after a scanner was called.  If the token is missing while
    Socket is enabled and the user does not type the phrase at
    [PromptUnsecure], it returns the user abort without calling a scanner
    and leaves the configuration as it was; if the user does, Socket is
    disabled in the configuration from then on.  With OSV disabled and no
    token it never scans: unless the user aborted it returns nil. *)
Theorem runSecurityScan_outcomes (w : Install.World) (cfg : Config.Config)
    (manifest : Manifest.ManifestFile + Errors.error)
    (lockfile : option Manifest.PackageLock) (newPackages : list string) :
  (Config.Policy (Config.Scanning
                    (Install.cfgAfter
                       (Install.runSecurityScan w cfg manifest lockfile newPackages)))
   = Config.Policy (Config.Scanning cfg))
  /\ (forall name,
        In name (Install.called (Install.runSecurityScan w cfg manifest lockfile newPackages)) ->
        (name = "Socket.dev" /\ Config.HasSocketToken cfg = true)
        \/ (name = "Google OSV"
            /\ Config.OSVEnabled (Config.OSV (Config.Scanning cfg)) = true))
  /\ (Install.scanErr (Install.runSecurityScan w cfg manifest lockfile newPackages) = None
      \/ Install.scanErr (Install.runSecurityScan w cfg manifest lockfile newPackages)
         = Some Errors.UserAbortError
      \/ (exists cause,
            Install.scanErr (Install.runSecurityScan w cfg manifest lockfile newPackages)
            = Some (Errors.ScannerError "security" cause)
            /\ Install.called (Install.runSecurityScan w cfg manifest lockfile newPackages)
               <> [])
      \/ (Install.scanErr (Install.runSecurityScan w cfg manifest lockfile newPackages)
          = Some (Errors.SecurityBlockError "security threats detected")
          /\ Install.called (Install.runSecurityScan w cfg manifest lockfile newPackages)
             <> []))
  /\ (Config.HasSocketToken cfg = false ->
      Config.SocketEnabled (Config.Socket (Config.Scanning cfg)) = true ->
      if UI.PromptUnsecure (Install.unicodeToLower w) (Install.unicodeTrimSpace w)
           (Install.unsecureRead w)
      then Install.cfgAfter (Install.runSecurityScan w cfg manifest lockfile newPackages)
           = Install.disableSocket cfg
      else Install.runSecurityScan w cfg manifest lockfile newPackages
           = Install.mkScanRun (Some Errors.UserAbortError) cfg [])
  /\ (Config.HasSocketToken cfg = false ->
      Config.OSVEnabled (Config.OSV (Config.Scanning cfg)) = false ->
      Install.called (Install.runSecurityScan w cfg manifest lockfile newPackages) = []
      /\ (Install.scanErr (Install.runSecurityScan w cfg manifest lockfile newPackages)
          = None
          \/ Install.scanErr (Install.runSecurityScan w cfg manifest lockfile newPackages)
             = Some Errors.UserAbortError)).
Proof.
  destruct (runSecurityScan_cases w cfg manifest lockfile newPackages)
    as (Hcfg & Hdecl & Hcall & Herr).
  cbv zeta in Hcfg, Hdecl, Hcall, Herr.
  split; [|split; [exact Hcall|split; [|split]]].
  - rewrite Hcfg. now destruct (_ && _).
  - destruct Herr as [H|[[H _]|[H|H]]]; auto.
  - intros Htok Hen. rewrite Htok, Hen in Hcfg, Hdecl. cbn [negb andb] in Hcfg, Hdecl.
    destruct (UI.PromptUnsecure _ _ _); [exact Hcfg | now apply Hdecl].
  - intros Htok Hosv.
    assert (Hnone : Install.called
                      (Install.runSecurityScan w cfg manifest lockfile newPackages) = []).
    { destruct (Install.called _) as [|name rest]; [reflexivity|].
      destruct (Hcall name (or_introl eq_refl)) as [[_ H]|[_ H]]; congruence. }
    split; [exact Hnone|].
    destruct Herr as [H|[[H _]|[(cause & _ & H)|[_ H]]]]; auto; contradiction.
Qed.

Lemma runSecurityScan_outcomes_witness :
  Install.runSecurityScan
    (Install.mkWorld (Samples.quiet "Socket.dev") (Samples.quiet "Google OSV") [] 7
       (fun s => s) (fun s => s)
       (UI.ReadLine (Samples.typed "no")) (UI.ReadLine (Samples.typed "force")))
    (Samples.cfg true "" true [] [])
    (inl Samples.manifest) None []
  = Install.mkScanRun (Some Errors.UserAbortError) (Samples.cfg true "" true [] []) [].
Proof.
  apply (proj1 (proj2 (proj2 (proj2
           (runSecurityScan_outcomes
              (Install.mkWorld (Samples.quiet "Socket.dev") (Samples.quiet "Google OSV") [] 7
                 (fun s => s) (fun s => s)
                 (UI.ReadLine (Samples.typed "no")) (UI.ReadLine (Samples.typed "force")))
              (Samples.cfg true "" true [] [])
              (inl Samples.manifest) None []))))).
  - reflexivity.
  - reflexivity.
Defined.

Example runSecurityScan_unsecure_then_osv :
  Install.runSecurityScan
    (Install.mkWorld (Samples.quiet "Socket.dev") (Samples.twoFindings "Google OSV") [] 7
       (fun s => s) (fun s => s)
       (UI.ReadLine (Samples.typed "unsecure")) (UI.ReadLine (Samples.typed "no")))
    (Samples.cfg true "" true [] [])
    (inl Samples.manifest) None ["@types/node@20.1.0"]
  = Install.mkScanRun None (Install.disableSocket (Samples.cfg true "" true [] []))
      ["Google OSV"].
Proof. vm_compute. reflexivity. Qed.


Example runInstall_force_overrides_final_block :
  Install.runInstall
    (Install.mkWorld (Samples.quiet "Socket.dev") (Samples.failing "status 503") [] 7
       (fun s => s) (fun s => s)
       (UI.ReadLine (Samples.typed "unsecure")) (UI.ReadLine (Samples.typed "no")))
    false true
    (Config.mkConfig
       (Config.mkScanningConfig true (Config.mkSocketConfig false "" 30)
          (Config.mkOSVConfig true 30)
          (Config.mkPolicyConfig "block" ∅ false [] [])))
    (inl Samples.manifest) None []
  = Install.Proceeds.
Proof. vm_compute. reflexivity. Qed.

(** ** PromptConfirm *)





Example PromptConfirm_examples :
  UI.PromptConfirm (fun s => s) (fun s => s) true (UI.ReadLine (Samples.typed "yeah")) = false
  /\ UI.PromptConfirm (fun s => s) (fun s => s) false (UI.ReadLine (Samples.typed " YES ")) = true
  /\ UI.PromptConfirm (fun s => s) (fun s => s) true (UI.ReadLine (Samples.typed "n")) = false
  /\ UI.PromptConfirm (fun s => s) (fun s => s) false (UI.ReadLine (Samples.typed "")) = false.
Proof. repeat split; reflexivity. Qed.

(** ** The [-p] flags of [snapem run] *)

Lemma indexByte_none (sep : ascii) (l : list ascii) :
  ByteIndex.indexByte sep l = None <-> ~ In sep l.
Proof.
  induction l as [|c l IH]; simpl; [tauto|].
  destruct (Ascii.eqb c sep) eqn:E.
  - apply Ascii.eqb_eq in E. split; [discriminate | intros H; exfalso; auto].
  - apply Ascii.eqb_neq in E.
    destruct (ByteIndex.indexByte sep l) as [j|].
    + split; [discriminate|]. intros H. exfalso.
      assert (Hn : ~ In sep l) by (intros Hin; apply H; now right).
      apply IH in Hn. discriminate.
    + split; [|reflexivity]. intros _ [H|H]; [congruence|].
      now apply (proj1 IH).
Qed.

Lemma indexByte_app (sep : ascii) (l r : list ascii) :
  ~ In sep l -> ByteIndex.indexByte sep (l ++ sep :: r) = Some (length l).
Proof.
  induction l as [|c l IH]; intros Hl; simpl.
  - now rewrite Ascii.eqb_refl.
  - destruct (Ascii.eqb c sep) eqn:E.
    + apply Ascii.eqb_eq in E. exfalso. apply Hl. now left.
    + rewrite IH; [reflexivity|]. intros H. apply Hl. now right.
Qed.

Lemma indexByte_some (sep : ascii) (l : list ascii) (i : nat) :
  ByteIndex.indexByte sep l = Some i ->
  l = firstn i l ++ sep :: skipn (S i) l /\ In sep l.
Proof.
  revert i. induction l as [|c l IH]; intros i; simpl; [discriminate|].
  destruct (Ascii.eqb c sep) eqn:E.
  - apply Ascii.eqb_eq in E. subst c. intros [= <-]. simpl. auto.
  - destruct (ByteIndex.indexByte sep l) as [j|]; [|discriminate].
    intros [= <-]. destruct (IH j eq_refl) as [H1 H2].
    split; [|now right]. cbn [firstn skipn app]. now rewrite <- H1.
Qed.

Lemma append_assoc (s t u : string) : (s +:+ t) +:+ u = s +:+ t +:+ u.
Proof. apply bytes_inj. rewrite !bytes_append. now rewrite <- app_assoc. Qed.

Lemma portMapping_split (host container : string) :
  ~ In ":"%char (Bytes.bytes host) ->
  Run.portMapping (host +:+ ":" +:+ container) = Container.mkPortMapping host container.
Proof.
  intros Hh. unfold Run.portMapping, Run.SplitN2.
  rewrite bytes_append. change (Bytes.bytes (":" +:+ container))
    with (":"%char :: Bytes.bytes container).
  rewrite indexByte_app by exact Hh.
  rewrite length_bytes.
  destruct (split_at_separator host container) as [_ Hs].
  f_equal.
  - apply prefix_app.
  - rewrite <- (append_assoc host ":" container).
    replace (S (String.length host)) with (String.length (host +:+ ":"))
      by (rewrite length_append; simpl; lia).
    apply suffix_app.
Qed.

Lemma portMapping_single (spec : string) :
  ~ In ":"%char (Bytes.bytes spec) ->
  Run.portMapping spec = Container.mkPortMapping spec spec.
Proof.
  intros H. unfold Run.portMapping, Run.SplitN2.
  now rewrite (proj2 (indexByte_none _ _) H).
Qed.

Lemma portMapping_printed (spec : string) :
  Container.HostPort (Run.portMapping spec) +:+ ":"
    +:+ Container.ContainerPort (Run.portMapping spec)
  = if existsb (Ascii.eqb ":"%char) (Bytes.bytes spec) then spec
    else spec +:+ ":" +:+ spec.
Proof.
  unfold Run.portMapping, Run.SplitN2.
  destruct (ByteIndex.indexByte ":"%char (Bytes.bytes spec)) as [i|] eqn:E.
  - destruct (indexByte_some _ _ _ E) as [Hl Hin].
    assert (Hex : existsb (Ascii.eqb ":"%char) (Bytes.bytes spec) = true).
    { apply existsb_exists. exists ":"%char. split; [exact Hin | reflexivity]. }
    rewrite Hex. cbn [Container.HostPort Container.ContainerPort].
    unfold Bytes.prefix, Bytes.suffix.
    apply bytes_inj. rewrite !bytes_append, !bytes_str. symmetry. exact Hl.
  - apply indexByte_none in E.
    assert (Hex : existsb (Ascii.eqb ":"%char) (Bytes.bytes spec) = false).
    { apply not_true_is_false. intros H. apply existsb_exists in H as (c & Hc & Hcc).
      apply Ascii.eqb_eq in Hcc. now subst c. }
    now rewrite Hex.
Qed.

(** X21.  A [-p] flag is split at its first colon only: what is before it is
    the host port and everything after it, further colons included, the
    container port; a flag without a colon publishes the same port on both
    sides.  Printed again by [buildArgs] as [--publish host:container], a
    flag with a colon reads exactly as the user typed it. *)
Theorem portMapping_splits_at_first_colon :
  (forall host container : string,
     ~ In ":"%char (Bytes.bytes host) ->
     Run.portMapping (host +:+ ":" +:+ container)
     = Container.mkPortMapping host container)
  /\ (forall spec : string,
        ~ In ":"%char (Bytes.bytes spec) ->
        Run.portMapping spec = Container.mkPortMapping spec spec)
  /\ (forall (spec : string) (args : list string),
        Container.portArgs args (Run.portMapping spec)
        = args ++ ["--publish";
                   if existsb (Ascii.eqb ":"%char) (Bytes.bytes spec) then spec
                   else spec +:+ ":" +:+ spec]).
Proof.
  split; [exact portMapping_split|]. split; [exact portMapping_single|].
  intros spec args. unfold Container.portArgs. now rewrite portMapping_printed.
Qed.

Lemma portMapping_splits_at_first_colon_witness :
  Run.portMapping "127.0.0.1:8080:3000" = Container.mkPortMapping "127.0.0.1" "8080:3000"
  /\ Run.portMapping "3000" = Container.mkPortMapping "3000" "3000".
Proof.
  split.
  - apply (proj1 portMapping_splits_at_first_colon "127.0.0.1" "8080:3000").
    vm_compute. intuition discriminate.
  - apply (proj1 (proj2 portMapping_splits_at_first_colon) "3000").
    vm_compute. intuition discriminate.
Defined.

(** ** The arguments of the container command *)




Example runRun_container_arguments_example :
  Container.buildArgs
    (Run.withPorts
       (PkgManager.BuildContainerOptions (PkgManager.NewBun "") "/home/dev/site"
          (Run.networkMode false "none") (PkgManager.RunCommand (PkgManager.NewBun "") "dev" ["--open"]))
       ["8080:3000"; "9229"] false "dev" 5173 "5173")
  = ["run"; "--rm"; "--interactive"; "--tty"; "--volume"; "/home/dev/site:/app";
     "--workdir"; "/app"; "--publish"; "8080:3000"; "--publish"; "9229:9229";
     "--network"; "none"; "oven/bun:latest"; "bun"; "run"; "dev"; "--open"].
Proof. vm_compute. reflexivity. Qed.

(** ** The package manager *)

(** X23.  [Detect] never yields a manager without an image: the configured
    image of the chosen manager when there is a non-empty one, else the
    manager's default.  A preference of "npm" or "bun" decides the manager
    whatever lockfile is present; any other preference is ignored and the
    presence of a bun lockfile decides. *)
Theorem Detect_manager_and_image (hasBunLockfile : bool) (preferred : string)
    (images : gmap string string) :
  let mgr := PkgManager.Detect hasBunLockfile preferred images in
  PkgManager.Image mgr <> ""
  /\ (forall image, images !! PkgManager.Name mgr = Some image -> image <> "" ->
      PkgManager.Image mgr = image)
  /\ ((images !! PkgManager.Name mgr = None \/ images !! PkgManager.Name mgr = Some "") ->
      PkgManager.Image mgr
      = if String.eqb (PkgManager.Name mgr) "npm" then "node:lts-slim"
        else "oven/bun:latest")
  /\ (preferred = "npm" \/ preferred = "bun" -> PkgManager.Name mgr = preferred)
  /\ (preferred <> "npm" -> preferred <> "bun" ->
      PkgManager.Name mgr = if hasBunLockfile then "bun" else "npm").
Proof.
  cbv zeta. unfold PkgManager.Detect, PkgManager.imageOf.
  assert (Hnpm : forall image, PkgManager.Image (PkgManager.NewNPM image) <> ""
                 /\ PkgManager.Name (PkgManager.NewNPM image) = "npm"
                 /\ PkgManager.Image (PkgManager.NewNPM image)
                    = if String.eqb image "" then "node:lts-slim" else image).
  { intros image. unfold PkgManager.NewNPM. cbn [PkgManager.Image PkgManager.Name].
    destruct (String.eqb image "") eqn:E; repeat split; try discriminate.
    now apply String.eqb_neq in E. }
  assert (Hbun : forall image, PkgManager.Image (PkgManager.NewBun image) <> ""
                 /\ PkgManager.Name (PkgManager.NewBun image) = "bun"
                 /\ PkgManager.Image (PkgManager.NewBun image)
                    = if String.eqb image "" then "oven/bun:latest" else image).
  { intros image. unfold PkgManager.NewBun. cbn [PkgManager.Image PkgManager.Name].
    destruct (String.eqb image "") eqn:E; repeat split; try discriminate.
    now apply String.eqb_neq in E. }
  assert (Hcase :
    forall (pick : bool),
      let mgr := if pick then PkgManager.NewNPM
                                (match images !! "npm" with Some i => i | None => "" end)
                 else PkgManager.NewBun
                        (match images !! "bun" with Some i => i | None => "" end) in
      PkgManager.Name mgr = (if pick then "npm" else "bun")
      /\ PkgManager.Image mgr <> ""
      /\ (forall image, images !! PkgManager.Name mgr = Some image -> image <> "" ->
          PkgManager.Image mgr = image)
      /\ ((images !! PkgManager.Name mgr = None
           \/ images !! PkgManager.Name mgr = Some "") ->
          PkgManager.Image mgr
          = if String.eqb (PkgManager.Name mgr) "npm" then "node:lts-slim"
            else "oven/bun:latest")).
  { intros pick. cbv zeta. destruct pick.
    - destruct (Hnpm (match images !! "npm" with Some i => i | None => "" end))
        as (H1 & H2 & H3).
      rewrite H2, H3. split; [reflexivity|]. split; [now rewrite <- H3|]. split.
      + intros image Hi Hne. rewrite Hi.
        apply String.eqb_neq in Hne. now rewrite Hne.
      + intros [Hi|Hi]; rewrite Hi; reflexivity.
    - destruct (Hbun (match images !! "bun" with Some i => i | None => "" end))
        as (H1 & H2 & H3).
      rewrite H2, H3. split; [reflexivity|]. split; [now rewrite <- H3|]. split.
      + intros image Hi Hne. rewrite Hi.
        apply String.eqb_neq in Hne. now rewrite Hne.
      + intros [Hi|Hi]; rewrite Hi; reflexivity. }
  destruct (String.eqb preferred "npm") eqn:En.
  { apply String.eqb_eq in En. subst preferred.
    destruct (Hcase true) as (H1 & H2 & H3 & H4). cbv zeta in *.
    repeat split; auto. intros H; now contradiction H. }
  destruct (String.eqb preferred "bun") eqn:Eb.
  { apply String.eqb_eq in Eb. subst preferred.
    destruct (Hcase false) as (H1 & H2 & H3 & H4). cbv zeta in *.
    repeat split; auto. intros _ H; now contradiction H. }
  apply String.eqb_neq in En, Eb.
  destruct hasBunLockfile.
  - destruct (Hcase false) as (H1 & H2 & H3 & H4). cbv zeta in *.
    repeat split; auto. intros [H|H]; contradiction.
  - destruct (Hcase true) as (H1 & H2 & H3 & H4). cbv zeta in *.
    repeat split; auto. intros [H|H]; contradiction.
Qed.

Lemma Detect_manager_and_image_witness :
  PkgManager.Image
    (PkgManager.Detect false "yarn" (<["bun" := "oven/bun:1.1"]> (<["npm" := ""]> ∅)))
  = "node:lts-slim".
Proof.
  apply (proj1 (proj2 (proj2 (Detect_manager_and_image false "yarn"
                                (<["bun" := "oven/bun:1.1"]> (<["npm" := ""]> ∅)))))).
  right. vm_compute. reflexivity.
Defined.

(** ** The scan command *)





(** ** Instances *)

Lemma DetectPort_zero_or_valid_port_witness :
  Manifest.DetectPort
    (fun pattern script =>
       if String.eqb pattern "--port[=\s]+(\d+)" then ["--port 4000"; "4000"] else [])
    (inl Samples.manifest) {["dev" := "next dev --port 4000"]}
  = Manifest.detectPortFromScripts
      (fun pattern script =>
         if String.eqb pattern "--port[=\s]+(\d+)" then ["--port 4000"; "4000"] else [])
      {["dev" := "next dev --port 4000"]}
  /\ Manifest.DetectPort (fun pattern script => []) (inl Samples.manifest) ∅ = 0.
Proof.
  split.
  - apply (proj1 (proj2 (proj2 (DetectPort_zero_or_valid_port _ (inl Samples.manifest) _)))
             Samples.manifest eq_refl).
    vm_compute. reflexivity.
  - apply (proj2 (proj2 (proj2 (DetectPort_zero_or_valid_port _ (inl Samples.manifest) _)))
             Samples.manifest eq_refl).
    + intros n _. reflexivity.
    + apply List.Forall_forall. unfold Manifest.priorityOrder.
      repeat (constructor; [split; cbn; intuition discriminate|]).
      constructor.
Defined.


Lemma OSV_convertToFindings_by_position_witness :
  Types.Type_
    (OSV.findingOf Samples.lodash (OSV.mkVulnerability "GHSA-1" "Prototype pollution" "" [] []))
  = "cve".
Proof.
  apply (proj2 (OSV_convertToFindings_by_position [Samples.lodash]
                  (OSV.mkBatchResponse
                     [OSV.mkQueryResult
                        [OSV.mkVulnerability "GHSA-1" "Prototype pollution" "" [] []]]))
           _ eq_refl _ (or_introl eq_refl)).
Defined.

